(** * EmojiForge backend: command dispatch and generation orchestration

    A shallow embedding of [src/emojiforge_backend/main.py] together with
    the properties of its session state machine, its single-item and batch
    pipelines, progress accounting and cancellation.

    Python values that arrive through the JSON protocol are embedded as
    [pyval]; dictionaries are finite maps; floats are IEEE binary64 values
    ([spec_float] at precision 53, exponent bound 1024); handlers run in a
    state-and-exception monad over the session state and the process's
    observable output. *)

From Stdlib Require Import ZArith String Ascii List Bool Lia.
From Stdlib Require Import Floats.SpecFloat.
From stdpp Require Import gmap strings list fin_maps pretty.

Local Open Scope string_scope.
Local Open Scope list_scope.
Local Open Scope Z_scope.

(** ** Python values *)

(** A Python [str] is a sequence of Unicode code points ([ord] of each
    character); an emoji is usually above U+FFFF, so a byte string would
    not do. Dictionary keys are protocol field names and are only compared,
    so they stay plain strings. *)
Definition pystr := list N.

Definition u (s : string) : pystr :=
  List.map N_of_ascii (list_ascii_of_string s).

(** A surrogate code point: the one kind of character that a Python [str]
    can hold and UTF-8 cannot encode. *)
Definition is_surrogate (c : N) : bool := (0xD800 <=? c)%N && (c <=? 0xDFFF)%N.

(** [s.encode("utf-8")] succeeds. *)
Definition encodable_str (s : pystr) : bool :=
  forallb (fun c => negb (is_surrogate c)) s.

#[warnings="-register-all"] Inductive pyval :=
| PNone
| PBool (b : bool)
| PInt (z : Z)
| PFloat (f : spec_float)
| PStr (s : pystr)
| PList (l : list pyval)
| PDict (d : gmap string pyval).

Abbreviation dict := (gmap string pyval).

(** Every string inside the value can be encoded: the text that
    [json.dumps(v, ensure_ascii=False)] makes of it can be printed. The
    keys of a dictionary are byte strings here and need no check; numbers,
    [NaN] and the infinities included, are written in ASCII. *)
Fixpoint encodable (v : pyval) : bool :=
  match v with
  | PStr s => encodable_str s
  | PList l => forallb encodable l
  | PDict d => map_fold (fun _ v' rest => encodable v' && rest) true d
  | PNone | PBool _ | PInt _ | PFloat _ => true
  end.

Inductive exn :=
| KeyError (key : string)
| TypeError
| ValueError
| OverflowError
| AttributeError
| UnicodeEncodeError
| CollaboratorError (msg : pystr).

(** Outcome of a computation that may raise. *)
Inductive Res (A : Type) :=
| Ok (a : A)
| Raise (e : exn).
Arguments Ok {A} a.
Arguments Raise {A} e.

Definition res_bind {A B} (r : Res A) (k : A -> Res B) : Res B :=
  match r with
  | Ok a => k a
  | Raise e => Raise e
  end.

Notation "x <~ r ;; k" := (res_bind r (fun x => k))
  (at level 100, r at next level, right associativity).

(** ** binary64 arithmetic *)

Module F64.
Definition prec := 53.
Definition emax := 1024.

Definition of_Z (z : Z) : spec_float := binary_normalize prec emax z 0 false.
Definition make (m e : Z) : spec_float := binary_normalize prec emax m e false.

Definition zero := S754_zero false.
Definition one := of_Z 1.
Definition half := make 1 (-1).

Definition add := SFadd prec emax.
Definition sub := SFsub prec emax.
Definition mul := SFmul prec emax.
Definition ltb := SFltb.

(** [min(a, b)] and [max(a, b)] of Python: the first argument is kept
    unless the second compares strictly smaller (greater). *)
Definition py_min (a b : spec_float) := if ltb b a then b else a.
Definition py_max (a b : spec_float) := if ltb a b then b else a.

(** [int(f)]: truncation toward zero. *)
Definition to_int (f : spec_float) : Res Z :=
  match f with
  | S754_zero _ => Ok 0
  | S754_infinity _ => Raise OverflowError
  | S754_nan => Raise ValueError
  | S754_finite s m e => Ok (cond_Zopp s (Z.shiftl (Z.pos m) e))
  end.

(** [float(z)]: nearest binary64, or [OverflowError]. *)
Definition of_int (z : Z) : Res spec_float :=
  match of_Z z with
  | S754_infinity _ => Raise OverflowError
  | f => Ok f
  end.

Definition truthy (f : spec_float) : bool :=
  match f with
  | S754_zero _ => false
  | _ => true
  end.
End F64.

(** ** Builtins whose text handling lives in the interpreter *)

Class PyBuiltins := {
  (** [int(s)] and [float(s)] on a string *)
  int_of_str : pystr -> Res Z;
  float_of_str : pystr -> Res spec_float;
  (** [str(v)] on a value that is not already a string *)
  repr_of : pyval -> pystr;
  (** [dict(v)] on a value that is not already a dict *)
  dict_of_iterable : pyval -> Res dict;
  (** [str(ex)] *)
  str_of_exn : exn -> pystr;
  (** [str(uuid.uuid4())], numbered by call *)
  uuid4 : nat -> pystr;
  (** [str(Path(p))] and [str(Path(d) / name)] *)
  path_str : pystr -> pystr;
  path_join : pystr -> pystr -> pystr;
  (** The text of an exception can be encoded: what it quotes, it quotes
      with [repr], which escapes surrogates. A UUID is made of hexadecimal
      digits and dashes. *)
  str_of_exn_encodable : forall ex, encodable_str (str_of_exn ex) = true;
  uuid4_encodable : forall n, encodable_str (uuid4 n) = true
}.

Section Conversions.
Context `{PyBuiltins}.

Definition py_int (v : pyval) : Res Z :=
  match v with
  | PBool b => Ok (if b then 1 else 0)
  | PInt z => Ok z
  | PFloat f => F64.to_int f
  | PStr s => int_of_str s
  | PNone | PList _ | PDict _ => Raise TypeError
  end.

Definition py_float (v : pyval) : Res spec_float :=
  match v with
  | PBool b => Ok (if b then F64.one else F64.zero)
  | PInt z => F64.of_int z
  | PFloat f => Ok f
  | PStr s => float_of_str s
  | PNone | PList _ | PDict _ => Raise TypeError
  end.

Definition py_bool (v : pyval) : bool :=
  match v with
  | PNone => false
  | PBool b => b
  | PInt z => negb (Z.eqb z 0)
  | PFloat f => F64.truthy f
  | PStr s => negb (Nat.eqb (List.length s) 0)
  | PList l => negb (Nat.eqb (List.length l) 0)
  | PDict d => negb (Nat.eqb (size d) 0)
  end.

Definition py_str (v : pyval) : pystr :=
  match v with
  | PStr s => s
  | _ => repr_of v
  end.

Definition py_dict (v : pyval) : Res dict :=
  match v with
  | PDict d => Ok d
  | _ => dict_of_iterable v
  end.

(** [d[k]] *)
Definition getitem (d : dict) (k : string) : Res pyval :=
  match d !! k with
  | Some v => Ok v
  | None => Raise (KeyError k)
  end.

(** [d.get(k, dflt)] *)
Definition dict_get (d : dict) (k : string) (dflt : pyval) : pyval :=
  default dflt (d !! k).

(** [d.pop(k, dflt)]: the value and the dictionary without the key. *)
Definition dict_pop (d : dict) (k : string) (dflt : pyval) : pyval * dict :=
  (default dflt (d !! k), delete k d).

(** ** Settings normalisation: [_normalize_settings] *)

(** [if k in out: out[k] = conv(out[k])] *)
Definition convert_in_place (k : string) (conv : pyval -> Res pyval)
    (out : dict) : Res dict :=
  match out !! k with
  | Some v => v' <~ conv v ;; Ok (<[k := v']> out)
  | None => Ok out
  end.

Definition as_int (v : pyval) : Res pyval := z <~ py_int v ;; Ok (PInt z).
Definition as_float (v : pyval) : Res pyval := f <~ py_float v ;; Ok (PFloat f).
Definition as_bool (v : pyval) : Res pyval := Ok (PBool (py_bool v)).
Definition as_str (v : pyval) : Res pyval := Ok (PStr (py_str v)).

(** [if "cfg_scale" in out: out["guidance_scale"] = float(out.pop("cfg_scale"))] *)
Definition resolve_cfg_scale (out : dict) : Res dict :=
  match out !! "cfg_scale" with
  | Some v =>
      f <~ py_float v ;;
      Ok (<["guidance_scale" := PFloat f]> (delete "cfg_scale" out))
  | None => Ok out
  end.

Definition normalize_dict (out : dict) : Res dict :=
  out <~ convert_in_place "output_size_px" as_int out ;;
  out <~ convert_in_place "num_inference_steps" as_int out ;;
  out <~ convert_in_place "seed" as_int out ;;
  out <~ convert_in_place "batch_size" as_int out ;;
  out <~ convert_in_place "strength" as_float out ;;
  out <~ convert_in_place "guidance_scale" as_float out ;;
  out <~ resolve_cfg_scale out ;;
  out <~ convert_in_place "remove_background" as_bool out ;;
  out <~ convert_in_place "remove_background_strength" as_float out ;;
  out <~ convert_in_place "rembg_model" as_str out ;;
  Ok (delete "max_blend_cap" (delete "same_seed" out)).

Definition _normalize_settings (raw : pyval) : Res dict :=
  match raw with
  | PNone => Ok ∅
  | _ => out <~ py_dict raw ;; normalize_dict out
  end.
End Conversions.

(** ** Output file naming: [_safe_output_path] *)

(** One uppercase hexadecimal digit as a code point. *)
Definition hex_digit (d : N) : N :=
  if (d <? 10)%N then (48 + d)%N else (55 + d)%N.

Fixpoint hex_upper_aux (fuel : nat) (n : N) (acc : pystr) : pystr :=
  match fuel with
  | O => acc
  | S fuel' =>
      if (n =? 0)%N then acc
      else hex_upper_aux fuel' (n / 16)%N (hex_digit (n mod 16)%N :: acc)
  end.

(** The hexadecimal digits of [n], most significant first; none for 0. *)
Definition hex_upper (n : N) : pystr :=
  hex_upper_aux (N.to_nat (N.size n)) n [].

(** The format specification [04X]: uppercase hexadecimal, padded with
    zeros on the left up to a width of four. *)
Definition format_04X (n : N) : pystr :=
  let digits := hex_upper n in
  List.repeat 48%N (4 - List.length digits)%nat ++ digits.

(** [sep.join(parts)] *)
Fixpoint str_join (sep : pystr) (parts : list pystr) : pystr :=
  match parts with
  | [] => []
  | [p] => p
  | p :: rest => p ++ sep ++ str_join sep rest
  end.

(** An integer in an f-string. *)
Definition format_int (z : Z) : pystr := u (pretty z).

Section OutputPath.
Context `{PyBuiltins}.

Definition output_file_name (emoji_char : pystr) (seed batch_index batch_size : Z)
    : pystr :=
  let codepoints := str_join (u "_") (List.map format_04X emoji_char) in
  let suffix := if 1 <? batch_size then u "_b" ++ format_int batch_index else [] in
  u "emoji_" ++ codepoints ++ u "_s" ++ format_int seed ++ suffix ++ u ".png".

Definition _safe_output_path (output_dir emoji_char : pystr)
    (seed batch_index batch_size : Z) : pystr :=
  path_join output_dir (output_file_name emoji_char seed batch_index batch_size).
End OutputPath.

(** ** Images and the toned-down matte *)

Record pixel := { red : Z; green : Z; blue : Z; alpha : Z }.

(** An RGBA image as its pixel data; every band value is a byte. *)
Definition Image := list pixel.

Fixpoint res_map {A B} (f : A -> Res B) (l : list A) : Res (list B) :=
  match l with
  | [] => Ok []
  | a :: rest => b <~ f a ;; bs <~ res_map f rest ;; Ok (b :: bs)
  end.

(** The lambda of line 150: [int((255 * keep) + (p * remove_bg_strength))]. *)
Definition blend_alpha (keep remove_bg_strength : spec_float) (p : Z) : Res Z :=
  F64.to_int (F64.add (F64.mul (F64.of_Z 255) keep)
                      (F64.mul (F64.of_Z p) remove_bg_strength)).

(** [band.point(f)]: the function is tabulated over the 256 byte values and
    the table is applied to every sample. *)
Definition point (f : Z -> Res Z) (band : list Z) : Res (list Z) :=
  lut <~ res_map f (seqZ 0 256) ;;
  Ok (List.map (fun a => List.nth (Z.to_nat a) lut 0) band).

Definition putalpha (img : Image) (band : list Z) : Image :=
  List.map (fun pa : pixel * Z =>
              {| red := red pa.1; green := green pa.1; blue := blue pa.1;
                 alpha := pa.2 |})
           (List.combine img band).

(** Lines 146-151: the matte is softened only below full strength. *)
Definition tone_down (remove_bg_strength : spec_float) (removed : Image) : Res Image :=
  if F64.ltb remove_bg_strength F64.one then
    let keep := F64.sub F64.one remove_bg_strength in
    band <~ point (blend_alpha keep remove_bg_strength) (List.map alpha removed) ;;
    Ok (putalpha removed band)
  else Ok removed.

(** Line 108: [max(0.0, min(1.0, remove_bg_strength))]. *)
Definition clamp_strength (s : spec_float) : spec_float :=
  F64.py_max F64.zero (F64.py_min F64.one s).

(** ** Session state, events and the process *)

Record EmojiGenerator := {
  mode : pystr;
  _fallback : bool;
  fallback_reason : pystr
}.

Record Session := { session_model : pystr }.

Record BackendState := {
  generator : option EmojiGenerator;
  font_path : pyval;
  _rembg_sessions : gmap pystr Session;
  cancel_requested : bool;
  current_index : Z;
  total_items : Z;
  current_emoji : pystr;
  (** whether [_run_lock] is held *)
  _run_lock : bool;
  (** [None]: no worker was ever started; [Some alive] otherwise *)
  _worker_thread : option bool
}.

Record emoji_item := {
  char : pystr;
  name : pystr;
  category : pystr;
  codepoints : pystr
}.

Inductive event :=
| EvReady (g : EmojiGenerator)
| EvEmojiList (emojis : list emoji_item)
| EvProgress (job_id : pystr) (current total : Z) (emoji : pystr)
| EvResult (job_id emoji : pyval) (output_path : pystr) (success skipped : bool)
| EvError (job_id : option pyval) (message : pystr)
| EvCanceled (current total : Z) (message : pystr).

Definition item_encodable (item : emoji_item) : bool :=
  encodable_str (char item) && encodable_str (name item)
  && encodable_str (category item) && encodable_str (codepoints item).

(** Every string of the payload can be encoded in UTF-8. *)
Definition event_encodable (payload : event) : bool :=
  match payload with
  | EvReady g => encodable_str (mode g) && encodable_str (fallback_reason g)
  | EvEmojiList emojis => forallb item_encodable emojis
  | EvProgress job_id _ _ emoji => encodable_str job_id && encodable_str emoji
  | EvResult job_id emoji output_path _ _ =>
      encodable job_id && encodable emoji && encodable_str output_path
  | EvError job_id message =>
      match job_id with
      | Some job_id => encodable job_id
      | None => true
      end && encodable_str message
  | EvCanceled _ _ message => encodable_str message
  end.

(** Calls that leave the core. *)
Inductive call :=
| CallRender (emoji font output_size : pyval)
| CallGenerate (prompt : pyval) (kwargs : dict)
| CallNewSession (model_name : pystr)
| CallRemove
| CallMkdir (path : pystr)
| CallSave (path : pystr)
| CallUnlink (path : pystr)
| CallLoadEngine.

(** The running process: the session state, the lines written to standard
    output, and three pieces of bookkeeping that the code never reads: how
    many UUIDs were drawn, the commands handed to [_handle_generate], and
    the calls made to collaborators. *)
Record Proc := {
  state : BackendState;
  stdout : list event;
  uuid_count : nat;
  jobs : list dict;
  calls : list call
}.

(** The collaborators of section 6. A collaborator's answer may depend on
    when it is asked: the first argument is the number of collaborator
    calls made before this one. *)
Class Collaborators := {
  get_all_emojis : list emoji_item;
  load_engine : nat -> dict -> Res EmojiGenerator;
  render_emoji_to_image : nat -> pyval -> pyval -> pyval -> Res Image;
  engine_generate : nat -> EmojiGenerator -> Image -> pyval -> option pystr -> dict -> Res Image;
  new_session : nat -> pystr -> Res Session;
  rembg_remove : nat -> Image -> Session -> Res Image;
  mkdir_parents : nat -> pystr -> Res unit;
  image_save : nat -> Image -> pystr -> Res unit;
  unlink_if_exists : nat -> pystr -> Res unit;
  (** [out_path.with_name(f"{out_path.stem}{ext}")] and [out_path.parent] *)
  with_stem_suffix : pystr -> pystr -> pystr;
  path_parent : pystr -> pystr;
  (** The texts of the catalog and of the [ready] event can be encoded:
      the catalog is made from the emoji data; the mode of the engine is
      one of the module's own names and its fallback reason is made of the
      module's own messages and of the texts of exceptions. The other
      strings of the [ready] event (the backend file, the Python
      executable, the version of diffusers) are those of the installation
      and are not in the model. *)
  catalog_encodable : forallb item_encodable get_all_emojis = true;
  engine_encodable : forall t cmd g,
    load_engine t cmd = Ok g ->
    encodable_str (mode g) && encodable_str (fallback_reason g) = true
}.

(** Field updates of [BackendState]. *)
Definition set_generator (g : option EmojiGenerator) (st : BackendState) :=
  {| generator := g; font_path := font_path st;
     _rembg_sessions := _rembg_sessions st;
     cancel_requested := cancel_requested st; current_index := current_index st;
     total_items := total_items st; current_emoji := current_emoji st;
     _run_lock := _run_lock st; _worker_thread := _worker_thread st |}.

Definition set_font_path (f : pyval) (st : BackendState) :=
  {| generator := generator st; font_path := f;
     _rembg_sessions := _rembg_sessions st;
     cancel_requested := cancel_requested st; current_index := current_index st;
     total_items := total_items st; current_emoji := current_emoji st;
     _run_lock := _run_lock st; _worker_thread := _worker_thread st |}.

Definition set_rembg_sessions (m : gmap pystr Session) (st : BackendState) :=
  {| generator := generator st; font_path := font_path st;
     _rembg_sessions := m;
     cancel_requested := cancel_requested st; current_index := current_index st;
     total_items := total_items st; current_emoji := current_emoji st;
     _run_lock := _run_lock st; _worker_thread := _worker_thread st |}.

Definition set_cancel_requested (b : bool) (st : BackendState) :=
  {| generator := generator st; font_path := font_path st;
     _rembg_sessions := _rembg_sessions st;
     cancel_requested := b; current_index := current_index st;
     total_items := total_items st; current_emoji := current_emoji st;
     _run_lock := _run_lock st; _worker_thread := _worker_thread st |}.

Definition set_current_index (i : Z) (st : BackendState) :=
  {| generator := generator st; font_path := font_path st;
     _rembg_sessions := _rembg_sessions st;
     cancel_requested := cancel_requested st; current_index := i;
     total_items := total_items st; current_emoji := current_emoji st;
     _run_lock := _run_lock st; _worker_thread := _worker_thread st |}.

Definition set_total_items (t : Z) (st : BackendState) :=
  {| generator := generator st; font_path := font_path st;
     _rembg_sessions := _rembg_sessions st;
     cancel_requested := cancel_requested st; current_index := current_index st;
     total_items := t; current_emoji := current_emoji st;
     _run_lock := _run_lock st; _worker_thread := _worker_thread st |}.

Definition set_current_emoji (e : pystr) (st : BackendState) :=
  {| generator := generator st; font_path := font_path st;
     _rembg_sessions := _rembg_sessions st;
     cancel_requested := cancel_requested st; current_index := current_index st;
     total_items := total_items st; current_emoji := e;
     _run_lock := _run_lock st; _worker_thread := _worker_thread st |}.

Definition set_run_lock (b : bool) (st : BackendState) :=
  {| generator := generator st; font_path := font_path st;
     _rembg_sessions := _rembg_sessions st;
     cancel_requested := cancel_requested st; current_index := current_index st;
     total_items := total_items st; current_emoji := current_emoji st;
     _run_lock := b; _worker_thread := _worker_thread st |}.

Definition set_worker_thread (w : option bool) (st : BackendState) :=
  {| generator := generator st; font_path := font_path st;
     _rembg_sessions := _rembg_sessions st;
     cancel_requested := cancel_requested st; current_index := current_index st;
     total_items := total_items st; current_emoji := current_emoji st;
     _run_lock := _run_lock st; _worker_thread := w |}.

(** [BackendState.__init__] *)
Definition BackendState_init : BackendState :=
  {| generator := None;
     font_path := PStr (u "C:\Windows\Fonts\seguiemj.ttf");
     _rembg_sessions := ∅;
     cancel_requested := false; current_index := 0; total_items := 0;
     current_emoji := [];
     _run_lock := false; _worker_thread := None |}.

Definition Proc_init : Proc :=
  {| state := BackendState_init; stdout := []; uuid_count := 0%nat;
     jobs := []; calls := [] |}.

(** ** The monad of handlers: state of the process, and exceptions *)

Definition M (A : Type) := Proc -> Res A * Proc.

Definition ret {A} (a : A) : M A := fun p => (Ok a, p).

Definition bind {A B} (m : M A) (k : A -> M B) : M B :=
  fun p =>
    match m p with
    | (Ok a, p') => k a p'
    | (Raise e, p') => (Raise e, p')
    end.

Notation "x <- m ;; k" := (bind m (fun x => k))
  (at level 100, m at next level, right associativity).
Notation "m >> k" := (bind m (fun _ => k))
  (at level 100, right associativity).

(** A pure computation that may raise. *)
Definition lift {A} (r : Res A) : M A := fun p => (r, p).

(** [try: body / except Exception as ex: handler(ex)]; what [body] did to
    the process before raising stays done. *)
Definition try_except {A} (body : M A) (handler : exn -> M A) : M A :=
  fun p =>
    match body p with
    | (Ok a, p') => (Ok a, p')
    | (Raise e, p') => handler e p'
    end.

(** [try: body / finally: final] *)
Definition try_finally {A} (body : M A) (final : M unit) : M A :=
  fun p =>
    match body p with
    | (r, p') =>
        match final p' with
        | (Ok _, p'') => (r, p'')
        | (Raise e, p'') => (Raise e, p'')
        end
    end.

Definition get_state : M BackendState := fun p => (Ok (state p), p).

Definition modify_state (f : BackendState -> BackendState) : M unit :=
  fun p => (Ok tt, {| state := f (state p); stdout := stdout p;
                      uuid_count := uuid_count p; jobs := jobs p;
                      calls := calls p |}).

(** [_emit]: one more line on standard output, in UTF-8 and with
    [ensure_ascii=False]. When a string of the payload cannot be encoded,
    [print] raises and nothing is written. *)
Definition _emit (payload : event) : M unit :=
  fun p =>
    if event_encodable payload
    then (Ok tt, {| state := state p; stdout := stdout p ++ [payload];
                    uuid_count := uuid_count p; jobs := jobs p;
                    calls := calls p |})
    else (Raise UnicodeEncodeError, p).

Definition note_job (cmd : dict) : M unit :=
  fun p => (Ok tt, {| state := state p; stdout := stdout p;
                      uuid_count := uuid_count p; jobs := jobs p ++ [cmd];
                      calls := calls p |}).

(** A call to a collaborator: it is recorded, then answered. *)
Definition collaborate {A} (c : call) (answer : nat -> Res A) : M A :=
  fun p => (answer (List.length (calls p)),
            {| state := state p; stdout := stdout p;
               uuid_count := uuid_count p; jobs := jobs p;
               calls := calls p ++ [c] |}).

(** [Path(v)] *)
Definition as_path (v : pyval) : Res pystr :=
  match v with
  | PStr s => Ok s
  | _ => Raise TypeError
  end.

(** [v.get(k, dflt)] on a value that should be a dict. *)
Definition value_get (v : pyval) (k : string) (dflt : pyval) : Res pyval :=
  match v with
  | PDict d => Ok (default dflt (d !! k))
  | _ => Raise AttributeError
  end.

(** [cmd_type == "..."] *)
Definition is_cmd (cmd_type : pyval) (name : string) : bool :=
  match cmd_type with
  | PStr s => bool_decide (s = u name)
  | _ => false
  end.

Inductive loop_ctl :=
| Continue (generation_ordinal : Z)
| Returned.

(** What the dispatcher loop does after a command. *)
Inductive step :=
| Next
| Break
| WorkerStarted (cmd : dict).

Definition not_initialized : pystr := u "Generator not initialized.".
Definition already_in_progress : pystr := u "Generation already in progress.".
Definition canceled_by_user : pystr := u "Generation canceled by user.".

Section Handlers.
Context `{PyBuiltins} `{Collaborators}.

(** [str(uuid.uuid4())] *)
Definition draw_uuid : M pystr :=
  fun p => (Ok (uuid4 (uuid_count p)),
            {| state := state p; stdout := stdout p;
               uuid_count := S (uuid_count p); jobs := jobs p;
               calls := calls p |}).

(** [BackendState.get_rembg_session] *)
Definition get_rembg_session (model_name : pystr) : M Session :=
  st <- get_state ;;
  match _rembg_sessions st !! model_name with
  | Some session => ret session
  | None =>
      session <- collaborate (CallNewSession model_name)
                             (fun t => new_session t model_name) ;;
      modify_state (fun st =>
        set_rembg_sessions (<[model_name := session]> (_rembg_sessions st)) st) >>
      ret session
  end.

(** [BackendState.is_busy] *)
Definition is_busy (st : BackendState) : bool :=
  match _worker_thread st with
  | Some alive => alive
  | None => false
  end.

(** [BackendState.try_begin_run]: a non-blocking acquire. *)
Definition try_begin_run : M bool :=
  st <- get_state ;;
  if _run_lock st then ret false
  else modify_state (set_run_lock true) >> ret true.

(** [BackendState.end_run] *)
Definition end_run : M unit :=
  st <- get_state ;;
  if _run_lock st then modify_state (set_run_lock false) else ret tt.

(** Lines 125-131: the debug artefacts, when asked for. *)
Definition save_debug_base (cmd : dict) (base : Image)
    : M (option pystr * option pystr) :=
  output_path <- lift (getitem cmd "output_path") ;;
  out_path <- lift (as_path output_path) ;;
  let debug_base_path := with_stem_suffix out_path (u ".base_rgba.png") in
  collaborate (CallMkdir (path_parent debug_base_path))
              (fun t => mkdir_parents t (path_parent debug_base_path)) >>
  collaborate (CallSave debug_base_path)
              (fun t => image_save t base debug_base_path) >>
  ret (Some debug_base_path,
       Some (path_str (with_stem_suffix out_path (u ".conditioning.png")))).

(** Lines 141-157: background removal. *)
Definition remove_background (remove_bg rembg_model : pyval)
    (remove_bg_strength : spec_float) (result : Image) : M Image :=
  if py_bool remove_bg then
    session <- get_rembg_session (py_str rembg_model) ;;
    removed <- collaborate CallRemove (fun t => rembg_remove t result session) ;;
    lift (tone_down remove_bg_strength removed)
  else ret result.

Definition unlink_debug (path : option pystr) : M unit :=
  match path with
  | Some p => collaborate (CallUnlink p) (fun t => unlink_if_exists t p)
  | None => ret tt
  end.

(** Lines 113-198: the body of the [try]. *)
Definition generate_job (gen : EmojiGenerator) (cmd : dict) (job_id : pyval)
    (settings : dict) (output_size remove_bg : pyval)
    (remove_bg_strength : spec_float) (rembg_model : pyval)
    (debug_conditioning : bool) : M unit :=
  emoji <- lift (getitem cmd "emoji") ;;
  st <- get_state ;;
  base <- collaborate (CallRender emoji (font_path st) output_size)
            (fun t => render_emoji_to_image t emoji (font_path st) output_size) ;;
  debug <- (if debug_conditioning then save_debug_base cmd base
            else ret (None, None)) ;;
  let debug_base_path := debug.1 in
  let debug_conditioning_path := debug.2 in
  prompt <- lift (getitem cmd "prompt") ;;
  result <- collaborate (CallGenerate prompt settings)
              (fun t => engine_generate t gen base prompt
                          debug_conditioning_path settings) ;;
  result <- remove_background remove_bg rembg_model remove_bg_strength result ;;
  output_path <- lift (getitem cmd "output_path") ;;
  out_path <- lift (as_path output_path) ;;
  collaborate (CallMkdir (path_parent out_path))
              (fun t => mkdir_parents t (path_parent out_path)) >>
  collaborate (CallSave out_path) (fun t => image_save t result out_path) >>
  unlink_debug debug_base_path >>
  unlink_debug debug_conditioning_path >>
  emoji <- lift (getitem cmd "emoji") ;;
  _emit (EvResult job_id emoji (path_str out_path) true false).

(** [_handle_generate] *)
Definition _handle_generate (cmd : dict) : M unit :=
  note_job cmd >>
  st <- get_state ;;
  match generator st with
  | None =>
      _emit (EvError (Some (dict_get cmd "job_id" (PStr []))) not_initialized)
  | Some gen =>
      fresh <- draw_uuid ;;
      let job_id := dict_get cmd "job_id" (PStr fresh) in
      let preserve_progress :=
        py_bool (dict_get cmd "preserve_progress_state" (PBool false)) in
      (if preserve_progress then ret tt
       else
         modify_state (set_current_index 1) >>
         modify_state (set_total_items 1) >>
         modify_state (set_current_emoji
                         (py_str (dict_get cmd "emoji" (PStr []))))) >>
      settings <- lift (_normalize_settings (dict_get cmd "settings" PNone)) ;;
      let '(output_size, settings) :=
        dict_pop settings "output_size_px" (PInt 512) in
      let '(remove_bg, settings) :=
        dict_pop settings "remove_background" (PBool true) in
      let '(strength, settings) :=
        dict_pop settings "remove_background_strength" (PFloat F64.one) in
      remove_bg_strength <- lift (py_float strength) ;;
      let remove_bg_strength := clamp_strength remove_bg_strength in
      let '(rembg_model, settings) :=
        dict_pop settings "rembg_model" (PStr (u "birefnet-general")) in
      let '(debug, settings) :=
        dict_pop settings "debug_save_conditioning" (PBool false) in
      let debug_conditioning := py_bool debug in
      try_except
        (generate_job gen cmd job_id settings output_size remove_bg
                      remove_bg_strength rembg_model debug_conditioning)
        (fun ex => _emit (EvError (Some job_id) (str_of_exn ex)))
  end.
(** *** The batch: [_handle_generate_all] *)

(** While a batch works, the dispatcher thread keeps reading commands. A
    [generate] or [generate_all] is rejected then and changes nothing;
    [cancel] and [quit] set [cancel_requested]. The worker reads the flag
    only at the top of an iteration, so the dispatcher's writes are
    applied there: [cancels k] tells whether the flag was set between
    the end of item [k] and the check that precedes item [k+1]
    ([cancels 0]: between line 208 and the first check). *)
Definition dispatcher_interleaves (cancels : Z -> bool)
    (generation_ordinal : Z) : M unit :=
  if cancels generation_ordinal
  then modify_state (set_cancel_requested true)
  else ret tt.

Section BatchLoop.
Variable cancels : Z -> bool.
Variable cmd : dict.
Variable settings : dict.
Variable output_dir : pystr.
Variables total base_seed batch_size : Z.
Variable same_seed : bool.

Definition per_seed_of (generation_ordinal : Z) : Z :=
  if same_seed then base_seed else base_seed + (generation_ordinal - 1).

(** The command built at lines 269-277. *)
Definition item_command (job_id emoji_char : pystr) (prompt : pyval)
    (out_path : pystr) (per_settings : dict) : dict :=
  <["cmd" := PStr (u "generate")]>
  (<["job_id" := PStr job_id]>
  (<["emoji" := PStr emoji_char]>
  (<["prompt" := prompt]>
  (<["output_path" := PStr out_path]>
  (<["settings" := PDict per_settings]>
  (<["preserve_progress_state" := PBool true]> ∅)))))).

(** [for item in emojis: ...] (lines 221-278) for one [batch_index]. *)
Fixpoint batch_items (batch_index : Z) (items : list emoji_item)
    (generation_ordinal : Z) : M loop_ctl :=
  match items with
  | [] => ret (Continue generation_ordinal)
  | item :: rest =>
      dispatcher_interleaves cancels generation_ordinal >>
      st <- get_state ;;
      if cancel_requested st then
        _emit (EvCanceled generation_ordinal total canceled_by_user) >>
        modify_state (set_current_index 0) >>
        modify_state (set_total_items 0) >>
        modify_state (set_current_emoji []) >>
        ret Returned
      else
        let generation_ordinal := generation_ordinal + 1 in
        let emoji_char := char item in
        modify_state (set_current_index generation_ordinal) >>
        modify_state (set_current_emoji emoji_char) >>
        let per_seed := per_seed_of generation_ordinal in
        let out_path :=
          _safe_output_path (path_str output_dir) emoji_char per_seed
                            batch_index batch_size in
        job_id <- draw_uuid ;;
        _emit (EvProgress job_id generation_ordinal total emoji_char) >>
        let per_settings := <["seed" := PInt per_seed]> settings in
        prompt <- lift (getitem cmd "prompt") ;;
        _handle_generate
          (item_command job_id emoji_char prompt out_path per_settings) >>
        batch_items batch_index rest generation_ordinal
  end.

(** [for batch_index in range(1, batch_size + 1): ...] (line 220). *)
Fixpoint batch_passes (batch_indices : list Z) (generation_ordinal : Z)
    : M loop_ctl :=
  match batch_indices with
  | [] => ret (Continue generation_ordinal)
  | batch_index :: rest =>
      ctl <- batch_items batch_index get_all_emojis generation_ordinal ;;
      match ctl with
      | Returned => ret Returned
      | Continue generation_ordinal => batch_passes rest generation_ordinal
      end
  end.
End BatchLoop.

Definition _handle_generate_all (cancels : Z -> bool) (cmd : dict) : M unit :=
  st <- get_state ;;
  match generator st with
  | None => _emit (EvError (Some (PStr [])) not_initialized)
  | Some _ =>
      modify_state (set_cancel_requested false) >>
      let emojis := get_all_emojis in
      let base_settings := dict_get cmd "settings" (PDict ∅) in
      batch_size <- lift (v <~ value_get base_settings "batch_size" (PInt 1) ;;
                          py_int v) ;;
      let batch_size := Z.max 1 batch_size in
      let total := Z.of_nat (List.length emojis) * batch_size in
      modify_state (set_total_items total) >>
      base_seed <- lift (v <~ value_get base_settings "seed" (PInt 42) ;;
                         py_int v) ;;
      same_seed <- lift (v <~ value_get base_settings "same_seed" (PBool false) ;;
                         Ok (py_bool v)) ;;
      settings <- lift (_normalize_settings base_settings) ;;
      output_dir <- lift (v <~ getitem cmd "output_dir" ;; as_path v) ;;
      ctl <- batch_passes cancels cmd settings output_dir total base_seed
               batch_size same_seed (seqZ 1 batch_size) 0 ;;
      match ctl with
      | Returned => ret tt
      | Continue _ =>
          modify_state (set_current_index 0) >>
          modify_state (set_total_items 0) >>
          modify_state (set_current_emoji [])
      end
  end.

(** [_run_generate_all_worker] *)
Definition _run_generate_all_worker (cancels : Z -> bool) (cmd : dict) : M unit :=
  try_finally
    (try_except (_handle_generate_all cancels cmd)
                (fun ex => _emit (EvError (Some (PStr [])) (str_of_exn ex))))
    end_run.

(** The worker thread has run to its end. *)
Definition worker_exits : M unit :=
  modify_state (fun st =>
    match _worker_thread st with
    | Some _ => set_worker_thread (Some false) st
    | None => st
    end).

(** *** The dispatcher: one turn of the loop of [main] on a parsed command *)

Definition dispatch_init (cmd : dict) : M step :=
  modify_state (set_font_path
    (dict_get cmd "font_path" (PStr (u "C:\Windows\Fonts\seguiemj.ttf")))) >>
  try_except
    (g <- collaborate CallLoadEngine (fun t => load_engine t cmd) ;;
     modify_state (set_generator (Some g)) >>
     _emit (EvReady g))
    (fun ex => _emit (EvError None (str_of_exn ex))) >>
  ret Next.

Definition dispatch_generate (cmd : dict) : M step :=
  st <- get_state ;;
  if is_busy st then
    _emit (EvError (Some (dict_get cmd "job_id" (PStr []))) already_in_progress) >>
    ret Next
  else
    modify_state (set_cancel_requested false) >>
    _handle_generate cmd >>
    ret Next.

Definition dispatch_generate_all (cmd : dict) : M step :=
  st <- get_state ;;
  if is_busy st then
    _emit (EvError (Some (PStr [])) already_in_progress) >> ret Next
  else
    acquired <- try_begin_run ;;
    if negb acquired then
      _emit (EvError (Some (PStr [])) already_in_progress) >> ret Next
    else
      output_dir <- lift (v <~ getitem cmd "output_dir" ;; as_path v) ;;
      collaborate (CallMkdir output_dir) (fun t => mkdir_parents t output_dir) >>
      modify_state (set_worker_thread (Some true)) >>
      ret (WorkerStarted cmd).

Definition dispatch (cmd : dict) : M step :=
  let cmd_type := dict_get cmd "cmd" PNone in
  if is_cmd cmd_type "init" then dispatch_init cmd
  else if is_cmd cmd_type "list_emojis" then
    _emit (EvEmojiList get_all_emojis) >> ret Next
  else if is_cmd cmd_type "generate" then dispatch_generate cmd
  else if is_cmd cmd_type "generate_all" then dispatch_generate_all cmd
  else if is_cmd cmd_type "cancel" then
    modify_state (set_cancel_requested true) >> ret Next
  else if is_cmd cmd_type "quit" then
    modify_state (set_cancel_requested true) >> ret Break
  else ret Next.
End Handlers.

(** ** Vocabulary of the properties *)

(** *** Code-point fields of a file name *)

Definition is_upper_hex (c : N) : bool :=
  ((48 <=? c) && (c <=? 57) || (65 <=? c) && (c <=? 70))%N.

Definition hex_digit_value (c : N) : N :=
  if (c <? 58)%N then (c - 48)%N else (c - 55)%N.

(** The number that a string of hexadecimal digits denotes. *)
Definition hex_value (s : pystr) : N :=
  List.fold_left (fun acc c => (16 * acc + hex_digit_value c)%N) s 0%N.

(** The field of the code point [c] in a file name: uppercase hexadecimal
    digits that denote [c], four of them at least, and none of them a
    padding zero once there are more than four. *)
Definition code_point_field (c : N) (field : pystr) : Prop :=
  Forall (fun d => is_upper_hex d = true) field /\
  hex_value field = c /\
  (4 <= List.length field)%nat /\
  ((4 < List.length field)%nat -> head field <> Some 48%N).

(** The fields in a row, with an underscore before each one but the first. *)
Definition underscored (fields : list pystr) : pystr :=
  match fields with
  | [] => []
  | field :: rest => field ++ List.concat (List.map (fun f => 95%N :: f) rest)
  end.

(** *** Decimal numbers in a file name *)

Definition is_decimal_digit (c : N) : bool := ((48 <=? c) && (c <=? 57))%N.

(** The number that a string of decimal digits denotes. *)
Definition decimal_value (s : pystr) : N :=
  List.fold_left (fun acc c => (10 * acc + (c - 48))%N) s 0%N.

(** [text] is the integer [z] as [str] writes it: a minus sign when [z] is
    negative, then the decimal digits of its absolute value, the first of
    which is a zero only when it is the only one. *)
Definition decimal_of (z : Z) (text : pystr) : Prop :=
  exists digits,
    text = (if z <? 0 then [45%N] else []) ++ digits /\
    digits <> [] /\
    Forall (fun c => is_decimal_digit c = true) digits /\
    decimal_value digits = Z.abs_N z /\
    (head digits = Some 48%N -> digits = [48%N]).

(** *** The softened matte *)

Definition with_alpha (f : Z -> Z) (p : pixel) : pixel :=
  {| red := red p; green := green p; blue := blue p; alpha := f (alpha p) |}.

(** The binary64 value [k/16]. *)
Definition dyadic_strength (k : Z) : spec_float := F64.make k (-4).

(** The blend at strength [k/16] in exact arithmetic, rounded down. *)
Definition truncated_blend (k a : Z) : Z := (255 * (16 - k) + a * k) / 16.

(** [round(n/d)] of Python: to the nearest integer, ties to the even one. *)
Definition round_half_even (n d : Z) : Z :=
  let q := n / d in
  let r := n mod d in
  if 2 * r <? d then q
  else if d <? 2 * r then q + 1
  else if Z.even q then q else q + 1.

(** In the words of the specification: [round(255*(1-s) + alpha*s)], at
    strength [s = s_num / s_den]. *)
Definition spec_rounded_alpha (s_num s_den a : Z) : Z :=
  round_half_even (255 * (s_den - s_num) + a * s_num) s_den.

(** The table that [point] builds at strength [k/16] is the truncated
    blend of every byte. *)
Definition tone_table_ok (k : Z) : bool :=
  let s := clamp_strength (dyadic_strength k) in
  F64.ltb s F64.one &&
  match res_map (blend_alpha (F64.sub F64.one s) s) (seqZ 0 256) with
  | Ok lut => bool_decide (lut = List.map (truncated_blend k) (seqZ 0 256))
  | Raise _ => false
  end.

Definition byte_alpha (p : pixel) : Prop := 0 <= alpha p <= 255.

(** The pixel [p'] is [p] with its alpha replaced by
    [int(255*(1-s) + alpha*s)], computed in binary64. *)
Definition blended (s : spec_float) (p p' : pixel) : Prop :=
  blend_alpha (F64.sub F64.one s) s (alpha p) = Ok (alpha p') /\
  red p' = red p /\ green p' = green p /\ blue p' = blue p.

(** *** Normalised settings *)

Section NormalForm.
Context `{PyBuiltins}.

(** The value under [k], if any, is left as it is by [conv]. *)
Definition fixed (conv : pyval -> Res pyval) (k : string) (d : dict) : Prop :=
  forall v, d !! k = Some v -> conv v = Ok v.

Definition stable (conv : pyval -> Res pyval) : Prop :=
  forall v v', conv v = Ok v' -> conv v' = Ok v'.

(** What [_normalize_settings] establishes about its result. *)
Record normalized (d : dict) : Prop := {
  nz_output_size_px : fixed as_int "output_size_px" d;
  nz_num_inference_steps : fixed as_int "num_inference_steps" d;
  nz_seed : fixed as_int "seed" d;
  nz_batch_size : fixed as_int "batch_size" d;
  nz_strength : fixed as_float "strength" d;
  nz_guidance_scale : fixed as_float "guidance_scale" d;
  nz_cfg_scale : d !! "cfg_scale" = None;
  nz_remove_background : fixed as_bool "remove_background" d;
  nz_remove_background_strength : fixed as_float "remove_background_strength" d;
  nz_rembg_model : fixed as_str "rembg_model" d;
  nz_same_seed : d !! "same_seed" = None;
  nz_max_blend_cap : d !! "max_blend_cap" = None
}.
End NormalForm.

(** *** Event sequences of a batch *)

(** The event ends the job [job_id]: its [result], or an [error] that
    carries its id. *)
Definition terminal_for (job_id : pystr) (ev : event) : bool :=
  match ev with
  | EvResult (PStr j) _ _ _ _ => bool_decide (j = job_id)
  | EvError (Some (PStr j)) _ => bool_decide (j = job_id)
  | _ => false
  end.

(** [evs] is a run of pairs, a [progress] event and right after it the
    terminal event of the same job, whose ordinals count up from
    [generation_ordinal + 1] with the given [total]. *)
Fixpoint batch_events (total generation_ordinal : Z) (evs : list event) : bool :=
  match evs with
  | [] => true
  | EvProgress job_id current tot _ :: ev :: rest =>
      (current =? generation_ordinal + 1) && (tot =? total) &&
      terminal_for job_id ev &&
      batch_events total (generation_ordinal + 1) rest
  | _ => false
  end.

(** The [current] fields of the progress events, in order of emission. *)
Definition progress_currents (evs : list event) : list Z :=
  omap (fun ev => match ev with
                  | EvProgress _ current _ _ => Some current
                  | _ => None
                  end) evs.

Definition is_progress (ev : event) : bool :=
  match ev with
  | EvProgress _ _ _ _ => true
  | _ => false
  end.

(** The seed in the settings of a command handed to [_handle_generate]. *)
Definition job_seed (job : dict) : option pyval :=
  match job !! "settings" with
  | Some (PDict d) => d !! "seed"
  | _ => None
  end.

(** *** Frames *)

Definition forget_sessions (st : BackendState) : BackendState :=
  set_rembg_sessions ∅ st.

(** From [p] to [p'] nothing was written to standard output and the
    session state is as it was, up to the cache of matting sessions; only
    collaborators were called. *)
Definition undisturbed (p p' : Proc) : Prop :=
  forget_sessions (state p') = forget_sessions (state p) /\
  stdout p' = stdout p /\
  uuid_count p' = uuid_count p /\
  jobs p' = jobs p.

Definition quiet {A} (m : M A) : Prop := forall p, undisturbed p (m p).2.

(** [m] either returns after one more event, a [result] of the job, or
    raises without a trace on standard output. *)
Definition result_or_raise (job_id : pyval) (m : M unit) : Prop :=
  forall p,
    match m p with
    | (Ok _, p') =>
        exists q emoji path,
          undisturbed p q /\
          _emit (EvResult job_id emoji path true false) q = (Ok tt, p')
    | (Raise _, p') => undisturbed p p'
    end.

(** The event is the one terminal event of the job [job_id]. *)
Definition terminal_of (job_id : pyval) (ev : event) : Prop :=
  (exists emoji path, ev = EvResult job_id emoji path true false) \/
  (exists message, ev = EvError (Some job_id) message).

(** Lines 100-103 as a function of the state. *)
Definition single_job_progress `{PyBuiltins} (cmd : dict) (st : BackendState)
    : BackendState :=
  if py_bool (dict_get cmd "preserve_progress_state" (PBool false)) then st
  else set_current_emoji (py_str (dict_get cmd "emoji" (PStr [])))
         (set_total_items 1 (set_current_index 1 st)).

Definition progress_reset (st : BackendState) : Prop :=
  current_index st = 0 /\ total_items st = 0 /\ current_emoji st = [].

(** A batch is in flight: its worker is alive, or the run lock is held. *)
Definition batch_in_flight (st : BackendState) : Prop :=
  is_busy st = true \/ _run_lock st = true.

(** *** A sample environment *)

(** Text that is written in bytes can be encoded. *)
Definition u_encodable (s : string) : encodable_str (u s) = true.
Proof.
  unfold u, encodable_str. induction (list_ascii_of_string s) as [|c l IH];
    [reflexivity|].
  cbn [List.map forallb]. rewrite IH, andb_true_r.
  pose proof (N_ascii_bounded c) as Hc. unfold is_surrogate.
  destruct (N.leb_spec 0xD800 (N_of_ascii c)); [lia|reflexivity].
Defined.

Definition sample_builtins : PyBuiltins.
Proof.
  refine {| int_of_str := fun _ => Raise ValueError;
            float_of_str := fun _ => Raise ValueError;
            repr_of := fun _ => u "?";
            dict_of_iterable := fun _ => Raise TypeError;
            str_of_exn := fun _ => u "failed";
            uuid4 := fun n => u "job-" ++ u (pretty n);
            path_str := fun p => p;
            path_join := fun d n => d ++ u "/" ++ n;
            str_of_exn_encodable := _;
            uuid4_encodable := _ |}.
  - intros _. apply u_encodable.
  - intros n. unfold encodable_str. rewrite forallb_app.
    apply andb_true_intro. split; apply u_encodable.
Defined.

Definition grinning_face : pystr := [0x1F600%N].
Definition beaming_face : pystr := [0x1F601%N].
Definition tears_of_joy : pystr := [0x1F602%N].

Definition sample_item (c : pystr) : emoji_item :=
  {| char := c; name := u "Face"; category := u "fully-qualified";
     codepoints := str_join (u "_") (List.map format_04X c) |}.

Definition sample_pixel (a : Z) : pixel :=
  {| red := 9; green := 9; blue := 9; alpha := a |}.

Definition sample_engine : EmojiGenerator :=
  {| mode := u "flux2klein"; _fallback := false; fallback_reason := [] |}.

(** Collaborators that always succeed, except that the engine fails when
    the number of calls made before it is 1 modulo 4. *)
Definition sample_collaborators : Collaborators.
Proof.
  refine {| get_all_emojis := [sample_item grinning_face; sample_item beaming_face;
                               sample_item tears_of_joy];
            load_engine := fun _ _ => Ok sample_engine;
            render_emoji_to_image := fun _ _ _ _ => Ok [sample_pixel 255];
            engine_generate := fun t _ base _ _ _ =>
              if Nat.eqb (t mod 4) 1
              then Raise (CollaboratorError (u "out of memory"))
              else Ok base;
            new_session := fun _ model_name => Ok {| session_model := model_name |};
            rembg_remove := fun _ img _ => Ok img;
            mkdir_parents := fun _ _ => Ok tt;
            image_save := fun _ _ _ => Ok tt;
            unlink_if_exists := fun _ _ => Ok tt;
            with_stem_suffix := fun p ext => p ++ ext;
            path_parent := fun p => p;
            catalog_encodable := _;
            engine_encodable := _ |}.
  - reflexivity.
  - intros _ _ g [= <-]. reflexivity.
Defined.

(** A process whose [init] has succeeded. *)
Definition ready (p : Proc) : Proc :=
  {| state := set_generator (Some sample_engine) (state p); stdout := stdout p;
     uuid_count := uuid_count p; jobs := jobs p; calls := calls p |}.

(** *** Where a batch stands *)

(** The jobs [js] are those of the ordinals after [generation_ordinal], with
    the seeds of line 245. *)
Definition seeds_from (base_seed : Z) (same_seed : bool) (generation_ordinal : Z)
    (js : list dict) : Prop :=
  forall (i : nat) job,
    js !! i = Some job ->
    job_seed job
    = Some (PInt (per_seed_of base_seed same_seed
                              (generation_ordinal + Z.of_nat i + 1))).

(** The loop went from ordinal [o] over at most [n] items and stopped with
    [ctl], taking the process from [p] to [p']: it completed the ordinals up
    to some [k], none of which saw the cancellation flag; either it ran
    out of items ([Continue]), or the flag was raised after ordinal [k] and
    it announced so and reset the progress fields ([Returned]). *)
Definition batch_progress (cancels : Z -> bool) (total base_seed : Z)
    (same_seed : bool) (o n : Z) (ctl : loop_ctl) (p p' : Proc) : Prop :=
  exists (k : Z) (evs : list event) (js : list dict),
    o <= k <= o + n /\
    (forall j, o <= j < k -> cancels j = false) /\
    batch_events total o evs = true /\
    Z.of_nat (List.length evs) = 2 * (k - o) /\
    jobs p' = jobs p ++ js /\
    Z.of_nat (List.length js) = k - o /\
    seeds_from base_seed same_seed o js /\
    generator (state p') = generator (state p) /\
    match ctl with
    | Continue o' =>
        o' = k /\ k = o + n /\
        stdout p' = stdout p ++ evs /\
        cancel_requested (state p') = false
    | Returned =>
        k < o + n /\ cancels k = true /\
        stdout p' = stdout p ++ evs ++ [EvCanceled k total canceled_by_user] /\
        progress_reset (state p')
    end.

Section BatchRequests.
Context `{PyBuiltins} `{Collaborators}.

(** The command of a batch is well formed: it has a prompt and an output
    directory, and its settings are an object whose [batch_size] and
    [seed] convert to the integers [b] and [base_seed], whose [same_seed]
    is truthy or not as [same_seed] says, and which normalises. *)
Definition batch_request (cmd : dict) (b base_seed : Z) (same_seed : bool)
    : Prop :=
  exists (base_settings settings : dict) (output_dir : pystr) (prompt : pyval),
    dict_get cmd "settings" (PDict ∅) = PDict base_settings /\
    py_int (default (PInt 1) (base_settings !! "batch_size")) = Ok b /\
    py_int (default (PInt 42) (base_settings !! "seed")) = Ok base_seed /\
    py_bool (default (PBool false) (base_settings !! "same_seed")) = same_seed /\
    _normalize_settings (PDict base_settings) = Ok settings /\
    cmd !! "output_dir" = Some (PStr output_dir) /\
    cmd !! "prompt" = Some prompt.

(** The size of the catalog, and the number of items of a batch. *)
Definition catalog_size : Z := Z.of_nat (List.length get_all_emojis).
Definition batch_total (b : Z) : Z := catalog_size * Z.max 1 b.
End BatchRequests.

(** A batch over the sample catalog with [batch_size] 2. *)
Definition sample_batch_settings : dict := <["batch_size" := PInt 2]> ∅.

Definition sample_batch : dict :=
  <["cmd" := PStr (u "generate_all")]>
  (<["prompt" := PStr (u "clay figurine")]>
  (<["output_dir" := PStr (u "out")]>
  (<["settings" := PDict sample_batch_settings]> ∅))).

(** A single job on the grinning face, with default settings. *)
Definition sample_generate : dict :=
  <["cmd" := PStr (u "generate")]>
  (<["job_id" := PStr (u "j1")]>
  (<["emoji" := PStr grinning_face]>
  (<["prompt" := PStr (u "clay figurine")]>
  (<["output_path" := PStr (u "out/a.png")]> ∅)))).

(** The same job with a seed that is JSON [null]. *)
Definition null_seed_generate : dict :=
  <["settings" := PDict (<["seed" := PNone]> ∅)]> sample_generate.

(** A lone surrogate, the string that the JSON text ["\ud83d"] decodes to,
    and the same job under this id. *)
Definition lone_surrogate : pystr := [0xD83D%N].

Definition surrogate_id_generate : dict :=
  <["job_id" := PStr lone_surrogate]> sample_generate.

(** A session in which a batch worker is alive and holds the run lock. *)
Definition busy (p : Proc) : Proc :=
  {| state := set_worker_thread (Some true) (set_run_lock true (state p));
     stdout := stdout p; uuid_count := uuid_count p; jobs := jobs p;
     calls := calls p |}.

(** ** Vocabulary of the further properties *)

(** *** Settings, key by key *)

(** The keys that [_normalize_settings] looks at. *)
Definition recognized_settings : list string :=
  ["output_size_px"; "num_inference_steps"; "seed"; "batch_size"; "strength";
   "guidance_scale"; "cfg_scale"; "remove_background";
   "remove_background_strength"; "rembg_model"; "same_seed"; "max_blend_cap"].

(** Under [k], [out] holds what [conv] makes of the value that [d] has
    there, and nothing if [d] has none. *)
Definition converted_at (conv : pyval -> Res pyval) (k : string) (d out : dict)
    : Prop :=
  match d !! k with
  | Some v => exists v', conv v = Ok v' /\ out !! k = Some v'
  | None => out !! k = None
  end.

(** What is present under [k] can be converted. *)
Definition convertible_at (conv : pyval -> Res pyval) (k : string) (d : dict)
    : Prop :=
  forall v, d !! k = Some v -> exists v', conv v = Ok v'.

(** *** The softened matte *)

(** [p'] has the colour of [p] and is at least as opaque, within a byte. *)
Definition softened (p p' : pixel) : Prop :=
  red p' = red p /\ green p' = green p /\ blue p' = blue p /\
  alpha p <= alpha p' <= 255.

(** *** The jobs of a batch *)

Section BatchJob.
Context `{PyBuiltins}.

(** The command of lines 269-277 for the catalog entry [item], at ordinal
    [n] of the pass [batch_index]. *)
Definition batch_job (settings : dict) (output_dir : pystr)
    (base_seed batch_size : Z) (same_seed : bool) (prompt : pyval)
    (job_id : pystr) (item : emoji_item) (n batch_index : Z) : dict :=
  item_command job_id (char item) prompt
    (_safe_output_path (path_str output_dir) (char item)
       (per_seed_of base_seed same_seed n) batch_index batch_size)
    (<["seed" := PInt (per_seed_of base_seed same_seed n)]> settings).
End BatchJob.

(** ** The diffusion engine: [generator.py] *)

(** [main.py] sees the engine through three attributes and one method.
    Here is the class itself: its constructor and [generate], over the
    calls they make to torch, diffusers, PIL and the file system. Lines
    written to standard error are not part of the model. *)

Module Generator.

(** [RuntimeError] is what the module raises itself; everything else
    comes from a builtin or out of a library. *)
Inductive raised :=
| RuntimeError (msg : pystr)
| Other (e : exn).

Inductive outcome (A : Type) :=
| Done (a : A)
| Raised (e : raised).
Arguments Done {A} a.
Arguments Raised {A} e.

Inductive torch_dtype := bfloat16 | float32.

(** A loaded pipeline object, known by its identity. *)
Definition Pipeline := nat.

(** A keyword argument of the pipeline call. *)
Inductive arg :=
| Value (v : pyval)
| Conditioning (img : Image)
| Reference (imgs : list Image)
| TorchGenerator (device : pystr) (seed : Z).

(** Calls that leave the module. *)
Inductive torch_call :=
| CudaIsAvailable
| FromPretrained (class_name model_path : pystr) (torch_dtype : torch_dtype)
                 (local_files_only : bool)
| EnableModelCpuOffload (pipe : Pipeline)
| PipeTo (pipe : Pipeline) (device : pystr)
| AllowTf32
| Signature (pipe : Pipeline)
| ManualSeed (device : pystr) (seed : Z)
| MkdirParent (path : pystr)
| Save (img : Image) (path : pystr)
| Diagnose (img : Image)
| PipeCall (pipe : Pipeline) (kwargs : gmap string arg).

(** The libraries and the environment. As in [Collaborators], an answer
    may depend on the number of calls made before. *)
Class Torch := {
  (** whether [EMOJIFORGE_TRACE] is one of 1, true, yes, on *)
  trace_env : bool;
  (** [Path(p).is_dir()] *)
  is_dir : pystr -> bool;
  cuda_is_available : nat -> bool;
  (** lines 56-62: the import, the class lookup and [from_pretrained] *)
  from_pretrained : nat -> pystr -> pystr -> torch_dtype -> bool -> outcome Pipeline;
  enable_model_cpu_offload : nat -> Pipeline -> outcome unit;
  pipe_to : nat -> Pipeline -> pystr -> outcome Pipeline;
  (** [set(inspect.signature(pipe.__call__).parameters)] *)
  signature_parameters : nat -> Pipeline -> outcome (gset string);
  (** [torch.Generator(device=d).manual_seed(seed)] *)
  manual_seed : nat -> pystr -> Z -> outcome unit;
  (** [img.mode == "RGBA"] *)
  is_rgba : Image -> bool;
  (** lines 115-116: the image pasted on a white background *)
  paste_on_white : Image -> Image;
  (** [img.convert("RGB")] *)
  convert_rgb : Image -> Image;
  (** [Path(p).parent.mkdir(parents=True, exist_ok=True)] *)
  mkdir_parent : nat -> pystr -> outcome unit;
  save : nat -> Image -> pystr -> outcome unit;
  (** lines 136-144: the statistics of the conditioning image *)
  diagnose : nat -> Image -> outcome unit;
  (** line 202: the pipeline called on the keyword arguments, and the
      first of its images *)
  pipe_call : nat -> Pipeline -> gmap string arg -> outcome Image;
  (** [type(ex).__name__] *)
  type_name : exn -> pystr;
  (** [f"{sorted(s)}"] *)
  repr_sorted : gset string -> pystr
}.

(** What a library raises on a call made after [t] others, if it
    raises. *)
Definition failure `{Torch} (t : nat) (c : torch_call) : option raised :=
  let raised_by {A} (o : outcome A) :=
    match o with Done _ => None | Raised e => Some e end in
  match c with
  | CudaIsAvailable | AllowTf32 => None
  | FromPretrained class_name model_path dtype local_files_only =>
      raised_by (from_pretrained t class_name model_path dtype local_files_only)
  | EnableModelCpuOffload pipe => raised_by (enable_model_cpu_offload t pipe)
  | PipeTo pipe device => raised_by (pipe_to t pipe device)
  | Signature pipe => raised_by (signature_parameters t pipe)
  | ManualSeed device seed => raised_by (manual_seed t device seed)
  | MkdirParent path => raised_by (mkdir_parent t path)
  | Save img path => raised_by (save t img path)
  | Diagnose img => raised_by (diagnose t img)
  | PipeCall pipe kwargs => raised_by (pipe_call t pipe kwargs)
  end.

(** Computations that call out and may raise. *)
Definition T (A : Type) := list torch_call -> outcome A * list torch_call.

#[global] Instance T_ret : MRet T := fun A a log => (Done a, log).

#[global] Instance T_bind : MBind T := fun A B k m log =>
  match m log with
  | (Done a, log') => k a log'
  | (Raised e, log') => (Raised e, log')
  end.

Definition throw {A} (e : raised) : T A := fun log => (Raised e, log).

(** A builtin that may raise. *)
Definition lift {A} (r : Res A) : T A :=
  fun log =>
    match r with
    | Ok a => (Done a, log)
    | Raise e => (Raised (Other e), log)
    end.

(** A call to a library: it is recorded, then answered. *)
Definition ask {A} (c : torch_call) (answer : nat -> outcome A) : T A :=
  fun log => (answer (List.length log), log ++ [c]).

(** [try: body / except Exception as ex: handler(ex)] *)
Definition try_except {A} (body : T A) (handler : raised -> T A) : T A :=
  fun log =>
    match body log with
    | (Done a, log') => (Done a, log')
    | (Raised e, log') => handler e log'
    end.

Record GenerateSettings := {
  strength : pyval;
  num_inference_steps : pyval;
  guidance_scale : pyval;
  seed : pyval
}.

(** The float [0.1]. *)
Definition one_tenth : spec_float := F64.make 3602879701896397 (-55).

(** Line 101: the four fields are taken from the keyword arguments as
    they come, the defaults of the dataclass filling in. *)
Definition settings_of (kwargs : dict) : GenerateSettings :=
  {| strength := dict_get kwargs "strength" (PFloat one_tenth);
     num_inference_steps := dict_get kwargs "num_inference_steps" (PInt 30);
     guidance_scale := dict_get kwargs "guidance_scale" (PFloat (F64.of_Z 30));
     seed := dict_get kwargs "seed" (PInt 42) |}.

Record EmojiGenerator := {
  device : pystr;
  _is_cuda : bool;
  _trace : bool;
  _fallback : bool;
  mode : pystr;
  fallback_reason : pystr;
  _supported_call_params : gset string;
  pipe : option Pipeline
}.

(** [s.startswith(prefix)] *)
Definition startswith (s prefix : pystr) : bool :=
  bool_decide (take (List.length prefix) s = prefix).

Definition newline : pystr := [10%N].

Definition cuda_unavailable : pystr :=
  u "Device is set to CUDA, but torch.cuda.is_available() is False. "
  ++ u "Install CUDA-enabled Torch wheels (cu128) in this Python environment, "
  ++ u "or switch Device to cpu in Settings.".

Definition candidates : list (pystr * pystr) :=
  [(u "flux2klein", u "Flux2KleinPipeline")].

Section Engine.
Context `{PyBuiltins} `{Torch}.

(** [f"{type(ex).__name__}: {ex}"] *)
Definition describe (ex : raised) : pystr :=
  match ex with
  | RuntimeError msg => u "RuntimeError" ++ u ": " ++ msg
  | Other e => type_name e ++ u ": " ++ str_of_exn e
  end.

(** The engine of lines 40-48 and 89-96. *)
Definition fallback_engine (device : pystr) (_is_cuda : bool)
    (reason : pystr) : EmojiGenerator :=
  {| device := device; _is_cuda := _is_cuda; _trace := trace_env;
     _fallback := true; mode := u "fallback"; fallback_reason := reason;
     _supported_call_params := ∅; pipe := None |}.

(** Lines 56-74: the body of the [try], up to the check of the
    signature. *)
Definition load_candidate (class_name model_path device : pystr)
    (_is_cuda is_local enable_cpu_offload : bool)
    : T (Pipeline * gset string) :=
  let dtype := if _is_cuda then bfloat16 else float32 in
  pipe ← ask (FromPretrained class_name model_path dtype is_local)
             (fun t => from_pretrained t class_name model_path dtype is_local);
  pipe ← (if enable_cpu_offload then
            ask (EnableModelCpuOffload pipe)
                (fun t => enable_model_cpu_offload t pipe);;
            mret pipe
          else
            pipe ← ask (PipeTo pipe device) (fun t => pipe_to t pipe device);
            (if _is_cuda then
               available ← ask CudaIsAvailable
                               (fun t => Done (cuda_is_available t));
               if available : bool then ask AllowTf32 (fun _ => Done tt)
               else mret tt
             else mret tt : T unit);;
            mret pipe : T Pipeline);
  supported ← ask (Signature pipe) (fun t => signature_parameters t pipe);
  if bool_decide ("image" ∈ supported) then mret (pipe, supported)
  else throw (RuntimeError (class_name ++ u " missing required image input: "
                            ++ repr_sorted supported)).

(** Lines 54-86: the loop over the candidates, left at the first one
    that loads. *)
Fixpoint try_candidates (candidates : list (pystr * pystr))
    (model_path device : pystr) (_is_cuda is_local enable_cpu_offload : bool)
    (loader_errors : list pystr)
    : T (option (pystr * Pipeline * gset string) * list pystr) :=
  match candidates with
  | [] => mret (None, loader_errors)
  | (mode_name, class_name) :: rest =>
      try_except
        (loaded ← load_candidate class_name model_path device _is_cuda
                                 is_local enable_cpu_offload;
         mret (Some (mode_name, loaded.1, loaded.2), loader_errors))
        (fun ex =>
           try_candidates rest model_path device _is_cuda is_local
             enable_cpu_offload
             (loader_errors
              ++ [class_name ++ u " error: " ++ describe ex]))
  end.

(** [EmojiGenerator.__init__], on the arguments as [main] passes them:
    whatever the command held under [model_path] and [device]. *)
Definition __init__ (model_path device : pyval) (enable_cpu_offload : bool)
    : T EmojiGenerator :=
  device ← lift (match device with
                 | PStr s => Ok s
                 | _ => Raise AttributeError
                 end);
  let _is_cuda := startswith device (u "cuda") in
  model_path ← lift (as_path model_path);
  let is_local := is_dir model_path in
  cuda_missing ← (if _is_cuda then
                    available ← ask CudaIsAvailable
                                    (fun t => Done (cuda_is_available t));
                    mret (negb available)
                  else mret false : T bool);
  if cuda_missing : bool then
    mret (fallback_engine device _is_cuda cuda_unavailable)
  else
    loaded ← try_candidates candidates model_path device _is_cuda is_local
                            enable_cpu_offload [];
    match loaded with
    | (Some (mode_name, pipe, supported), _) =>
        mret {| device := device; _is_cuda := _is_cuda; _trace := trace_env;
                _fallback := false; mode := mode_name; fallback_reason := [];
                _supported_call_params := supported; pipe := Some pipe |}
    | (None, loader_errors) =>
        mret (fallback_engine device _is_cuda
                (u "Unable to initialize diffusion pipeline with true image-to-image conditioning."
                 ++ newline ++ str_join newline loader_errors ++ newline
                 ++ u "Check diffusers version compatibility and model path/repo."))
    end.

Definition max_seed : Z := Z.shiftl 1 63 - 1.

(** Lines 114-119. *)
Definition conditioning_image (base_image : Image) : Image :=
  if is_rgba base_image then paste_on_white base_image
  else convert_rgb base_image.

(** Lines 157-170: the keyword arguments of the pipeline call. *)
Definition pipe_kwargs (self : EmojiGenerator) (settings : GenerateSettings)
    (prompt : pyval) (conditioning_image : Image) (seed : Z)
    : gmap string arg :=
  let image_value :=
    if bool_decide (mode self = u "flux2klein")
    then Reference [conditioning_image]
    else Conditioning conditioning_image in
  let pipe_kwargs : gmap string arg :=
    <["generator" := TorchGenerator (device self) seed]>
      (<["guidance_scale" := Value (guidance_scale settings)]>
        (<["num_inference_steps" := Value (num_inference_steps settings)]>
          (<["image" := image_value]>
            (<["prompt" := Value prompt]> ∅)))) in
  let pipe_kwargs :=
    if bool_decide ("strength" ∈ _supported_call_params self)
    then <["strength" := Value (strength settings)]> pipe_kwargs
    else pipe_kwargs in
  filter (fun kv => kv.1 ∈ _supported_call_params self) pipe_kwargs.

(** [f"{v:.3f}"]: numbers are formatted, anything else raises. *)
Definition format_fixed (v : pyval) : Res unit :=
  match v with
  | PBool _ | PFloat _ => Ok tt
  | PInt z => _ <~ F64.of_int z ;; Ok tt
  | PStr _ => Raise ValueError
  | PNone | PList _ | PDict _ => Raise TypeError
  end.

(** [EmojiGenerator.generate] *)
Definition generate (self : EmojiGenerator) (base_image : Image)
    (prompt : pyval) (kwargs : dict) : T Image :=
  let '(debug_conditioning_path, kwargs) :=
    dict_pop kwargs "debug_conditioning_path" PNone in
  let '(stats, kwargs) := dict_pop kwargs "diagnostic_stats" (PBool false) in
  let diagnostic_stats :=
    py_bool stats || py_bool debug_conditioning_path || _trace self in
  let settings := settings_of kwargs in
  match pipe self with
  | Some the_pipe =>
      if _fallback self then
        throw (RuntimeError (u "Diffusion pipeline unavailable: "
                             ++ fallback_reason self))
      else
        seed ← lift (py_int (seed settings));
        let seed := seed mod max_seed in
        ask (ManualSeed (device self) seed)
            (fun t => manual_seed t (device self) seed);;
        let conditioning_image := conditioning_image base_image in
        (if py_bool debug_conditioning_path then
           path ← lift (as_path debug_conditioning_path);
           ask (MkdirParent path) (fun t => mkdir_parent t path);;
           ask (Save conditioning_image path)
               (fun t => save t conditioning_image path)
         else mret tt : T unit);;
        (if diagnostic_stats then
           ask (Diagnose conditioning_image)
               (fun t => diagnose t conditioning_image)
         else mret tt : T unit);;
        let pipe_kwargs :=
          pipe_kwargs self settings prompt conditioning_image seed in
        lift (format_fixed (strength settings));;
        lift (format_fixed (guidance_scale settings));;
        ask (PipeCall the_pipe pipe_kwargs)
            (fun t => pipe_call t the_pipe pipe_kwargs)
  | None =>
      throw (RuntimeError (u "Diffusion pipeline unavailable: "
                           ++ fallback_reason self))
  end.
End Engine.

(** The two states an engine can be in. *)
Definition live (self : EmojiGenerator) : Prop :=
  _fallback self = false /\ mode self = u "flux2klein" /\
  fallback_reason self = [] /\ "image" ∈ _supported_call_params self /\
  is_Some (pipe self).

Definition in_fallback (self : EmojiGenerator) : Prop :=
  _fallback self = true /\ mode self = u "fallback" /\
  fallback_reason self <> [] /\ _supported_call_params self = ∅ /\
  pipe self = None.

(** [m] only adds to the record of calls. *)
Definition appends {A} (m : T A) : Prop :=
  forall log, exists calls, (m log).2 = log ++ calls.

(** [m] raises only what a library raised, on the last call made. *)
Definition fails_in_libraries `{Torch} {A} (m : T A) : Prop :=
  forall log,
    match m log with
    | (Done _, log') => exists calls, log' = log ++ calls
    | (Raised e, log') =>
        exists before c,
          log' = before ++ [c] /\ failure (List.length before) c = Some e /\
          (List.length log <= List.length before)%nat
    end.

(** Lines 105-110 and 133-138 of [main.py]: the keyword arguments that
    [_handle_generate] passes to [generate], from the normalised
    settings and the path of the debug image. A setting that is named
    like a parameter of [generate] makes the call itself fail. *)
Definition job_kwargs (settings : dict) (debug_conditioning_path : option pystr)
    : Res dict :=
  let settings := (dict_pop settings "output_size_px" (PInt 512)).2 in
  let settings := (dict_pop settings "remove_background" (PBool true)).2 in
  let settings :=
    (dict_pop settings "remove_background_strength" (PFloat F64.one)).2 in
  let settings :=
    (dict_pop settings "rembg_model" (PStr (u "birefnet-general"))).2 in
  let settings :=
    (dict_pop settings "debug_save_conditioning" (PBool false)).2 in
  if bool_decide (Exists (fun k => is_Some (settings !! k))
                    ["self"; "base_image"; "prompt"; "debug_conditioning_path"])
  then Raise TypeError
  else Ok (<["debug_conditioning_path" :=
               match debug_conditioning_path with
               | Some path => PStr path
               | None => PNone
               end]> settings).

(** The names under which [generate] may pass something on. *)
Definition pipeline_arguments : list string :=
  ["prompt"; "image"; "num_inference_steps"; "guidance_scale"; "generator";
   "strength"].

(** A sample environment: there is no CUDA, the pipeline loads and takes
    a prompt, an image and a generator, and every call succeeds. *)
Definition sample_torch : Torch :=
  {| trace_env := false;
     is_dir := fun _ => false;
     cuda_is_available := fun _ => false;
     from_pretrained := fun _ _ _ _ _ => Done 0%nat;
     enable_model_cpu_offload := fun _ _ => Done tt;
     pipe_to := fun _ pipe _ => Done pipe;
     signature_parameters := fun _ _ => Done ({["prompt"; "image"; "generator"]});
     manual_seed := fun _ _ _ => Done tt;
     is_rgba := fun _ => true;
     paste_on_white := fun img => img;
     convert_rgb := fun img => img;
     mkdir_parent := fun _ _ => Done tt;
     save := fun _ _ _ => Done tt;
     diagnose := fun _ _ => Done tt;
     pipe_call := fun _ _ _ => Done [];
     type_name := fun _ => u "Exception";
     repr_sorted := fun _ => [] |}.

Definition sample_fallback : EmojiGenerator :=
  {| device := u "cuda"; _is_cuda := true; _trace := false;
     _fallback := true; mode := u "fallback";
     fallback_reason := cuda_unavailable;
     _supported_call_params := ∅; pipe := None |}.

Definition sample_live : EmojiGenerator :=
  {| device := u "cpu"; _is_cuda := false; _trace := false;
     _fallback := false; mode := u "flux2klein"; fallback_reason := [];
     _supported_call_params := {["prompt"; "image"; "generator"]};
     pipe := Some 0%nat |}.

(** The same environment, except that the pipeline runs out of memory
    when it is called. *)
Definition out_of_memory : raised := RuntimeError (u "out of memory").

Definition failing_torch : Torch :=
  {| trace_env := false;
     is_dir := fun _ => false;
     cuda_is_available := fun _ => false;
     from_pretrained := fun _ _ _ _ _ => Done 0%nat;
     enable_model_cpu_offload := fun _ _ => Done tt;
     pipe_to := fun _ pipe _ => Done pipe;
     signature_parameters := fun _ _ => Done ({["prompt"; "image"; "generator"]});
     manual_seed := fun _ _ _ => Done tt;
     is_rgba := fun _ => true;
     paste_on_white := fun img => img;
     convert_rgb := fun img => img;
     mkdir_parent := fun _ _ => Done tt;
     save := fun _ _ _ => Done tt;
     diagnose := fun _ _ => Done tt;
     pipe_call := fun _ _ _ => Raised out_of_memory;
     type_name := fun _ => u "Exception";
     repr_sorted := fun _ => [] |}.

(** Settings as a client may send them: a seed that is a float, a
    strength that is an integer, [cfg_scale] for the guidance, and the
    size of the output; and what [_normalize_settings] makes of them. *)
Definition sample_raw_settings : dict :=
  <["seed" := PFloat (F64.of_Z 7)]>
  (<["strength" := PInt 1]>
  (<["cfg_scale" := PInt 7]>
  (<["output_size_px" := PBool true]> ∅))).

Definition sample_job_settings : dict :=
  <["seed" := PInt 7]>
  (<["strength" := PFloat F64.one]>
  (<["guidance_scale" := PFloat (F64.of_Z 7)]>
  (<["output_size_px" := PInt 1]> ∅))).

Definition sample_job_kwargs : dict :=
  <["debug_conditioning_path" := PStr (u "out/a.conditioning.png")]>
  (<["seed" := PInt 7]>
  (<["strength" := PFloat F64.one]>
  (<["guidance_scale" := PFloat (F64.of_Z 7)]> ∅))).
End Generator.

(** ** The catalog: [emoji_catalog.py] *)

Module EmojiCatalog.

(** An entry of the catalog; [category] is whatever the emoji data has
    under [status]. *)
Record entry := {
  char : pystr;
  name : pystr;
  category : pyval;
  codepoints : pystr
}.

Fixpoint lstrip (c : N) (s : pystr) : pystr :=
  match s with
  | x :: rest => if (x =? c)%N then lstrip c rest else s
  | [] => []
  end.

(** [s.strip(c)] for a single character [c] *)
Definition strip (c : N) (s : pystr) : pystr :=
  rev (lstrip c (rev (lstrip c s))).

(** [s.replace(old, new)] for single characters *)
Definition replace (old new : N) (s : pystr) : pystr :=
  List.map (fun x => if (x =? old)%N then new else x) s.

(** [a < b] on strings: the order of the code points, a proper prefix
    coming first. *)
Fixpoint str_lt (a b : pystr) : bool :=
  match a, b with
  | _, [] => false
  | [], _ :: _ => true
  | x :: a', y :: b' =>
      if (x <? y)%N then true
      else if (y <? x)%N then false
      else str_lt a' b'
  end.

(** [sorted(result, key=lambda item: item["name"])]. A stable sort has
    one possible result, the one of insertion from the right: an entry
    goes past those with a smaller name only. *)
Fixpoint insert_by_name (x : entry) (sorted : list entry) : list entry :=
  match sorted with
  | [] => [x]
  | y :: rest =>
      if str_lt (name y) (name x) then y :: insert_by_name x rest
      else x :: sorted
  end.

Definition sorted_by_name (result : list entry) : list entry :=
  foldr insert_by_name [] result.

Section Catalog.
(** [str.title], which follows the case tables of Unicode. *)
Variable title : pystr -> pystr.

(** Lines 11-16: the entry of one emoji. *)
Definition entry_of (item : pystr * dict) : Res entry :=
  let '(char, data) := item in
  en <~ match dict_get data "en" (PStr (u "Unknown")) with
        | PStr s => Ok s
        | _ => Raise AttributeError
        end ;;
  Ok {| char := char;
        name := title (replace 95 32 (strip 58 en));
        category := dict_get data "status" (PStr []);
        codepoints := str_join (u "_") (List.map format_04X char) |}.

(** [get_all_emojis], over the items of [emoji.EMOJI_DATA] in the
    order of the dictionary. *)
Definition get_all_emojis (EMOJI_DATA : list (pystr * dict))
    : Res (list entry) :=
  result <~ res_map entry_of EMOJI_DATA ;;
  Ok (sorted_by_name result).
End Catalog.

(** No entry comes after one with a greater name. *)
Definition in_name_order (emojis : list entry) : Prop :=
  forall (i j : nat) a b,
    (i < j)%nat -> emojis !! i = Some a -> emojis !! j = Some b ->
    str_lt (name b) (name a) = false.

(** The entries called [n], in the order they come in. *)
Definition named (n : pystr) (emojis : list entry) : list entry :=
  List.filter (fun e => bool_decide (name e = n)) emojis.

(** A sample of emoji data, in an order that is not the order of the
    names. *)
Definition sample_data : list (pystr * dict) :=
  [([0x1F602%N], <["en" := PStr (u ":face_with_tears_of_joy:")]>
                   (<["status" := PInt 2]> ∅));
   ([0x1F600%N], <["en" := PStr (u ":grinning_face:")]> ∅);
   ([0x2764%N; 0xFE0F%N], <["en" := PStr (u ":red_heart:")]> ∅);
   ([0x1F601%N], <["en" := PStr (u ":beaming_face_with_smiling_eyes:")]> ∅)].

(** The catalog of the sample, with names left as they are instead of
    title-cased. *)
Definition sample_catalog : list entry :=
  Eval vm_compute in
    match get_all_emojis (fun s => s) sample_data with
    | Ok emojis => emojis
    | Raise _ => []
    end.
End EmojiCatalog.

(** * Properties *)

(** ** Hexadecimal fields *)

Lemma hex_digit_upper d : (d < 16)%N -> is_upper_hex (hex_digit d) = true.
Proof.
  intros Hd. unfold is_upper_hex, hex_digit.
  destruct (N.ltb_spec d 10); rewrite orb_true_iff, !andb_true_iff, !N.leb_le; lia.
Qed.

Lemma hex_digit_value_digit d : (d < 16)%N -> hex_digit_value (hex_digit d) = d.
Proof.
  intros Hd. unfold hex_digit_value, hex_digit.
  destruct (N.ltb_spec d 10).
  - destruct (N.ltb_spec (48 + d) 58); lia.
  - destruct (N.ltb_spec (55 + d) 58); lia.
Qed.

Lemma hex_value_app s t :
  hex_value (s ++ t) = List.fold_left (fun acc c => (16 * acc + hex_digit_value c)%N) t (hex_value s).
Proof. unfold hex_value. apply fold_left_app. Qed.

Lemma hex_fold_shift t : forall a,
  List.fold_left (fun acc c => (16 * acc + hex_digit_value c)%N) t a
  = (a * 16 ^ N.of_nat (List.length t) + hex_value t)%N.
Proof.
  unfold hex_value. induction t as [|c t IH]; intros a; simpl List.fold_left.
  - simpl. lia.
  - rewrite IH. rewrite (IH (16 * 0 + hex_digit_value c)%N).
    replace (N.of_nat (List.length (c :: t))) with (N.succ (N.of_nat (List.length t)))
      by (simpl List.length; lia).
    rewrite N.pow_succ_r'. lia.
Qed.

Lemma hex_upper_aux_spec fuel : forall n acc,
  (n < 16 ^ N.of_nat fuel)%N ->
  Forall (fun c => is_upper_hex c = true) acc ->
  Forall (fun c => is_upper_hex c = true) (hex_upper_aux fuel n acc) /\
  hex_value (hex_upper_aux fuel n acc)
    = (n * 16 ^ N.of_nat (List.length acc) + hex_value acc)%N.
Proof.
  induction fuel as [|fuel IH]; intros n acc Hn Hacc.
  - simpl in *. assert (n = 0%N) as -> by lia. split; [done | lia].
  - simpl hex_upper_aux. destruct (N.eqb_spec n 0) as [->|Hnz].
    + split; [done | lia].
    + assert (Hlt : (n mod 16 < 16)%N) by (apply N.mod_lt; lia).
      destruct (IH (n / 16)%N (hex_digit (n mod 16) :: acc)) as [Hf Hv].
      * apply N.Div0.div_lt_upper_bound.
        replace (N.of_nat (S fuel)) with (N.succ (N.of_nat fuel)) in Hn by lia.
        rewrite N.pow_succ_r' in Hn. lia.
      * constructor; [by apply hex_digit_upper | done].
      * split; [done|]. rewrite Hv.
        replace (hex_value (hex_digit (n mod 16) :: acc))
          with (hex_digit_value (hex_digit (n mod 16)) * 16 ^ N.of_nat (List.length acc)
                + hex_value acc)%N.
        2:{ unfold hex_value at 2. simpl List.fold_left. rewrite hex_fold_shift. lia. }
        rewrite hex_digit_value_digit by done.
        replace (N.of_nat (List.length (hex_digit (n mod 16) :: acc)))
          with (N.succ (N.of_nat (List.length acc))) by (simpl List.length; lia).
        rewrite N.pow_succ_r'.
        pose proof (N.div_mod n 16 ltac:(lia)) as Hdm. nia.
Qed.

(** The number of digits written by [hex_upper_aux]. *)
Lemma hex_upper_aux_length fuel : forall n acc w,
  (n < 16 ^ N.of_nat fuel)%N ->
  (16 ^ N.of_nat w <= n * 16)%N \/ (w = 0%nat /\ n = 0%N) ->
  (n < 16 ^ N.of_nat w)%N ->
  List.length (hex_upper_aux fuel n acc) = (w + List.length acc)%nat.
Proof.
  induction fuel as [|fuel IH]; intros n acc w Hn Hlo Hhi.
  - simpl in *. assert (n = 0%N) as -> by lia.
    destruct Hlo as [Hlo|[-> _]]; [|done].
    pose proof (N.pow_nonzero 16 (N.of_nat w)). lia.
  - simpl hex_upper_aux. destruct (N.eqb_spec n 0) as [->|Hnz].
    + destruct Hlo as [Hlo|[-> _]]; [|done].
      pose proof (N.pow_nonzero 16 (N.of_nat w)). lia.
    + destruct w as [|w]; [simpl in Hhi; lia|].
      replace (N.of_nat (S w)) with (N.succ (N.of_nat w)) in * by lia.
      replace (N.of_nat (S fuel)) with (N.succ (N.of_nat fuel)) in Hn by lia.
      rewrite N.pow_succ_r' in *.
      rewrite (IH (n / 16)%N _ w).
      * simpl List.length. lia.
      * apply N.Div0.div_lt_upper_bound. lia.
      * destruct Hlo as [Hlo|[? _]]; [|lia].
        destruct (N.eqb_spec (n / 16) 0) as [Hz|Hz].
        -- right. split; [|done]. destruct w; [done|].
           replace (N.of_nat (S w)) with (N.succ (N.of_nat w)) in * by lia.
           rewrite N.pow_succ_r' in *. 
           pose proof (N.div_mod n 16 ltac:(lia)) as Hdm.
           pose proof (N.mod_lt n 16 ltac:(lia)).
           pose proof (N.pow_nonzero 16 (N.of_nat w)). nia.
        -- left. 
           assert (16 ^ N.of_nat w <= n)%N by lia.
           pose proof (N.div_mod n 16 ltac:(lia)) as Hdm.
           pose proof (N.mod_lt n 16 ltac:(lia)).
           destruct w as [|w]; [simpl; lia|].
           replace (N.of_nat (S w)) with (N.succ (N.of_nat w)) in * by lia.
           rewrite N.pow_succ_r' in *.
           assert (16 ^ N.of_nat w <= n / 16)%N.
           { apply N.div_le_lower_bound; lia. }
           lia.
      * apply N.Div0.div_lt_upper_bound. lia.
Qed.

Lemma hex_upper_fuel n : (n < 16 ^ N.of_nat (N.to_nat (N.size n)))%N.
Proof.
  rewrite N2Nat.id. eapply N.lt_le_trans; [apply N.size_gt|].
  apply N.pow_le_mono_l. lia.
Qed.

Lemma hex_upper_spec n :
  Forall (fun c => is_upper_hex c = true) (hex_upper n) /\ hex_value (hex_upper n) = n.
Proof.
  destruct (hex_upper_aux_spec _ n [] (hex_upper_fuel n) (List.Forall_nil _)) as [Hf Hv].
  split; [exact Hf|]. unfold hex_upper. rewrite Hv. simpl. unfold hex_value. simpl. lia.
Qed.

Lemma hex_upper_length n w :
  (16 ^ N.of_nat w <= n * 16)%N \/ (w = 0%nat /\ n = 0%N) ->
  (n < 16 ^ N.of_nat w)%N ->
  List.length (hex_upper n) = w.
Proof.
  intros Hlo Hhi. unfold hex_upper.
  rewrite (hex_upper_aux_length _ n [] w (hex_upper_fuel n) Hlo Hhi). simpl. lia.
Qed.

Lemma hex_value_zeros k s : hex_value (List.repeat 48%N k ++ s) = hex_value s.
Proof.
  rewrite hex_value_app. 
  assert (hex_value (List.repeat 48%N k) = 0%N) as ->; [|reflexivity].
  induction k as [|k IH]; [reflexivity|].
  change (List.repeat 48%N (S k)) with ([48%N] ++ List.repeat 48%N k).
  rewrite hex_value_app. exact IH.
Qed.

Lemma hex_value_bound s :
  Forall (fun c => is_upper_hex c = true) s -> (hex_value s < 16 ^ N.of_nat (List.length s))%N.
Proof.
  induction s as [|c s IH] using rev_ind; intros Hf.
  - simpl. unfold hex_value. simpl. lia.
  - apply Forall_app in Hf as [Hs Hc]. specialize (IH Hs).
    rewrite hex_value_app. simpl List.fold_left.
    rewrite length_app. simpl List.length.
    replace (N.of_nat (List.length s + 1)) with (N.succ (N.of_nat (List.length s))) by lia.
    rewrite N.pow_succ_r'.
    assert (hex_digit_value c < 16)%N.
    { apply Forall_inv in Hc. unfold is_upper_hex in Hc. unfold hex_digit_value.
      rewrite orb_true_iff, !andb_true_iff, !N.leb_le in Hc.
      destruct (N.ltb_spec c 58); lia. }
    lia.
Qed.

Lemma format_04X_spec c :
  Forall (fun d => is_upper_hex d = true) (format_04X c) /\
  hex_value (format_04X c) = c /\
  (4 <= List.length (format_04X c))%nat /\
  (List.length (format_04X c) = 4%nat <-> (c < 65536)%N).
Proof.
  destruct (hex_upper_spec c) as [Hf Hv].
  unfold format_04X. cbv zeta.
  split; [|split; [|split]].
  - apply Forall_app. split; [|exact Hf].
    apply List.Forall_forall. intros x Hx. apply repeat_spec in Hx as ->. reflexivity.
  - rewrite hex_value_zeros. exact Hv.
  - rewrite length_app, repeat_length. lia.
  - rewrite length_app, repeat_length. split.
    + intros Hl. assert (List.length (hex_upper c) <= 4)%nat as Hle by lia.
      pose proof (hex_value_bound _ Hf) as Hb. rewrite Hv in Hb.
      eapply N.lt_le_trans; [exact Hb|].
      change 65536%N with (16 ^ 4)%N. apply N.pow_le_mono_r; lia.
    + intros Hc.
      assert (exists w, (w <= 4)%nat /\ List.length (hex_upper c) = w) as (w & Hw & ->); [|lia].
      destruct (N.eq_dec c 0%N) as [->|Hnz]; [exists 0%nat; split; [lia|reflexivity]|].
      destruct (N.lt_ge_cases c 16%N); [exists 1%nat; split; [lia|apply hex_upper_length; simpl; lia]|].
      destruct (N.lt_ge_cases c 256%N); [exists 2%nat; split; [lia|apply hex_upper_length; simpl; lia]|].
      destruct (N.lt_ge_cases c 4096%N); [exists 3%nat; split; [lia|apply hex_upper_length; simpl; lia]|].
      exists 4%nat; split; [lia|apply hex_upper_length; simpl; lia].
Qed.

Example format_04X_examples :
  format_04X 0x1F600 = u "1F600" /\ format_04X 0x263A = u "263A" /\
  format_04X 0xA9 = u "00A9" /\ format_04X 0 = u "0000".
Proof. vm_compute. auto. Qed.


(** ** Output paths *)

Example format_int_examples :
  format_int 42 = u "42" /\ format_int 0 = u "0" /\ format_int (-7) = u "-7".
Proof. vm_compute. auto. Qed.

Example safe_output_path_examples :
  @_safe_output_path sample_builtins (u "out") grinning_face 42 1 1
  = u "out/emoji_1F600_s42.png" /\
  @_safe_output_path sample_builtins (u "out") grinning_face 45 2 2
  = u "out/emoji_1F600_s45_b2.png" /\
  @_safe_output_path sample_builtins (u "out") [0x1F468; 0x200D; 0x1F373]%N 7 1 1
  = u "out/emoji_1F468_200D_1F373_s7.png" /\
  @_safe_output_path sample_builtins (u "out") [0x263A; 0xFE0F]%N (-3) 3 0
  = u "out/emoji_263A_FE0F_s-3.png".
Proof. vm_compute. auto. Qed.

(** The claim C7 as it is worded fails on the first emoji of the catalog:
    the code point field of U+1F600 has five digits, not four. *)
Lemma safe_output_path_five_digit_field :
  @_safe_output_path sample_builtins (u "out") grinning_face 42 1 1
  = u "out/emoji_1F600_s42.png" /\
  List.length (format_04X 0x1F600) <> 4%nat.
Proof. vm_compute. split; [reflexivity | discriminate]. Qed.

(** The digits of a number other than zero begin with a digit other than
    zero. *)
Lemma hex_digit_nonzero d : (0 < d < 16)%N -> hex_digit d <> 48%N.
Proof. intros Hd. unfold hex_digit. destruct (N.ltb_spec d 10); lia. Qed.

Lemma hex_upper_aux_zero fuel acc : hex_upper_aux fuel 0 acc = acc.
Proof. by destruct fuel. Qed.

Lemma hex_upper_aux_head fuel : forall n acc,
  n <> 0%N -> (n < 16 ^ N.of_nat fuel)%N ->
  exists d rest, hex_upper_aux fuel n acc = d :: rest /\ d <> 48%N.
Proof.
  induction fuel as [|fuel IH]; intros n acc Hnz Hn.
  - simpl in Hn. lia.
  - simpl hex_upper_aux. destruct (N.eqb_spec n 0) as [|_]; [done|].
    destruct (N.eq_dec (n / 16)%N 0%N) as [Hz|Hz].
    + rewrite Hz, hex_upper_aux_zero. eexists _, _. split; [reflexivity|].
      apply hex_digit_nonzero.
      pose proof (N.div_mod n 16 ltac:(lia)) as Hdm.
      pose proof (N.mod_lt n 16 ltac:(lia)). lia.
    + apply IH; [exact Hz|].
      apply N.Div0.div_lt_upper_bound.
      replace (N.of_nat (S fuel)) with (N.succ (N.of_nat fuel)) in Hn by lia.
      rewrite N.pow_succ_r' in Hn. lia.
Qed.

Lemma hex_upper_head n : n <> 0%N -> head (hex_upper n) <> Some 48%N.
Proof.
  intros Hnz.
  destruct (hex_upper_aux_head _ n [] Hnz (hex_upper_fuel n)) as (d & rest & Heq & Hd).
  unfold hex_upper. rewrite Heq. cbn. congruence.
Qed.

(** What [format_04X] writes is the field of the code point. *)
Lemma format_04X_field c : code_point_field c (format_04X c).
Proof.
  destruct (format_04X_spec c) as (Hhex & Hval & Hmin & Hfour).
  repeat split; try done.
  intros Hlong. unfold format_04X in *. cbv zeta in *.
  rewrite length_app, repeat_length in Hlong.
  replace (4 - List.length (hex_upper c))%nat with 0%nat by lia.
  cbn [List.repeat app]. apply hex_upper_head. intros ->.
  change (hex_upper 0) with (@nil N) in Hlong. cbn [List.length] in Hlong. lia.
Qed.

Lemma hex_value_cons d s :
  hex_value (d :: s)
  = (hex_digit_value d * 16 ^ N.of_nat (List.length s) + hex_value s)%N.
Proof.
  unfold hex_value at 1. simpl List.fold_left. rewrite hex_fold_shift. lia.
Qed.

(** A field has as many digits as its code point needs, and four at
    least: the code point decides the width. *)
Lemma code_point_field_width c field :
  code_point_field c field ->
  (List.length field = 4%nat <-> (c < 16 ^ 4)%N) /\
  forall w, (4 < w)%nat ->
    List.length field = w <-> (16 ^ N.of_nat (w - 1) <= c < 16 ^ N.of_nat w)%N.
Proof.
  intros (Hhex & Hval & Hmin & Hlead).
  pose proof (hex_value_bound _ Hhex) as Hup. rewrite Hval in Hup.
  assert (Hlow : (4 < List.length field)%nat ->
                 (16 ^ N.of_nat (List.length field - 1) <= c)%N).
  { intros Hlong. specialize (Hlead Hlong).
    destruct field as [|d rest]; [cbn in Hlong; lia|].
    rewrite hex_value_cons in Hval. cbn [List.length].
    replace (S (List.length rest) - 1)%nat with (List.length rest) by lia.
    assert (1 <= hex_digit_value d)%N.
    { apply Forall_inv in Hhex. unfold is_upper_hex in Hhex.
      rewrite orb_true_iff, !andb_true_iff, !N.leb_le in Hhex.
      assert (d <> 48%N) by (cbn in Hlead; congruence).
      unfold hex_digit_value. destruct (N.ltb_spec d 58); lia. }
    nia. }
  assert (Hmono : forall a b : nat, (a <= b)%nat -> (16 ^ N.of_nat a <= 16 ^ N.of_nat b)%N).
  { intros a b Hab. apply N.pow_le_mono_r; lia. }
  split; [split|intros w Hw; split].
  - intros Hfour. by rewrite Hfour in Hup.
  - intros Hc. destruct (decide (4 < List.length field)%nat) as [Hlong|]; [|lia].
    specialize (Hlow Hlong). specialize (Hmono 4%nat (List.length field - 1)%nat).
    change (N.of_nat 4) with 4%N in Hmono. lia.
  - intros <-. split; [by apply Hlow | exact Hup].
  - intros [Hge Hlt].
    destruct (decide (4 < List.length field)%nat) as [Hlong|Hshort].
    + specialize (Hlow Hlong).
      destruct (Nat.lt_trichotomy (List.length field) w) as [Hl|[Heq|Hg]]; [|done|].
      * specialize (Hmono (List.length field) (w - 1)%nat). lia.
      * specialize (Hmono w (List.length field - 1)%nat). lia.
    + assert (List.length field = 4%nat) as Hfour by lia. rewrite Hfour in Hup.
      specialize (Hmono 4%nat (w - 1)%nat). lia.
Qed.

(** ** Joined fields *)

Lemma str_join_underscored fields : str_join (u "_") fields = underscored fields.
Proof.
  destruct fields as [|field rest]; [reflexivity|]. cbn [underscored].
  revert field. induction rest as [|next rest IH]; intros field.
  - cbn. by rewrite app_nil_r.
  - change (str_join (u "_") (field :: next :: rest))
      with (field ++ u "_" ++ str_join (u "_") (next :: rest)).
    rewrite IH. reflexivity.
Qed.

(** ** Decimal numbers *)

Lemma pretty_N_char_code d : (d < 10)%N -> N_of_ascii (pretty_N_char d) = (48 + d)%N.
Proof.
  intros Hd.
  assert (d = 0 \/ d = 1 \/ d = 2 \/ d = 3 \/ d = 4 \/ d = 5 \/ d = 6 \/ d = 7
          \/ d = 8 \/ d = 9)%N as Hcases by lia.
  repeat destruct Hcases as [->|Hcases]; try reflexivity. by subst.
Qed.

Lemma decimal_value_snoc s d :
  decimal_value (s ++ [d]) = (10 * decimal_value s + (d - 48))%N.
Proof. unfold decimal_value. by rewrite fold_left_app. Qed.

(** The digits that [pretty] puts before the text it was handed. *)
Lemma pretty_N_go_digits x :
  (0 < x)%N ->
  exists digits,
    (forall s, u (pretty_N_go x s) = digits ++ u s) /\
    digits <> [] /\
    Forall (fun c => is_decimal_digit c = true) digits /\
    decimal_value digits = x /\
    head digits <> Some 48%N.
Proof.
  induction (N.lt_wf_0 x) as [x _ IH]. intros Hx.
  assert (Hstep : forall s, u (pretty_N_go x s)
                            = u (pretty_N_go (x / 10) "") ++ (48 + x mod 10)%N :: u s).
  { intros s. rewrite pretty_N_go_step by done.
    destruct (N.eq_dec (x / 10)%N 0%N) as [Hz|Hz].
    - rewrite Hz, !pretty_N_go_0. unfold u.
      cbn [list_ascii_of_string List.map app].
      rewrite pretty_N_char_code; [done|]. apply N.mod_lt. lia.
    - destruct (IH (x / 10)%N) as (digits & Htext & _).
      { apply N.div_lt; lia. }
      { by apply N.neq_0_lt_0. }
      rewrite !Htext. unfold u at 1 3. cbn [list_ascii_of_string List.map].
      rewrite pretty_N_char_code by (apply N.mod_lt; lia).
      by rewrite app_nil_r. }
  pose proof (N.mod_lt x 10 ltac:(lia)) as Hmod.
  pose proof (N.div_mod x 10 ltac:(lia)) as Hdm.
  pose proof (N.div_lt x 10 Hx ltac:(lia)) as Hdiv.
  destruct (N.eq_dec (x / 10)%N 0%N) as [Hz|Hz].
  - rewrite Hz in Hstep, Hdm. rewrite pretty_N_go_0 in Hstep. clear IH Hz Hdiv.
    revert Hstep Hmod Hdm. generalize (x mod 10)%N. intros r Hstep Hmod Hdm.
    exists [(48 + r)%N]. split; [exact Hstep|]. split; [done|].
    split; [|split].
    + constructor; [|done].
      unfold is_decimal_digit. rewrite andb_true_iff, !N.leb_le. lia.
    + unfold decimal_value. cbn [List.fold_left]. lia.
    + cbn. intros [= Heq]. lia.
  - destruct (IH (x / 10)%N Hdiv (proj1 (N.neq_0_lt_0 _) Hz))
      as (digits & Htext & Hne & Hall & Hval & Hhead).
    rewrite Htext, app_nil_r in Hstep. clear IH Htext.
    revert Hstep Hmod Hdm Hval Hz Hdiv.
    generalize (x mod 10)%N, (x / 10)%N. intros r q Hstep Hmod Hdm Hval Hz Hdiv.
    exists (digits ++ [(48 + r)%N]). split; [|split; [|split; [|split]]].
    + intros s. rewrite Hstep. by rewrite <- app_assoc.
    + by destruct digits.
    + apply Forall_app. split; [done|]. constructor; [|done].
      unfold is_decimal_digit. rewrite andb_true_iff, !N.leb_le. lia.
    + rewrite decimal_value_snoc, Hval. lia.
    + by destruct digits.
Qed.

Lemma pretty_positive_digits p :
  exists digits,
    u (pretty p) = digits /\
    digits <> [] /\
    Forall (fun c => is_decimal_digit c = true) digits /\
    decimal_value digits = Npos p /\
    head digits <> Some 48%N.
Proof.
  destruct (pretty_N_go_digits (Npos p) ltac:(lia))
    as (digits & Htext & Hne & Hall & Hval & Hhead).
  exists digits. split; [|done].
  unfold pretty, pretty_positive, pretty, pretty_N.
  destruct (decide (N.pos p = 0%N)) as [|_]; [done|].
  rewrite Htext. apply app_nil_r.
Qed.

(** What [format_int] writes is the integer in decimal. *)
Lemma format_int_decimal z : decimal_of z (format_int z).
Proof.
  unfold format_int, decimal_of. destruct z as [|p|p].
  - exists [48%N]. repeat split; try done. by constructor.
  - destruct (pretty_positive_digits p) as (digits & Htext & Hne & Hall & Hval & Hhead).
    exists digits. change (pretty (Z.pos p)) with (pretty p).
    repeat split; try done.
  - destruct (pretty_positive_digits p) as (digits & Htext & Hne & Hall & Hval & Hhead).
    exists digits. change (pretty (Z.neg p)) with ("-" +:+ pretty p).
    split; [|done].
    change (u ("-" +:+ pretty p)) with (45%N :: u (pretty p)). by rewrite Htext.
Qed.

(** C7, amended. The output path of an item is the output directory
    joined with [emoji_<CODEPOINTS>_s<seed><suffix>.png]. CODEPOINTS has
    one field per character of the emoji, with an underscore between two
    fields; a field is the code point in uppercase hexadecimal, padded with
    zeros to four digits and not beyond: four digits up to U+FFFF, five
    from U+10000 to U+FFFFF, six from U+100000. The seed is written in
    decimal. The suffix is [_b<batch_index>], the index in decimal, exactly
    when the batch size exceeds 1, and is empty otherwise. *)
Theorem safe_output_path_name `{PyBuiltins} output_dir emoji_char seed batch_index
    batch_size :
  exists fields seed_text index_text,
    _safe_output_path output_dir emoji_char seed batch_index batch_size
    = path_join output_dir
        (u "emoji_" ++ underscored fields ++ u "_s" ++ seed_text
         ++ (if 1 <? batch_size then u "_b" ++ index_text else [])
         ++ u ".png") /\
    Forall2 (fun c field =>
               code_point_field c field /\
               (List.length field = 4%nat <-> (c < 0x10000)%N) /\
               (List.length field = 5%nat <-> (0x10000 <= c < 0x100000)%N) /\
               (List.length field = 6%nat <-> (0x100000 <= c < 0x1000000)%N))
            emoji_char fields /\
    decimal_of seed seed_text /\
    decimal_of batch_index index_text.
Proof.
  exists (List.map format_04X emoji_char), (format_int seed), (format_int batch_index).
  split; [|split; [|split]].
  - unfold _safe_output_path, output_file_name. cbv zeta.
    by rewrite str_join_underscored.
  - induction emoji_char as [|c rest IH]; cbn [List.map]; constructor; [|exact IH].
    pose proof (format_04X_field c) as Hfield.
    destruct (code_point_field_width _ _ Hfield) as [Hfour Hmore].
    split; [exact Hfield|]. split; [exact Hfour|].
    split; [apply (Hmore 5%nat); lia | apply (Hmore 6%nat); lia].
  - apply format_int_decimal.
  - apply format_int_decimal.
Qed.
(** ** The softened matte *)

Lemma tone_tables : forallb tone_table_ok (seqZ 0 16) = true.
Proof. vm_cast_no_check (eq_refl true). Qed.

Lemma tone_table k :
  0 <= k < 16 ->
  let s := clamp_strength (dyadic_strength k) in
  F64.ltb s F64.one = true /\
  res_map (blend_alpha (F64.sub F64.one s) s) (seqZ 0 256)
    = Ok (List.map (truncated_blend k) (seqZ 0 256)).
Proof.
  intros Hk s.
  pose proof tone_tables as Hall. rewrite forallb_forall in Hall.
  assert (Hin : In k (seqZ 0 16)).
  { apply list_elem_of_In, elem_of_seqZ. lia. }
  specialize (Hall k Hin). unfold tone_table_ok in Hall. fold s in Hall.
  apply andb_true_iff in Hall as [Hlt Hlut]. split; [exact Hlt|].
  destruct (res_map _ _) as [lut|]; [|discriminate].
  apply bool_decide_eq_true in Hlut. by subst.
Qed.

Lemma nth_table (f : Z -> Z) a :
  0 <= a <= 255 -> List.nth (Z.to_nat a) (List.map f (seqZ 0 256)) 0 = f a.
Proof.
  intros Ha. apply nth_lookup_Some with (d := 0).
  rewrite list_lookup_fmap, lookup_seqZ_lt by lia. simpl. rewrite Z2Nat.id by lia. reflexivity.
Qed.

Lemma putalpha_table (f : Z -> Z) (img : Image) :
  Forall byte_alpha img ->
  putalpha img
    (List.map (fun a => List.nth (Z.to_nat a) (List.map f (seqZ 0 256)) 0)
              (List.map alpha img))
  = List.map (with_alpha f) img.
Proof.
  unfold putalpha. induction 1 as [|p img Hp _ IH]; [reflexivity|].
  cbn [List.map List.combine]. rewrite IH. f_equal.
  unfold with_alpha. cbn [fst snd]. by rewrite nth_table.
Qed.

Lemma with_alpha_id (img : Image) : List.map (with_alpha (fun a => a)) img = img.
Proof.
  induction img as [|[r g b a] img IH]; [reflexivity|]. simpl. by rewrite IH.
Qed.

Lemma tone_down_full_strength (img : Image) :
  tone_down (clamp_strength (dyadic_strength 16)) img = Ok img.
Proof. reflexivity. Qed.

Lemma tone_down_dyadic k (img : Image) :
  0 <= k < 16 ->
  Forall byte_alpha img ->
  tone_down (clamp_strength (dyadic_strength k)) img
  = Ok (List.map (with_alpha (truncated_blend k)) img).
Proof.
  intros Hk Himg. destruct (tone_table k Hk) as [Hlt Hlut].
  unfold tone_down. rewrite Hlt. unfold point. rewrite Hlut.
  cbn [res_bind]. by rewrite putalpha_table.
Qed.

Example strengths :
  clamp_strength (dyadic_strength 16) = F64.one /\
  clamp_strength (dyadic_strength 8) = F64.half /\
  clamp_strength (dyadic_strength 0) = F64.zero /\
  clamp_strength (F64.of_Z 7) = F64.one /\
  clamp_strength (F64.of_Z (-3)) = F64.zero /\
  clamp_strength S754_nan = F64.one.
Proof. vm_compute. repeat split. Qed.

Lemma truncated_blend_zero a : truncated_blend 0 a = 255.
Proof. unfold truncated_blend. rewrite Z.mul_0_r, Z.add_0_r. reflexivity. Qed.

Lemma truncated_blend_half a : truncated_blend 8 a = (255 + a) / 2.
Proof.
  unfold truncated_blend.
  replace (255 * (16 - 8) + a * 8) with ((255 + a) * 8) by lia.
  change 16 with (2 * 8). by rewrite Z.div_mul_cancel_r.
Qed.

Lemma res_map_lookup {A B} (f : A -> Res B) (l : list A) : forall out,
  res_map f l = Ok out ->
  forall (i : nat) x, l !! i = Some x -> exists y, out !! i = Some y /\ f x = Ok y.
Proof.
  induction l as [|a l IH]; intros out Hmap i x Hi; [by rewrite lookup_nil in Hi|].
  cbn [res_map] in Hmap. destruct (f a) as [b|] eqn:Hfa; [|discriminate].
  cbn [res_bind] in Hmap. destruct (res_map f l) as [bs|]; [|discriminate].
  injection Hmap as <-. destruct i as [|i].
  - injection Hi as <-. by exists b.
  - by apply (IH bs eq_refl i x).
Qed.

(** Whatever the strength below 1.0: if the table can be built, every
    sample is replaced by the truncated binary64 blend. *)
Lemma tone_down_pointwise s (img img' : Image) :
  F64.ltb s F64.one = true ->
  Forall byte_alpha img ->
  tone_down s img = Ok img' ->
  Forall2 (blended s) img img'.
Proof.
  intros Hlt Himg. unfold tone_down, point. rewrite Hlt.
  destruct (res_map _ (seqZ 0 256)) as [lut|] eqn:Hlut; [|discriminate].
  cbn [res_bind]. intros [= <-]. unfold putalpha.
  induction Himg as [|p img Hp _ IH]; [constructor|].
  cbn [List.map List.combine]. constructor; [|exact IH].
  destruct (res_map_lookup _ _ _ Hlut (Z.to_nat (alpha p)) (alpha p))
    as (y & Hy & Hblend).
  { unfold byte_alpha in Hp. rewrite lookup_seqZ_lt by lia. f_equal. lia. }
  unfold blended. cbn [fst snd alpha red green blue].
  by rewrite (nth_lookup_Some _ _ 0 _ Hy).
Qed.

Lemma tone_down_at_full_strength s (img : Image) :
  F64.ltb s F64.one = false -> tone_down s img = Ok img.
Proof. intros Hge. unfold tone_down. by rewrite Hge. Qed.

(** The claim C6 as it is worded fails at strength 0.5 on a fully
    transparent sample: the code writes 127, the rounded mean of 255 and 0
    is 128. *)
Lemma tone_down_half_truncates :
  tone_down (clamp_strength F64.half) [sample_pixel 0]
  = Ok [sample_pixel 127] /\
  tone_down (clamp_strength F64.half) [sample_pixel 0]
  <> Ok [sample_pixel (spec_rounded_alpha 1 2 0)].
Proof. vm_compute. split; [reflexivity | discriminate]. Qed.

(** C6, amended. For every matte alpha [a] in 0..255 and every strength
    [s] clamped to [0,1]: when [s] is not below 1.0 the alpha is left
    unchanged; when it is below, the alpha written is
    [int(255*(1-s) + a*s)], the binary64 blend cut down to its integer
    part and not rounded to the nearest. At the strengths [s = k/16] this
    is the integer part of [(255*(16-k) + a*k)/16]: 255 at [s = 0.0]
    whatever [a] is, and the integer part of [(255+a)/2] at [s = 0.5]. *)
Theorem tone_down_truncated_blend k (img : Image) :
  0 <= k <= 16 ->
  Forall byte_alpha img ->
  tone_down (clamp_strength (dyadic_strength k)) img
  = Ok (List.map (with_alpha (fun a => if k =? 16 then a else truncated_blend k a))
                 img) /\
  (forall a, truncated_blend 0 a = 255) /\
  (forall a, truncated_blend 8 a = (255 + a) / 2) /\
  (forall s, F64.ltb (clamp_strength s) F64.one = false ->
             tone_down (clamp_strength s) img = Ok img) /\
  (forall s img', F64.ltb (clamp_strength s) F64.one = true ->
                  tone_down (clamp_strength s) img = Ok img' ->
                  Forall2 (blended (clamp_strength s)) img img').
Proof.
  intros Hk Himg.
  split; [|split; [apply truncated_blend_zero|split; [apply truncated_blend_half|]]].
  - destruct (Z.eqb_spec k 16) as [->|Hne].
    + rewrite with_alpha_id. apply tone_down_full_strength.
    + apply tone_down_dyadic; [lia | exact Himg].
  - split.
    + intros s Hge. by apply tone_down_at_full_strength.
    + intros s img' Hlt Htone. by apply tone_down_pointwise.
Qed.

Lemma tone_down_truncated_blend_witness :
  tone_down (clamp_strength (dyadic_strength 8)) [sample_pixel 0; sample_pixel 200]
  = Ok (List.map (with_alpha (fun a => if 8 =? 16 then a
                                       else truncated_blend 8 a))
                 [sample_pixel 0; sample_pixel 200]) /\
  (forall a, truncated_blend 0 a = 255) /\
  (forall a, truncated_blend 8 a = (255 + a) / 2) /\
  (forall s, F64.ltb (clamp_strength s) F64.one = false ->
             tone_down (clamp_strength s) [sample_pixel 0; sample_pixel 200]
             = Ok [sample_pixel 0; sample_pixel 200]) /\
  (forall s img', F64.ltb (clamp_strength s) F64.one = true ->
                  tone_down (clamp_strength s) [sample_pixel 0; sample_pixel 200]
                  = Ok img' ->
                  Forall2 (blended (clamp_strength s))
                          [sample_pixel 0; sample_pixel 200] img').
Proof.
  apply (tone_down_truncated_blend 8 [sample_pixel 0; sample_pixel 200]).
  - lia.
  - repeat constructor; unfold byte_alpha; cbn; lia.
Defined.

Example tone_down_values :
  tone_down (clamp_strength F64.half) [sample_pixel 0; sample_pixel 200]
  = Ok [sample_pixel 127; sample_pixel 227] /\
  tone_down (clamp_strength F64.zero) [sample_pixel 0; sample_pixel 200]
  = Ok [sample_pixel 255; sample_pixel 255] /\
  tone_down (clamp_strength F64.one) [sample_pixel 0; sample_pixel 200]
  = Ok [sample_pixel 0; sample_pixel 200].
Proof. vm_compute. auto. Qed.
(** ** Settings normalisation *)

Section NormalizeFacts.
Context `{PyBuiltins}.

Lemma res_bind_ok {A B} (r : Res A) (k : A -> Res B) b :
  res_bind r k = Ok b -> exists a, r = Ok a /\ k a = Ok b.
Proof. destruct r; simpl; [eauto | discriminate]. Qed.

Lemma as_int_stable : stable as_int.
Proof.
  intros v v' Hv. apply res_bind_ok in Hv as (z & _ & [= <-]). reflexivity.
Qed.

Lemma as_float_stable : stable as_float.
Proof.
  intros v v' Hv. apply res_bind_ok in Hv as (z & _ & [= <-]). reflexivity.
Qed.

Lemma as_bool_stable : stable as_bool.
Proof. intros v v' [= <-]. reflexivity. Qed.

Lemma as_str_stable : stable as_str.
Proof. intros v v' [= <-]. reflexivity. Qed.

Lemma convert_lookup_ne k conv d d' k' :
  convert_in_place k conv d = Ok d' -> k <> k' -> d' !! k' = d !! k'.
Proof.
  unfold convert_in_place. destruct (d !! k) as [v|] eqn:E.
  - intros Hb Hne. apply res_bind_ok in Hb as (v' & _ & [= <-]).
    by rewrite lookup_insert_ne.
  - by intros [= <-].
Qed.

Lemma convert_fixed k conv d d' :
  stable conv -> convert_in_place k conv d = Ok d' -> fixed conv k d'.
Proof.
  unfold convert_in_place, fixed. intros Hst.
  destruct (d !! k) as [v|] eqn:E.
  - intros Hb w Hw. apply res_bind_ok in Hb as (v' & Hc & [= <-]).
    rewrite lookup_insert_eq in Hw. injection Hw as <-. eauto.
  - intros [= <-] w Hw. congruence.
Qed.

Lemma convert_id k conv d : fixed conv k d -> convert_in_place k conv d = Ok d.
Proof.
  unfold convert_in_place, fixed. intros Hf.
  destruct (d !! k) as [v|] eqn:E; [|done].
  rewrite (Hf v eq_refl). simpl. by rewrite insert_id.
Qed.

Lemma fixed_transport conv k d d' :
  d' !! k = d !! k -> fixed conv k d -> fixed conv k d'.
Proof. unfold fixed. intros -> Hf. exact Hf. Qed.

Lemma resolve_cfg_lookup_ne d d' k' :
  resolve_cfg_scale d = Ok d' -> k' <> "cfg_scale" -> k' <> "guidance_scale" ->
  d' !! k' = d !! k'.
Proof.
  unfold resolve_cfg_scale. destruct (d !! "cfg_scale") as [v|] eqn:E.
  - intros Hb H1 H2. apply res_bind_ok in Hb as (f & _ & [= <-]).
    rewrite lookup_insert_ne by done. by rewrite lookup_delete_ne.
  - by intros [= <-].
Qed.

Lemma resolve_cfg_gone d d' :
  resolve_cfg_scale d = Ok d' -> d' !! "cfg_scale" = None.
Proof.
  unfold resolve_cfg_scale. destruct (d !! "cfg_scale") as [v|] eqn:E.
  - intros Hb. apply res_bind_ok in Hb as (f & _ & [= <-]).
    rewrite lookup_insert_ne by done. apply lookup_delete_eq.
  - by intros [= <-].
Qed.

Lemma resolve_cfg_guidance d d' :
  resolve_cfg_scale d = Ok d' -> fixed as_float "guidance_scale" d ->
  fixed as_float "guidance_scale" d'.
Proof.
  unfold resolve_cfg_scale. destruct (d !! "cfg_scale") as [v|] eqn:E.
  - intros Hb _ w Hw. apply res_bind_ok in Hb as (f & _ & [= <-]).
    rewrite lookup_insert_eq in Hw. by injection Hw as <-.
  - by intros [= <-].
Qed.

Lemma resolve_cfg_id d : d !! "cfg_scale" = None -> resolve_cfg_scale d = Ok d.
Proof. unfold resolve_cfg_scale. by intros ->. Qed.

Ltac step_back :=
  match goal with
  | Hc : convert_in_place ?k _ ?d = Ok ?d' |- context [?d' !! ?k'] =>
      rewrite (convert_lookup_ne _ _ _ _ k' Hc) by done
  | Hc : resolve_cfg_scale ?d = Ok ?d' |- context [?d' !! ?k'] =>
      rewrite (resolve_cfg_lookup_ne _ _ k' Hc) by done
  | |- context [delete ?k ?d !! ?k'] => rewrite (lookup_delete_ne d k k') by done
  end.

Ltac settle :=
  first
    [ eapply convert_fixed; [| eassumption];
      auto using as_int_stable, as_float_stable, as_bool_stable, as_str_stable
    | eapply resolve_cfg_gone; eassumption
    | eapply fixed_transport; [ step_back; reflexivity | settle ]
    | step_back; settle ].

Lemma normalize_dict_normalized d d' :
  normalize_dict d = Ok d' -> normalized d'.
Proof.
  unfold normalize_dict. intros Hn.
  apply res_bind_ok in Hn as (d1 & H1 & Hn).
  apply res_bind_ok in Hn as (d2 & H2 & Hn).
  apply res_bind_ok in Hn as (d3 & H3 & Hn).
  apply res_bind_ok in Hn as (d4 & H4 & Hn).
  apply res_bind_ok in Hn as (d5 & H5 & Hn).
  apply res_bind_ok in Hn as (d6 & H6 & Hn).
  apply res_bind_ok in Hn as (d7 & H7 & Hn).
  apply res_bind_ok in Hn as (d8 & H8 & Hn).
  apply res_bind_ok in Hn as (d9 & H9 & Hn).
  apply res_bind_ok in Hn as (d10 & H10 & [= <-]).
  split.
  all: try (rewrite lookup_delete_eq; reflexivity).
  all: try (rewrite lookup_delete_ne by done; rewrite lookup_delete_eq; reflexivity).
  all: try settle.
  - eapply fixed_transport; [step_back; step_back; step_back; step_back; step_back; reflexivity|].
    eapply resolve_cfg_guidance; [eassumption|]. settle.
Qed.

(** Normalised settings are a fixed point of the normalisation. *)
Lemma normalize_dict_fixpoint d : normalized d -> normalize_dict d = Ok d.
Proof.
  intros [? ? ? ? ? ? ? ? ? ? ? ?]. unfold normalize_dict.
  repeat (rewrite convert_id by assumption; cbn [res_bind]).
  rewrite resolve_cfg_id by assumption. cbn [res_bind].
  repeat (rewrite convert_id by assumption; cbn [res_bind]).
  rewrite (delete_id d "same_seed") by assumption.
  by rewrite delete_id.
Qed.

Lemma fixed_insert_ne conv k k' v d :
  k <> k' -> fixed conv k d -> fixed conv k (<[k' := v]> d).
Proof.
  intros Hne Hf w Hw. rewrite lookup_insert_ne in Hw by done. by apply Hf.
Qed.

(** Line 266: writing the per-item seed keeps the settings normalised. *)
Lemma normalized_insert_seed d z :
  normalized d -> normalized (<["seed" := PInt z]> d).
Proof.
  intros [? ? ? ? ? ? ? ? ? ? ? ?].
  split; try (apply fixed_insert_ne; [done | assumption]);
    try (rewrite lookup_insert_ne by done; assumption).
  intros w Hw. rewrite lookup_insert_eq in Hw. by injection Hw as <-.
Qed.

Lemma fixed_as_float_value k d v :
  fixed as_float k d -> d !! k = Some v -> exists f, v = PFloat f.
Proof.
  intros Hf Hv. specialize (Hf v Hv). unfold as_float in Hf.
  apply res_bind_ok in Hf as (f & _ & [= <-]). eauto.
Qed.

Lemma normalized_strength d :
  normalized d ->
  exists f,
    py_float (default (PFloat F64.one) (d !! "remove_background_strength")) = Ok f.
Proof.
  intros Hn. destruct (d !! "remove_background_strength") as [v|] eqn:E.
  - destruct (fixed_as_float_value _ _ _ (nz_remove_background_strength _ Hn) E)
      as [f ->]. by exists f.
  - by exists F64.one.
Qed.

Lemma normalize_settings_normalized raw out :
  _normalize_settings raw = Ok out -> normalized out.
Proof.
  destruct raw; cbn [_normalize_settings].
  1:{ intros [= <-]. split; try done; intros v Hv; by rewrite lookup_empty in Hv. }
  all: intros Hn; apply res_bind_ok in Hn as (d0 & _ & Hn);
    by eapply normalize_dict_normalized.
Qed.

Lemma normalize_settings_fixpoint d :
  normalized d -> _normalize_settings (PDict d) = Ok d.
Proof. intros Hn. cbn. by apply normalize_dict_fixpoint. Qed.

(** C9. Settings normalisation is idempotent: whatever
    [_normalize_settings] returns, it returns unchanged when applied to
    it again, and the [cfg_scale] alias no longer occurs in it, having
    been resolved to [guidance_scale] by the first application. *)
Theorem normalize_settings_idempotent raw out :
  _normalize_settings raw = Ok out ->
  _normalize_settings (PDict out) = Ok out /\ out !! "cfg_scale" = None.
Proof.
  intros Hn. apply normalize_settings_normalized in Hn.
  split; [by apply normalize_settings_fixpoint | by destruct Hn].
Qed.

(** Normalising twice is normalising once, failures included. *)
Corollary normalize_settings_twice raw :
  (out <~ _normalize_settings raw ;; _normalize_settings (PDict out))
  = _normalize_settings raw.
Proof.
  destruct (_normalize_settings raw) as [out|e] eqn:E; cbn [res_bind]; [|done].
  by apply normalize_settings_fixpoint, (normalize_settings_normalized raw).
Qed.
End NormalizeFacts.

Example normalize_settings_alias :
  @_normalize_settings sample_builtins
    (PDict (<["cfg_scale" := PInt 7]> (<["seed" := PBool true]>
            (<["same_seed" := PBool true]> ∅))))
  = Ok (<["guidance_scale" := PFloat (F64.of_Z 7)]> (<["seed" := PInt 1]> ∅)).
Proof. vm_compute. reflexivity. Qed.

Lemma normalize_settings_idempotent_witness :
  @_normalize_settings sample_builtins
    (PDict (<["guidance_scale" := PFloat (F64.of_Z 7)]> (<["seed" := PInt 1]> ∅)))
  = Ok (<["guidance_scale" := PFloat (F64.of_Z 7)]> (<["seed" := PInt 1]> ∅))
  /\ (<["guidance_scale" := PFloat (F64.of_Z 7)]> (<["seed" := PInt 1]> ∅) : dict)
       !! "cfg_scale" = None.
Proof.
  apply (@normalize_settings_idempotent sample_builtins
           (PDict (<["cfg_scale" := PInt 7]> (<["seed" := PBool true]>
                   (<["same_seed" := PBool true]> ∅))))).
  vm_compute. reflexivity.
Defined.

(** ** Frames of the single-job pipeline *)

Section Frames.
Context `{PyBuiltins} `{Collaborators}.

Lemma undisturbed_refl p : undisturbed p p.
Proof. by repeat split. Qed.

Lemma undisturbed_trans p q r :
  undisturbed p q -> undisturbed q r -> undisturbed p r.
Proof.
  intros (? & ? & ? & ?) (? & ? & ? & ?). repeat split; by etrans.
Qed.

Lemma quiet_ret {A} (a : A) : quiet (ret a).
Proof. intros p. apply undisturbed_refl. Qed.

Lemma quiet_lift {A} (r : Res A) : quiet (lift r).
Proof. intros p. apply undisturbed_refl. Qed.

Lemma quiet_get_state : quiet get_state.
Proof. intros p. apply undisturbed_refl. Qed.

Lemma quiet_collaborate {A} c (answer : nat -> Res A) : quiet (collaborate c answer).
Proof. intros p. by repeat split. Qed.

Lemma quiet_bind {A B} (m : M A) (k : A -> M B) :
  quiet m -> (forall a, quiet (k a)) -> quiet (bind m k).
Proof.
  intros Hm Hk p. unfold bind. specialize (Hm p).
  destruct (m p) as [[a|e] q]; cbn [snd] in *; [|done].
  eapply undisturbed_trans; [exact Hm | apply Hk].
Qed.

Lemma quiet_sessions f :
  quiet (modify_state (fun st => set_rembg_sessions (f st) st)).
Proof. intros p. by repeat split. Qed.

Lemma quiet_get_rembg_session model_name : quiet (get_rembg_session model_name).
Proof.
  unfold get_rembg_session. apply quiet_bind; [apply quiet_get_state|].
  intros st. destruct (_ !! _); [apply quiet_ret|].
  apply quiet_bind; [apply quiet_collaborate|]. intros session.
  apply quiet_bind; [|intros; apply quiet_ret].
  apply (quiet_sessions (fun st => <[model_name := session]> (_rembg_sessions st))).
Qed.

Lemma quiet_save_debug_base cmd base : quiet (save_debug_base cmd base).
Proof.
  unfold save_debug_base.
  repeat (apply quiet_bind; [first [apply quiet_lift | apply quiet_collaborate]|];
          intros ?).
  apply quiet_ret.
Qed.

Lemma quiet_remove_background remove_bg rembg_model strength result :
  quiet (remove_background remove_bg rembg_model strength result).
Proof.
  unfold remove_background. destruct (py_bool remove_bg); [|apply quiet_ret].
  apply quiet_bind; [apply quiet_get_rembg_session|]. intros session.
  apply quiet_bind; [apply quiet_collaborate|]. intros removed.
  apply quiet_lift.
Qed.

Lemma quiet_unlink_debug path : quiet (unlink_debug path).
Proof. destruct path; [apply quiet_collaborate | apply quiet_ret]. Qed.

Lemma result_or_raise_bind {A} job_id (m : M A) (k : A -> M unit) :
  quiet m -> (forall a, result_or_raise job_id (k a)) ->
  result_or_raise job_id (bind m k).
Proof.
  intros Hm Hk p. unfold bind. specialize (Hm p).
  destruct (m p) as [[a|e] q] eqn:E; cbn [snd] in *; [|done].
  specialize (Hk a q). destruct (k a q) as [[[]|e] p'].
  - destruct Hk as (q' & emoji & path & Hq & Hemit).
    exists q', emoji, path. split; [by eapply undisturbed_trans|done].
  - by eapply undisturbed_trans.
Qed.

(** [_emit] writes its payload when every string of it can be encoded,
    and otherwise raises and leaves the process as it was. *)
Lemma emit_encodable payload p :
  event_encodable payload = true ->
  _emit payload p
    = (Ok tt, {| state := state p; stdout := stdout p ++ [payload];
                 uuid_count := uuid_count p; jobs := jobs p;
                 calls := calls p |}).
Proof. intros Henc. unfold _emit. by rewrite Henc. Qed.

Lemma emit_unencodable payload p :
  event_encodable payload = false ->
  _emit payload p = (Raise UnicodeEncodeError, p).
Proof. intros Henc. unfold _emit. by rewrite Henc. Qed.

Lemma emit_frame payload p :
  state (_emit payload p).2 = state p /\
  uuid_count (_emit payload p).2 = uuid_count p /\
  jobs (_emit payload p).2 = jobs p /\
  calls (_emit payload p).2 = calls p.
Proof. unfold _emit. by destruct (event_encodable payload). Qed.

(** The [error] event of a job whose id can be encoded is written. *)
Lemma emit_job_error job_id ex p :
  encodable job_id = true ->
  _emit (EvError (Some job_id) (str_of_exn ex)) p
    = (Ok tt, {| state := state p;
                 stdout := stdout p ++ [EvError (Some job_id) (str_of_exn ex)];
                 uuid_count := uuid_count p; jobs := jobs p;
                 calls := calls p |}).
Proof.
  intros Hid. apply emit_encodable. cbn [event_encodable].
  by rewrite Hid, str_of_exn_encodable.
Qed.

Lemma result_or_raise_emit job_id emoji path :
  result_or_raise job_id (_emit (EvResult job_id emoji path true false)).
Proof.
  intros p.
  destruct (_emit (EvResult job_id emoji path true false) p) as [[[]|ex] p']
    eqn:Hemit.
  - exists p, emoji, path. split; [apply undisturbed_refl|done].
  - revert Hemit. unfold _emit. destruct (event_encodable _); [done|].
    intros [= _ <-]. apply undisturbed_refl.
Qed.

(** The body of the [try] writes nothing before its [result] event. *)
Lemma generate_job_result_or_raise gen cmd job_id settings output_size remove_bg
    strength rembg_model debug_conditioning :
  result_or_raise job_id
    (generate_job gen cmd job_id settings output_size remove_bg strength
                  rembg_model debug_conditioning).
Proof.
  unfold generate_job.
  apply result_or_raise_bind; [apply quiet_lift|]. intros emoji.
  apply result_or_raise_bind; [apply quiet_get_state|]. intros st.
  apply result_or_raise_bind; [apply quiet_collaborate|]. intros base.
  apply result_or_raise_bind.
  { destruct debug_conditioning; [apply quiet_save_debug_base | apply quiet_ret]. }
  intros debug.
  apply result_or_raise_bind; [apply quiet_lift|]. intros prompt.
  apply result_or_raise_bind; [apply quiet_collaborate|]. intros result.
  apply result_or_raise_bind; [apply quiet_remove_background|]. intros result'.
  apply result_or_raise_bind; [apply quiet_lift|]. intros output_path.
  apply result_or_raise_bind; [apply quiet_lift|]. intros out_path.
  apply result_or_raise_bind; [apply quiet_collaborate|]. intros _.
  apply result_or_raise_bind; [apply quiet_collaborate|]. intros _.
  apply result_or_raise_bind; [apply quiet_unlink_debug|]. intros _.
  apply result_or_raise_bind; [apply quiet_unlink_debug|]. intros _.
  apply result_or_raise_bind; [apply quiet_lift|]. intros emoji'.
  apply result_or_raise_emit.
Qed.

(** [_handle_generate] on an initialised session whose settings
    normalise, for a job whose id can be encoded: it returns, having
    written exactly one event, the terminal event of the job; the progress
    fields are those of lines 100-103. *)
Lemma handle_generate_runs cmd p gen settings f :
  generator (state p) = Some gen ->
  _normalize_settings (dict_get cmd "settings" PNone) = Ok settings ->
  py_float (default (PFloat F64.one) (settings !! "remove_background_strength"))
    = Ok f ->
  encodable (dict_get cmd "job_id" (PStr (uuid4 (uuid_count p)))) = true ->
  exists p' ev,
    _handle_generate cmd p = (Ok tt, p') /\
    stdout p' = stdout p ++ [ev] /\
    terminal_of (dict_get cmd "job_id" (PStr (uuid4 (uuid_count p)))) ev /\
    forget_sessions (state p')
      = forget_sessions (single_job_progress cmd (state p)) /\
    jobs p' = jobs p ++ [cmd] /\
    uuid_count p' = S (uuid_count p).
Proof.
  intros Hgen Hnorm Hstrength Hid.
  unfold _handle_generate, bind at 1, note_job at 1. cbn [fst snd].
  unfold bind at 1, get_state at 1. cbn [state]. rewrite Hgen.
  unfold bind at 1, draw_uuid at 1. cbn [uuid_count state stdout jobs calls].
  set (job_id := dict_get cmd "job_id" (PStr (uuid4 (uuid_count p)))).
  unfold bind at 1.
  set (p1 := {| state := single_job_progress cmd (state p); stdout := stdout p;
                uuid_count := S (uuid_count p); jobs := jobs p ++ [cmd];
                calls := calls p |}).
  match goal with
  | |- context [match ?m ?q with _ => _ end] =>
      assert (Hp1 : m q = (Ok tt, p1))
  end.
  { unfold p1, single_job_progress.
    destruct (py_bool (dict_get cmd "preserve_progress_state" (PBool false)));
      reflexivity. }
  rewrite Hp1. unfold bind at 1, lift at 1. rewrite Hnorm.
  unfold dict_pop. cbn [fst snd].
  rewrite !lookup_delete_ne by done. rewrite Hstrength.
  unfold bind at 1, lift at 1, try_except.
  match goal with
  | |- context [generate_job ?g ?c ?j ?s ?o ?r ?st ?m ?d p1] =>
      pose proof (generate_job_result_or_raise g c j s o r st m d p1) as Hjob;
      destruct (generate_job g c j s o r st m d p1) as [[[]|ex] p2]
  end.
  - destruct Hjob as (q & emoji & path & (Hst & Hout & Huuid & Hjobs) & Hemit).
    pose proof (emit_frame (EvResult job_id emoji path true false) q)
      as (Hst' & Huuid' & Hjobs' & _).
    assert (stdout p2 = stdout q ++ [EvResult job_id emoji path true false])
      as Hout'.
    { revert Hemit. unfold _emit. destruct (event_encodable _); [|done].
      by intros [= <-]. }
    rewrite Hemit in Hst', Huuid', Hjobs'. cbn [snd] in Hst', Huuid', Hjobs'.
    eexists _, _. split; [reflexivity|].
    rewrite Hout', Hst', Hjobs', Huuid', Hout, Hst, Hjobs, Huuid.
    repeat split. left. eauto.
  - destruct Hjob as (Hst & Hout & Huuid & Hjobs).
    rewrite (emit_job_error job_id ex p2 Hid).
    eexists _, _. split; [reflexivity|]. cbn [snd stdout state jobs uuid_count].
    rewrite Hout, Hst, Hjobs, Huuid.
    repeat split. right. eauto.
Qed.

(** The same, whatever the settings: [_handle_generate] records the
    command it was handed and nothing else in the job log. *)
Lemma handle_generate_frame cmd p :
  jobs (_handle_generate cmd p).2 = jobs p ++ [cmd] /\
  forget_sessions (state (_handle_generate cmd p).2)
    = forget_sessions (match generator (state p) with
                       | Some _ => single_job_progress cmd (state p)
                       | None => state p
                       end).
Proof.
  destruct (_handle_generate cmd p) as [r p'] eqn:Hrun. cbn [snd].
  revert Hrun.
  unfold _handle_generate, bind at 1, note_job at 1. cbn [fst snd].
  unfold bind at 1, get_state at 1. cbn [state].
  destruct (generator (state p)) as [gen|] eqn:Hgen.
  2:{ intros Hrun.
      match type of Hrun with
      | _emit ?ev ?q = _ =>
          pose proof (emit_frame ev q) as (Hst & _ & Hjobs & _)
      end.
      rewrite Hrun in Hst, Hjobs. cbn [snd state jobs] in Hst, Hjobs.
      by rewrite Hst, Hjobs. }
  unfold bind at 1, draw_uuid at 1. cbn [uuid_count state stdout jobs calls].
  set (job_id := dict_get cmd "job_id" (PStr (uuid4 (uuid_count p)))).
  unfold bind at 1.
  set (p1 := {| state := single_job_progress cmd (state p); stdout := stdout p;
                uuid_count := S (uuid_count p); jobs := jobs p ++ [cmd];
                calls := calls p |}).
  match goal with
  | |- context [match ?m ?q with _ => _ end] =>
      assert (Hp1 : m q = (Ok tt, p1))
  end.
  { unfold p1, single_job_progress.
    destruct (py_bool (dict_get cmd "preserve_progress_state" (PBool false)));
      reflexivity. }
  rewrite Hp1. unfold bind at 1, lift at 1.
  destruct (_normalize_settings _) as [settings|e];
    [|cbn; intros [= <- <-]; by split].
  unfold dict_pop. cbn [fst snd].
  unfold bind at 1, lift at 1.
  destruct (py_float _) as [f|e]; [|cbn; intros [= <- <-]; by split].
  unfold try_except.
  match goal with
  | |- context [generate_job ?g ?c ?j ?s ?o ?r ?st ?m ?d p1] =>
      pose proof (generate_job_result_or_raise g c j s o r st m d p1) as Hjob;
      destruct (generate_job g c j s o r st m d p1) as [[[]|ex] p2]
  end.
  - destruct Hjob as (q & emoji & path & (Hst & Hout & Huuid & Hjobs) & Hemit).
    pose proof (emit_frame (EvResult job_id emoji path true false) q)
      as (Hst' & _ & Hjobs' & _).
    rewrite Hemit in Hst', Hjobs'. cbn [snd] in Hst', Hjobs'.
    intros [= <- <-]. by rewrite Hst', Hjobs', Hst, Hjobs.
  - destruct Hjob as (Hst & Hout & Huuid & Hjobs).
    intros Hrun.
    match type of Hrun with
    | _emit ?ev ?q = _ =>
        pose proof (emit_frame ev q) as (Hst' & _ & Hjobs' & _)
    end.
    rewrite Hrun in Hst', Hjobs'. cbn [snd] in Hst', Hjobs'.
    by rewrite Hst', Hjobs', Hst, Hjobs.
Qed.
End Frames.

(** ** The batch loop *)

Section Batch.
Context `{PyBuiltins} `{Collaborators}.

Lemma forget_sessions_fields st st' :
  forget_sessions st' = forget_sessions st ->
  generator st' = generator st /\
  cancel_requested st' = cancel_requested st /\
  current_index st' = current_index st /\
  total_items st' = total_items st /\
  current_emoji st' = current_emoji st /\
  _run_lock st' = _run_lock st /\
  _worker_thread st' = _worker_thread st.
Proof.
  intros Heq.
  pose proof (f_equal generator Heq). pose proof (f_equal cancel_requested Heq).
  pose proof (f_equal current_index Heq). pose proof (f_equal total_items Heq).
  pose proof (f_equal current_emoji Heq). pose proof (f_equal _run_lock Heq).
  pose proof (f_equal _worker_thread Heq). done.
Qed.

Lemma terminal_of_for job_id ev :
  terminal_of (PStr job_id) ev -> terminal_for job_id ev = true.
Proof.
  intros [(emoji & path & ->)|(message & ->)]; cbn; by apply bool_decide_eq_true.
Qed.

Lemma batch_events_app total evs1 : forall o evs2 m,
  batch_events total o evs1 = true ->
  Z.of_nat (List.length evs1) = 2 * m ->
  batch_events total (o + m) evs2 = true ->
  batch_events total o (evs1 ++ evs2) = true.
Proof.
  induction evs1 as [evs1 IH] using (induction_ltof1 _ (@List.length event)).
  unfold ltof in IH. intros o evs2 m H1 Hlen H2.
  destruct evs1 as [|ev1 [|ev2 rest]].
  - cbn in Hlen. assert (m = 0) as -> by lia. by rewrite Z.add_0_r in H2.
  - cbn in H1. by destruct ev1.
  - destruct ev1; try discriminate H1. cbn in H1.
    apply andb_true_iff in H1 as [H1 Hrest].
    cbn [app batch_events]. rewrite H1. cbn [andb].
    apply (IH rest) with (m := m - 1).
    + cbn. lia.
    + exact Hrest.
    + cbn [List.length] in Hlen. lia.
    + by replace (o + 1 + (m - 1)) with (o + m) by lia.
Qed.

Lemma seeds_from_app base_seed same_seed o js1 js2 m :
  seeds_from base_seed same_seed o js1 ->
  Z.of_nat (List.length js1) = m ->
  seeds_from base_seed same_seed (o + m) js2 ->
  seeds_from base_seed same_seed o (js1 ++ js2).
Proof.
  intros H1 Hlen H2 i job Hi.
  destruct (decide (i < List.length js1)%nat) as [Hlt|Hge].
  - rewrite lookup_app_l in Hi by done. by apply H1.
  - rewrite lookup_app_r in Hi by lia. apply H2 in Hi. rewrite Hi.
    do 3 f_equal. lia.
Qed.

(** Two stretches of a batch, one after the other. *)
Lemma batch_progress_seq cancels total base_seed same_seed o n m o' ctl p p' p'' :
  0 <= n ->
  batch_progress cancels total base_seed same_seed o n (Continue o') p p' ->
  batch_progress cancels total base_seed same_seed o' m ctl p' p'' ->
  batch_progress cancels total base_seed same_seed o (n + m) ctl p p''.
Proof.
  intros Hn (k1 & evs1 & js1 & Hk1 & Hc1 & He1 & Hl1 & Hj1 & Hjl1 & Hs1 & Hg1
             & -> & -> & Hout1 & Hcr1)
         (k2 & evs2 & js2 & Hk2 & Hc2 & He2 & Hl2 & Hj2 & Hjl2 & Hs2 & Hg2 & Hctl).
  exists k2, (evs1 ++ evs2), (js1 ++ js2).
  split; [lia|]. split.
  { intros j Hj. destruct (decide (j < o + n)); [apply Hc1 | apply Hc2]; lia. }
  split; [by apply batch_events_app with (m := n); [|lia|] |].
  split; [rewrite length_app; lia|].
  split; [by rewrite Hj2, Hj1, app_assoc|].
  split; [rewrite length_app; lia|].
  split; [apply seeds_from_app with (m := n); [done|lia|done] |].
  split; [congruence|].
  destruct ctl as [o''|].
  - destruct Hctl as (-> & -> & Hout2 & Hcr2).
    repeat split; [lia | by rewrite Hout2, Hout1, app_assoc | done].
  - destruct Hctl as (Hlt & Hck & Hout2 & Hreset).
    repeat split; try done; [lia | by rewrite Hout2, Hout1, !app_assoc | apply Hreset..].
Qed.

Section Loop.
Variable cancels : Z -> bool.
Variable cmd : dict.
Variable settings : dict.
Variable output_dir : pystr.
Variables total base_seed batch_size : Z.
Variable same_seed : bool.
Variable gen : EmojiGenerator.
Variable prompt : pyval.
Hypothesis settings_normalized : normalized settings.
Hypothesis prompt_given : cmd !! "prompt" = Some prompt.

Lemma item_command_settings job_id emoji_char out_path per_settings :
  dict_get (item_command job_id emoji_char prompt out_path per_settings)
           "settings" PNone = PDict per_settings.
Proof. unfold dict_get, item_command. by simplify_map_eq. Qed.

Lemma item_command_job_id job_id emoji_char out_path per_settings dflt :
  dict_get (item_command job_id emoji_char prompt out_path per_settings)
           "job_id" dflt = PStr job_id.
Proof. unfold dict_get, item_command. by simplify_map_eq. Qed.

Lemma item_command_preserve job_id emoji_char out_path per_settings st :
  single_job_progress
    (item_command job_id emoji_char prompt out_path per_settings) st = st.
Proof.
  unfold single_job_progress, dict_get, item_command. by simplify_map_eq.
Qed.

Lemma item_command_seed job_id emoji_char out_path z :
  job_seed (item_command job_id emoji_char prompt out_path
                         (<["seed" := PInt z]> settings))
  = Some (PInt z).
Proof. unfold job_seed, item_command. by simplify_map_eq. Qed.

(** One pass over the catalog, from any ordinal. *)
Lemma batch_items_progress batch_index items : forall o p,
  forallb item_encodable items = true ->
  generator (state p) = Some gen ->
  cancel_requested (state p) = false ->
  exists ctl p',
    batch_items cancels cmd settings output_dir total base_seed batch_size
                same_seed batch_index items o p = (Ok ctl, p') /\
    batch_progress cancels total base_seed same_seed o
                   (Z.of_nat (List.length items)) ctl p p'.
Proof.
  induction items as [|item rest IH]; intros o p Hitems Hgen Hflag.
  - exists (Continue o), p. split; [reflexivity|].
    exists o, [], []. cbn [List.length]. rewrite !app_nil_r.
    repeat split; try done; lia.
  - cbn [forallb] in Hitems. apply andb_true_iff in Hitems as [Hitem Hitems].
    cbn [batch_items]. unfold bind at 1, dispatcher_interleaves.
    destruct (cancels o) eqn:Hco.
    + unfold modify_state at 1, bind at 1, get_state at 1.
      cbn [state set_cancel_requested cancel_requested].
      unfold bind at 1. rewrite emit_encodable by apply u_encodable.
      eexists Returned, _. split; [reflexivity|].
      exists o, [], [].
      cbn [state stdout uuid_count jobs calls List.length app].
      rewrite ?app_nil_r. repeat split; try done; lia.
    + unfold ret at 1, bind at 1, get_state at 1. rewrite Hflag.
      unfold bind at 1, modify_state at 1.
      unfold bind at 1, modify_state at 1. cbn [state stdout uuid_count jobs calls].
      unfold bind at 1, draw_uuid at 1. cbn [state stdout uuid_count jobs calls].
      unfold bind at 1. rewrite emit_encodable.
      2:{ cbn [event_encodable]. rewrite uuid4_encodable.
          unfold item_encodable in Hitem.
          by apply andb_true_iff in Hitem as [[[-> _]%andb_true_iff _]%andb_true_iff _]. }
      cbn [state stdout uuid_count jobs calls].
      unfold bind at 1, lift at 1, getitem. rewrite prompt_given.
      set (emoji_char := char item).
      set (job_id := uuid4 (uuid_count p)).
      set (per_seed := per_seed_of base_seed same_seed (o + 1)).
      set (ic := item_command job_id emoji_char prompt _ _).
      set (p1 := {| state := _; stdout := _; uuid_count := _; jobs := _;
                    calls := _ |}).
      destruct (normalized_strength _
                  (normalized_insert_seed settings per_seed settings_normalized))
        as [f Hf].
      destruct (handle_generate_runs ic p1 gen
                  (<["seed" := PInt per_seed]> settings) f)
        as (p2 & ev & Hrun & Hout & Hterm & Hst & Hjobs & Huuid).
      { exact Hgen. }
      { unfold ic. rewrite item_command_settings.
        apply normalize_settings_fixpoint.
        by apply normalized_insert_seed. }
      { exact Hf. }
      { unfold ic. rewrite item_command_job_id. apply uuid4_encodable. }
      unfold bind at 1. rewrite Hrun.
      unfold ic in Hst, Hterm. rewrite item_command_preserve in Hst.
      rewrite item_command_job_id in Hterm.
      apply forget_sessions_fields in Hst
        as (Hg2 & Hc2 & _).
      destruct (IH (o + 1) p2) as (ctl & p3 & Hrest & Hprog).
      { exact Hitems. }
      { by rewrite Hg2. }
      { by rewrite Hc2. }
      exists ctl, p3. split; [exact Hrest|].
      replace (Z.of_nat (List.length (item :: rest)))
        with (1 + Z.of_nat (List.length rest)) by (cbn [List.length]; lia).
      eapply batch_progress_seq; [lia| |exact Hprog].
      exists (o + 1), [EvProgress job_id (o + 1) total emoji_char; ev], [ic].
      split; [lia|]. split.
      { intros j Hj. by assert (j = o) as -> by lia. }
      split.
      { cbn [batch_events]. rewrite !Z.eqb_refl. cbn [andb].
        by rewrite (terminal_of_for _ _ Hterm). }
      split; [cbn [List.length]; lia|].
      split; [by rewrite Hjobs|].
      split; [cbn [List.length]; lia|].
      split.
      { intros [|i] job Hi; [|by rewrite lookup_cons, lookup_nil in Hi].
        injection Hi as <-. unfold ic. rewrite item_command_seed.
        unfold per_seed. do 3 f_equal. lia. }
      split; [by rewrite Hg2|].
      repeat split; try done; try lia.
      * rewrite Hout. cbn [stdout p1]. by rewrite <- app_assoc.
      * by rewrite Hc2.
Qed.

Lemma batch_progress_more_items o n n' p p' :
  n <= n' ->
  batch_progress cancels total base_seed same_seed o n Returned p p' ->
  batch_progress cancels total base_seed same_seed o n' Returned p p'.
Proof.
  intros Hn (k & evs & js & Hk & Hc & He & Hl & Hj & Hjl & Hs & Hg & Hlt & Hrest).
  exists k, evs, js. repeat split; try done; try lia; apply Hrest.
Qed.

(** All the passes of line 220, from any ordinal. *)
Lemma batch_passes_progress batch_indices : forall o p,
  generator (state p) = Some gen ->
  cancel_requested (state p) = false ->
  exists ctl p',
    batch_passes cancels cmd settings output_dir total base_seed batch_size
                 same_seed batch_indices o p = (Ok ctl, p') /\
    batch_progress cancels total base_seed same_seed o
      (Z.of_nat (List.length get_all_emojis)
       * Z.of_nat (List.length batch_indices)) ctl p p'.
Proof.
  induction batch_indices as [|batch_index rest IH]; intros o p Hgen Hflag.
  - exists (Continue o), p. split; [reflexivity|].
    exists o, [], []. cbn [List.length]. rewrite !app_nil_r.
    repeat split; try done; lia.
  - cbn [batch_passes]. unfold bind at 1.
    destruct (batch_items_progress batch_index get_all_emojis o p
                catalog_encodable Hgen Hflag)
      as (ctl1 & p1 & -> & Hprog1).
    destruct ctl1 as [o'|].
    + pose proof Hprog1 as (k & evs & js & _ & _ & _ & _ & _ & _ & _ & Hg1
                            & -> & -> & _ & Hflag1).
      destruct (IH (o + Z.of_nat (List.length get_all_emojis)) p1)
        as (ctl & p2 & Hrest & Hprog2); [congruence | done |].
      exists ctl, p2. split; [exact Hrest|].
      replace (Z.of_nat (List.length get_all_emojis)
               * Z.of_nat (List.length (batch_index :: rest)))
        with (Z.of_nat (List.length get_all_emojis)
              + Z.of_nat (List.length get_all_emojis)
                * Z.of_nat (List.length rest))
        by (cbn [List.length]; lia).
      eapply batch_progress_seq; [lia | exact Hprog1 | exact Hprog2].
    + exists Returned, p1. split; [reflexivity|].
      eapply batch_progress_more_items; [|exact Hprog1].
      cbn [List.length]. nia.
Qed.
End Loop.

(** [_handle_generate_all] on an initialised session and a well-formed
    command: it returns, and the loop has run as [batch_progress] says. *)
Lemma handle_generate_all_progress cancels cmd b base_seed same_seed p gen :
  generator (state p) = Some gen ->
  batch_request cmd b base_seed same_seed ->
  exists ctl p',
    _handle_generate_all cancels cmd p = (Ok tt, p') /\
    batch_progress cancels (batch_total b) base_seed same_seed 0 (batch_total b)
                   ctl p p' /\
    progress_reset (state p').
Proof.
  intros Hgen (base_settings & settings & output_dir & prompt & Hset & Hb & Hseed
               & Hsame & Hnorm & Hdir & Hprompt).
  unfold _handle_generate_all, bind at 1, get_state at 1. rewrite Hgen.
  unfold bind at 1, modify_state at 1. rewrite Hset.
  unfold bind at 1, lift at 1, value_get. cbn [res_bind]. rewrite Hb.
  unfold bind at 1, modify_state at 1. cbn [state stdout uuid_count jobs calls].
  unfold bind at 1, lift at 1. cbn [res_bind]. rewrite Hseed.
  unfold bind at 1, lift at 1. cbn [res_bind]. rewrite Hsame.
  unfold bind at 1, lift at 1. rewrite Hnorm.
  unfold bind at 1, lift at 1, getitem. rewrite Hdir. cbn [res_bind as_path].
  set (p1 := {| state := _; stdout := _; uuid_count := _; jobs := _; calls := _ |}).
  destruct (batch_passes_progress cancels cmd settings output_dir
              (Z.of_nat (List.length get_all_emojis) * Z.max 1 b) base_seed
              (Z.max 1 b) same_seed gen prompt
              (normalize_settings_normalized _ _ Hnorm) Hprompt
              (seqZ 1 (Z.max 1 b)) 0 p1 Hgen eq_refl)
    as (ctl & p2 & Hrun & Hprog).
  unfold bind at 1. rewrite Hrun.
  rewrite length_seqZ, Z2Nat.id in Hprog by lia.
  fold catalog_size in Hprog. fold (batch_total b) in Hprog.
  destruct Hprog as (k & evs & js & Hk & Hc & He & Hl & Hj & Hjl & Hs & Hg & Hctl).
  change (jobs p1) with (jobs p) in Hj.
  change (generator (state p1)) with (generator (state p)) in Hg.
  change (stdout p1) with (stdout p) in Hctl.
  destruct ctl as [o'|].
  - destruct Hctl as (-> & -> & Hout & Hflag).
    eexists (Continue _), _. split; [reflexivity|].
    cbn [state stdout uuid_count jobs calls snd].
    split; [|by repeat split].
    exists (0 + batch_total b), evs, js. repeat split; try done; lia.
  - destruct Hctl as (Hlt & Hck & Hout & Hreset).
    exists Returned, p2. split; [reflexivity|]. split; [|exact Hreset].
    exists k, evs, js. repeat split; try done; try lia; apply Hreset.
Qed.
End Batch.

(** ** Batches: progress, seeds, cancellation *)

Section BatchClaims.
Context `{PyBuiltins} `{Collaborators}.

Lemma batch_events_currents total evs : forall o m,
  batch_events total o evs = true ->
  Z.of_nat (List.length evs) = 2 * m ->
  progress_currents evs = seqZ (o + 1) m /\
  Z.of_nat (List.length (List.filter is_progress evs)) = m.
Proof.
  induction evs as [evs IH] using (induction_ltof1 _ (@List.length event)).
  unfold ltof in IH. intros o m Hev Hlen.
  destruct evs as [|ev1 [|ev2 rest]].
  - cbn in Hlen. assert (m = 0) as -> by lia. by split.
  - cbn in Hev. by destruct ev1.
  - destruct ev1; try discriminate Hev. cbn [batch_events] in Hev.
    apply andb_true_iff in Hev as [Hev Hrest].
    apply andb_true_iff in Hev as [Hev Hterm].
    apply andb_true_iff in Hev as [Hcur _]. apply Z.eqb_eq in Hcur as ->.
    destruct (IH rest ltac:(cbn; lia) (o + 1) (m - 1) Hrest) as [IHc IHn].
    { cbn [List.length] in Hlen. lia. }
    assert (Hnp : is_progress ev2 = false /\ progress_currents (ev2 :: rest)
                                             = progress_currents rest).
    { destruct ev2; try discriminate Hterm; by split. }
    destruct Hnp as [Hnp Hskip]. split.
    + change (progress_currents (EvProgress job_id (o + 1) total0 emoji :: ev2 :: rest))
        with ((o + 1) :: progress_currents (ev2 :: rest)).
      rewrite Hskip, IHc.
      rewrite (seqZ_cons (o + 1) m) by (cbn [List.length] in Hlen; lia).
      by replace (Z.succ (o + 1)) with (o + 1 + 1) by lia.
    + cbn [List.filter is_progress]. rewrite Hnp. cbn [List.length]. lia.
Qed.


(** C2. The seed handed to the generation of the item of ordinal n
    (counted from 1 across the whole batch) is [base_seed + (n-1)] when
    [same_seed] is false and [base_seed] when it is true; without
    cancellation there is such an item for every ordinal up to N*B; and
    [base_seed] is 42 when the settings give no seed. *)
Theorem batch_item_seeds cancels cmd b base_seed same_seed p gen :
  generator (state p) = Some gen ->
  batch_request cmd b base_seed same_seed ->
  exists p' js,
    _handle_generate_all cancels cmd p = (Ok tt, p') /\
    jobs p' = jobs p ++ js /\
    (forall n job,
        1 <= n -> js !! Z.to_nat (n - 1) = Some job ->
        job_seed job
        = Some (PInt (if same_seed then base_seed else base_seed + (n - 1)))) /\
    ((forall k, cancels k = false) ->
     Z.of_nat (List.length js) = catalog_size * Z.max 1 b) /\
    (forall base_settings,
        dict_get cmd "settings" (PDict ∅) = PDict base_settings ->
        base_settings !! "seed" = None -> base_seed = 42).
Proof.
  intros Hgen Hreq.
  destruct (handle_generate_all_progress cancels cmd b base_seed same_seed p gen
              Hgen Hreq)
    as (ctl & p' & Hrun & (k & evs & js & Hk & Hc & He & Hl & Hj & Hjl & Hs & Hg
                           & Hctl) & _).
  exists p', js. split; [exact Hrun|]. split; [exact Hj|]. split; [|split].
  - intros n job Hn Hjob. rewrite (Hs _ _ Hjob). unfold per_seed_of.
    replace (0 + Z.of_nat (Z.to_nat (n - 1)) + 1) with n by lia. reflexivity.
  - intros Hnone. destruct ctl as [o'|].
    + destruct Hctl as (_ & -> & _). unfold batch_total in Hjl. lia.
    + destruct Hctl as (_ & Hck & _). congruence.
  - intros base_settings Hset Hnoseed.
    destruct Hreq as (bs & ? & ? & ? & Hset' & _ & Hseed & _).
    rewrite Hset in Hset'. injection Hset' as <-.
    rewrite Hnoseed in Hseed. cbn in Hseed. congruence.
Qed.

(** C3. If the cancellation flag is raised after the item of ordinal k
    is done and before the item k+1 starts, the batch writes, after the
    events of the items 1..k, a [canceled] event whose [current] is k and
    nothing more: no progress or result of an ordinal beyond k; it resets
    the progress fields; and it returns having handed k items, not k+1, to
    the generation orchestrator. *)
Theorem batch_cancel_at_boundary cancels cmd b base_seed same_seed p gen k :
  generator (state p) = Some gen ->
  batch_request cmd b base_seed same_seed ->
  0 <= k < catalog_size * Z.max 1 b ->
  (forall j, 0 <= j < k -> cancels j = false) ->
  cancels k = true ->
  exists p' evs js,
    _handle_generate_all cancels cmd p = (Ok tt, p') /\
    stdout p'
    = stdout p ++ evs
      ++ [EvCanceled k (catalog_size * Z.max 1 b) canceled_by_user] /\
    batch_events (catalog_size * Z.max 1 b) 0 evs = true /\
    progress_currents evs = seqZ 1 k /\
    jobs p' = jobs p ++ js /\
    Z.of_nat (List.length js) = k /\
    progress_reset (state p').
Proof.
  intros Hgen Hreq Hk Hbefore Hat.
  destruct (handle_generate_all_progress cancels cmd b base_seed same_seed p gen
              Hgen Hreq)
    as (ctl & p' & Hrun & (k' & evs & js & Hk' & Hc & He & Hl & Hj & Hjl & Hs & Hg
                           & Hctl) & Hreset).
  unfold batch_total in *.
  destruct ctl as [o'|].
  { destruct Hctl as (_ & -> & _). rewrite Hc in Hat by lia. discriminate. }
  destruct Hctl as (Hlt & Hck & Hout & _).
  assert (k' = k) as ->.
  { destruct (Z.lt_trichotomy k' k) as [Hlt'|[->|Hgt]]; [|done|].
    - rewrite Hbefore in Hck by lia. discriminate.
    - rewrite Hc in Hat by lia. discriminate. }
  exists p', evs, js. split; [exact Hrun|]. split; [exact Hout|].
  destruct (batch_events_currents _ _ 0 k He) as [Hcur _]; [lia|].
  repeat split; try done; try lia; apply Hreset.
Qed.
End BatchClaims.

(** ** The dispatcher and the single job *)

Section Dispatch.
Context `{PyBuiltins} `{Collaborators}.


Lemma dispatch_is_generate_all cmd :
  cmd !! "cmd" = Some (PStr (u "generate_all")) ->
  dispatch cmd = dispatch_generate_all cmd.
Proof. intros Hcmd. unfold dispatch, dict_get. rewrite Hcmd. reflexivity. Qed.

Lemma dispatch_is_generate cmd :
  cmd !! "cmd" = Some (PStr (u "generate")) ->
  dispatch cmd = dispatch_generate cmd.
Proof. intros Hcmd. unfold dispatch, dict_get. rewrite Hcmd. reflexivity. Qed.

(** C4. While a batch is in flight (its worker is alive, or the run lock
    is held), a [generate_all] command is answered by one [error] event
    saying "Generation already in progress." and changes nothing in the
    session: progress counters, cancellation flag, lock and worker are as
    they were, no collaborator is called and no second worker is
    started. *)
Theorem second_batch_is_rejected cmd p :
  cmd !! "cmd" = Some (PStr (u "generate_all")) ->
  batch_in_flight (state p) ->
  exists p',
    dispatch cmd p = (Ok Next, p') /\
    stdout p' = stdout p ++ [EvError (Some (PStr [])) already_in_progress] /\
    state p' = state p /\ calls p' = calls p /\ jobs p' = jobs p.
Proof.
  intros Hcmd Hflight. rewrite (dispatch_is_generate_all cmd Hcmd).
  unfold dispatch_generate_all, bind at 1, get_state at 1.
  destruct (is_busy (state p)) eqn:Hbusy.
  - unfold bind at 1. rewrite emit_encodable by apply u_encodable.
    eexists. split; [reflexivity|]. by repeat split.
  - destruct Hflight as [Hb|Hlock]; [congruence|].
    unfold bind at 1, try_begin_run, bind at 1, get_state at 1. rewrite Hlock.
    unfold ret at 1. cbv iota beta. cbn [negb].
    unfold bind at 1. rewrite emit_encodable by apply u_encodable.
    eexists. split; [reflexivity|]. by repeat split.
Qed.

(** C5, at the failing input: on an initialised and idle session, a
    [generate] command whose settings carry a seed that is JSON [null]
    makes [_handle_generate] raise [TypeError] before its [try] is
    entered; the exception leaves the dispatcher's turn and no terminal
    event, neither [result] nor [error], is written. *)
Theorem null_seed_escapes_the_handler :
  exists p',
    dispatch null_seed_generate (ready Proc_init) = (Raise TypeError, p') /\
    stdout p' = [].
Proof.
  rewrite dispatch_is_generate by reflexivity.
  eexists. split; [vm_compute; reflexivity | reflexivity].
Qed.

(** C8, at the failing input: after a single [generate] on an initialised
    and idle session has returned, with its terminal event written and no
    job active any more, the progress fields still read 1, 1 and the
    emoji of the job; they are not back to zero and empty. *)
Theorem single_job_leaves_progress_set :
  exists p' ev,
    dispatch sample_generate (ready Proc_init) = (Ok Next, p') /\
    stdout p' = [ev] /\
    terminal_of (PStr (u "j1")) ev /\
    current_index (state p') = 1 /\
    total_items (state p') = 1 /\
    current_emoji (state p') = grinning_face /\
    ~ progress_reset (state p').
Proof.
  rewrite dispatch_is_generate by reflexivity.
  unfold dispatch_generate, bind at 1, get_state at 1.
  change (is_busy (state (ready Proc_init))) with false. cbv iota.
  unfold bind at 1, modify_state at 1.
  set (p1 := {| state := _; stdout := _; uuid_count := _; jobs := _; calls := _ |}).
  destruct (handle_generate_runs sample_generate p1 sample_engine ∅ F64.one)
    as (p2 & ev & Hrun & Hout & Hterm & Hst & _); [reflexivity..|].
  unfold bind at 1. rewrite Hrun.
  apply forget_sessions_fields in Hst as (_ & _ & Hi & Ht & He & _).
  exists p2, ev. split; [reflexivity|]. split; [exact Hout|].
  split; [exact Hterm|].
  split; [by rewrite Hi|]. split; [by rewrite Ht|]. split; [by rewrite He|].
  intros (Hzero & _). rewrite Hi in Hzero. discriminate Hzero.
Qed.
End Dispatch.

(** ** The sample batch *)

Lemma sample_batch_request :
  @batch_request sample_builtins sample_batch 2 42 false.
Proof.
  exists sample_batch_settings, sample_batch_settings, (u "out"),
         (PStr (u "clay figurine")).
  repeat split; vm_compute; reflexivity.
Qed.


Lemma batch_item_seeds_witness :
  exists p' js,
    @_handle_generate_all sample_builtins sample_collaborators (fun _ => false)
      sample_batch (ready Proc_init) = (Ok tt, p') /\
    jobs p' = jobs (ready Proc_init) ++ js /\
    (forall n job,
        1 <= n -> js !! Z.to_nat (n - 1) = Some job ->
        job_seed job = Some (PInt (if false then 42 else 42 + (n - 1)))) /\
    ((forall k : Z, (fun _ : Z => false) k = false) ->
     Z.of_nat (List.length js) = @catalog_size sample_collaborators * Z.max 1 2) /\
    (forall base_settings,
        dict_get sample_batch "settings" (PDict ∅)
        = PDict base_settings ->
        base_settings !! "seed" = None -> 42 = 42).
Proof.
  apply (@batch_item_seeds sample_builtins sample_collaborators
           (fun _ => false) sample_batch 2 42 false (ready Proc_init) sample_engine).
  - reflexivity.
  - exact sample_batch_request.
Defined.

Lemma batch_cancel_at_boundary_witness :
  exists p' evs js,
    @_handle_generate_all sample_builtins sample_collaborators (fun j => j =? 4)
      sample_batch (ready Proc_init) = (Ok tt, p') /\
    stdout p'
    = stdout (ready Proc_init) ++ evs
      ++ [EvCanceled 4 (@catalog_size sample_collaborators * Z.max 1 2)
                     canceled_by_user] /\
    batch_events (@catalog_size sample_collaborators * Z.max 1 2) 0 evs = true /\
    progress_currents evs = seqZ 1 4 /\
    jobs p' = jobs (ready Proc_init) ++ js /\
    Z.of_nat (List.length js) = 4 /\
    progress_reset (state p').
Proof.
  apply (@batch_cancel_at_boundary sample_builtins sample_collaborators
           (fun j => j =? 4) sample_batch 2 42 false (ready Proc_init)
           sample_engine 4).
  - reflexivity.
  - exact sample_batch_request.
  - vm_compute. split; [discriminate | reflexivity].
  - intros j Hj. apply Z.eqb_neq. lia.
  - reflexivity.
Defined.

(** The run of the example of section 8: seeds 42..47, suffixes [_b1] for
    the ordinals 1..3 and [_b2] for the ordinals 4..6. *)
Example sample_batch_jobs :
  List.map (fun job => (job_seed job, job !! "output_path"))
    (jobs (@_handle_generate_all sample_builtins sample_collaborators
             (fun _ => false) sample_batch (ready Proc_init)).2)
  = [ (Some (PInt 42), Some (PStr (u "out/emoji_1F600_s42_b1.png")));
      (Some (PInt 43), Some (PStr (u "out/emoji_1F601_s43_b1.png")));
      (Some (PInt 44), Some (PStr (u "out/emoji_1F602_s44_b1.png")));
      (Some (PInt 45), Some (PStr (u "out/emoji_1F600_s45_b2.png")));
      (Some (PInt 46), Some (PStr (u "out/emoji_1F601_s46_b2.png")));
      (Some (PInt 47), Some (PStr (u "out/emoji_1F602_s47_b2.png"))) ].
Proof. vm_compute. reflexivity. Qed.

Example sample_batch_canceled_events :
  stdout (@_handle_generate_all sample_builtins sample_collaborators
            (fun j => j =? 1) sample_batch (ready Proc_init)).2
  = [ EvProgress (u "job-0") 1 6 grinning_face;
      EvError (Some (PStr (u "job-0"))) (u "failed");
      EvCanceled 1 6 canceled_by_user ].
Proof. vm_compute. reflexivity. Qed.

(** ** Witnesses of the dispatcher properties *)



Lemma second_batch_is_rejected_witness :
  exists p',
    @dispatch sample_builtins sample_collaborators sample_batch (busy (ready Proc_init))
    = (Ok Next, p') /\
    stdout p'
    = stdout (busy (ready Proc_init))
      ++ [EvError (Some (PStr [])) already_in_progress] /\
    state p' = state (busy (ready Proc_init)) /\
    calls p' = calls (busy (ready Proc_init)) /\
    jobs p' = jobs (busy (ready Proc_init)).
Proof.
  apply (@second_batch_is_rejected sample_builtins sample_collaborators).
  - reflexivity.
  - left. reflexivity.
Defined.

(** ** Session state: the run lock and the cache of matting sessions *)

Section SessionState.
Context `{PyBuiltins} `{Collaborators}.

(** X1. The run lock is a mutual exclusion: [try_begin_run] succeeds
    exactly when the lock is free and leaves it held; a second
    [try_begin_run] without an [end_run] in between fails and changes
    nothing; [end_run] frees the lock, may be repeated without effect, and
    makes the next [try_begin_run] succeed again. Nothing but the lock is
    touched. *)
Theorem run_lock_is_exclusive p :
  exists p1 p2,
    try_begin_run p = (Ok (negb (_run_lock (state p))), p1) /\
    state p1 = set_run_lock true (state p) /\
    stdout p1 = stdout p /\
    try_begin_run p1 = (Ok false, p1) /\
    end_run p1 = (Ok tt, p2) /\
    state p2 = set_run_lock false (state p) /\
    end_run p2 = (Ok tt, p2) /\
    try_begin_run p2 = (Ok true, p1).
Proof.
  destruct p as [st out n js cs]. destruct st as [g f m c i t e l w].
  destruct l; eexists _, _; cbn; repeat split; reflexivity.
Qed.

(** X2. A matting session is created at most once per model name: when
    the name is cached no collaborator is called and the process is left as
    it was; otherwise [new_session] is called once, and if it answers, the
    session is stored under that name only, so that asking again returns
    the same session without another call. If [new_session] raises, the
    cache is left as it was. *)
Theorem rembg_session_is_created_once model_name p :
  (forall session,
      _rembg_sessions (state p) !! model_name = Some session ->
      get_rembg_session model_name p = (Ok session, p)) /\
  (_rembg_sessions (state p) !! model_name = None ->
   calls (get_rembg_session model_name p).2
   = calls p ++ [CallNewSession model_name]) /\
  match get_rembg_session model_name p with
  | (Ok session, p1) =>
      _rembg_sessions (state p1) !! model_name = Some session /\
      get_rembg_session model_name p1 = (Ok session, p1) /\
      (forall other, other <> model_name ->
         _rembg_sessions (state p1) !! other
         = _rembg_sessions (state p) !! other)
  | (Raise _, p1) => state p1 = state p
  end.
Proof.
  unfold get_rembg_session, bind, get_state.
  destruct (_rembg_sessions (state p) !! model_name) as [s|] eqn:Hs.
  - split; [by intros ? [= <-]|]. split; [done|].
    cbn. by rewrite ?Hs.
  - split; [done|].
    split; [intros _; cbn; by destruct (new_session _ _)|].
    cbn. destruct (new_session _ _) as [s|e]; cbn; [|done].
    rewrite lookup_insert_eq. split; [done|]. split; [done|].
    intros other Hne. by rewrite lookup_insert_ne.
Qed.
End SessionState.

(** ** The worker and the dispatcher *)

Section Lifecycle.
Context `{PyBuiltins} `{Collaborators}.

(** X3. The batch worker never raises and always ends with the run lock
    free, whatever the command and the collaborators do: an exception of
    [_handle_generate_all] becomes one [error] event with an empty job id,
    and apart from that event and the lock the process is as
    [_handle_generate_all] left it. *)
Theorem worker_never_raises_and_frees_the_lock cancels cmd p :
  exists p',
    _run_generate_all_worker cancels cmd p = (Ok tt, p') /\
    _run_lock (state p') = false /\
    state p' = set_run_lock false (state (_handle_generate_all cancels cmd p).2) /\
    stdout p'
    = stdout (_handle_generate_all cancels cmd p).2
      ++ match (_handle_generate_all cancels cmd p).1 with
         | Ok _ => []
         | Raise ex => [EvError (Some (PStr [])) (str_of_exn ex)]
         end /\
    jobs p' = jobs (_handle_generate_all cancels cmd p).2 /\
    calls p' = calls (_handle_generate_all cancels cmd p).2.
Proof.
  unfold _run_generate_all_worker, try_finally, try_except.
  destruct (_handle_generate_all cancels cmd p) as [[[]|ex] q]; cbn [fst snd].
  - destruct q as [st out n js cs]. destruct st as [g f m c i t e l w].
    destruct l; eexists; cbn; rewrite ?app_nil_r; repeat split; reflexivity.
  - rewrite emit_encodable by apply str_of_exn_encodable.
    destruct q as [st out n js cs]. destruct st as [g f m c i t e l w].
    destruct l; eexists; cbn; repeat split; reflexivity.
Qed.


(** X6. A command whose [cmd] field is none of the six command names
    (or is missing, or is not a string) is ignored: no event, no change of
    state, no collaborator call, and the loop goes on. *)
Theorem unknown_command_is_ignored cmd p :
  (forall name,
      In name ["init"; "list_emojis"; "generate"; "generate_all"; "cancel";
               "quit"]%string ->
      cmd !! "cmd" <> Some (PStr (u name))) ->
  dispatch cmd p = (Ok Next, p).
Proof.
  intros Hno. unfold dispatch, dict_get.
  assert (Hc : forall name,
             In name ["init"; "list_emojis"; "generate"; "generate_all";
                      "cancel"; "quit"]%string ->
             is_cmd (default PNone (cmd !! "cmd")) name = false).
  { intros name Hin. specialize (Hno name Hin). unfold is_cmd.
    destruct (cmd !! "cmd") as [[]|]; cbn [default]; try done.
    apply bool_decide_eq_false_2. congruence. }
  rewrite !Hc by (cbn; tauto). reflexivity.
Qed.

(** X7. [cancel] and [quit] only raise the cancellation flag: neither
    writes an event, calls a collaborator or touches the progress fields,
    whether or not anything is running; [cancel] lets the loop go on and
    [quit] ends it. Raising the flag twice is the same as once. *)
Theorem cancel_and_quit_only_raise_the_flag cancel quit p :
  cancel !! "cmd" = Some (PStr (u "cancel")) ->
  quit !! "cmd" = Some (PStr (u "quit")) ->
  exists p',
    dispatch cancel p = (Ok Next, p') /\
    dispatch quit p = (Ok Break, p') /\
    dispatch cancel p' = (Ok Next, p') /\
    state p' = set_cancel_requested true (state p) /\
    stdout p' = stdout p /\ calls p' = calls p /\ jobs p' = jobs p.
Proof.
  intros Hc Hq.
  assert (Ec : dispatch cancel
               = (modify_state (set_cancel_requested true) >> ret Next)).
  { unfold dispatch, dict_get. rewrite Hc. reflexivity. }
  assert (Eq : dispatch quit
               = (modify_state (set_cancel_requested true) >> ret Break)).
  { unfold dispatch, dict_get. rewrite Hq. reflexivity. }
  rewrite Ec, Eq. eexists. cbn. repeat split; reflexivity.
Qed.
End Lifecycle.

Section BatchLifecycle.
Context `{PyBuiltins} `{Collaborators}.

(** X8. The life of a batch: on an idle session, a [generate_all] with an
    output directory that can be created takes the run lock, creates the
    directory, writes nothing and starts the worker, after which a batch is
    in flight; when the worker has run and exited, whatever happened in
    between, the worker is not alive and the lock is free, so that the next
    [generate_all] is accepted. *)
Theorem batch_lifecycle cancels cmd p output_dir :
  cmd !! "cmd" = Some (PStr (u "generate_all")) ->
  cmd !! "output_dir" = Some (PStr output_dir) ->
  is_busy (state p) = false ->
  _run_lock (state p) = false ->
  mkdir_parents (List.length (calls p)) output_dir = Ok tt ->
  exists p1 p2 p3,
    dispatch cmd p = (Ok (WorkerStarted cmd), p1) /\
    state p1 = set_worker_thread (Some true) (set_run_lock true (state p)) /\
    stdout p1 = stdout p /\
    calls p1 = calls p ++ [CallMkdir output_dir] /\
    batch_in_flight (state p1) /\
    _run_generate_all_worker cancels cmd p1 = (Ok tt, p2) /\
    worker_exits p2 = (Ok tt, p3) /\
    is_busy (state p3) = false /\
    _run_lock (state p3) = false.
Proof.
  intros Hcmd Hdir Hbusy Hlock Hmk.
  assert (Hw : forall q, exists p2 p3,
             _run_generate_all_worker cancels cmd q = (Ok tt, p2) /\
             worker_exits p2 = (Ok tt, p3) /\
             is_busy (state p3) = false /\ _run_lock (state p3) = false).
  { intros q. unfold _run_generate_all_worker, try_finally, try_except.
    destruct (_handle_generate_all cancels cmd q)
      as [[[]|ex] [[g f m c i t e l w] out n js cs]];
      rewrite ?emit_encodable by apply str_of_exn_encodable;
      destruct l, w; eexists _, _; cbn; repeat split; reflexivity. }
  rewrite (dispatch_is_generate_all _ Hcmd).
  unfold dispatch_generate_all, bind at 1, get_state at 1. rewrite Hbusy.
  unfold bind at 1, try_begin_run, bind at 1, get_state at 1. rewrite Hlock.
  unfold bind at 1, modify_state at 1, ret at 1. cbn [negb].
  unfold bind at 1, lift at 1, getitem. rewrite Hdir. cbn [res_bind as_path].
  unfold bind at 1, collaborate at 1. cbn [state stdout uuid_count jobs calls].
  rewrite Hmk.
  unfold bind at 1, modify_state at 1, ret. cbn [state stdout uuid_count jobs calls].
  set (p1 := {| state := _; stdout := _; uuid_count := _; jobs := _; calls := _ |}).
  destruct (Hw p1) as (p2 & p3 & Hrun & Hexit & Hidle & Hfree).
  exists p1, p2, p3. repeat split; try done. by left.
Qed.

(** X9. A [generate_all] that lacks [output_dir] fails after the run lock
    was taken and before any worker exists: the [KeyError] leaves the
    dispatcher with the lock still held, no event written and no worker
    started. *)
Theorem batch_without_output_dir_keeps_the_lock cmd p :
  cmd !! "cmd" = Some (PStr (u "generate_all")) ->
  cmd !! "output_dir" = None ->
  is_busy (state p) = false ->
  _run_lock (state p) = false ->
  exists p',
    dispatch cmd p = (Raise (KeyError "output_dir"), p') /\
    state p' = set_run_lock true (state p) /\
    stdout p' = stdout p /\
    calls p' = calls p /\
    is_busy (state p') = false /\
    _run_lock (state p') = true.
Proof.
  intros Hcmd Hdir Hbusy Hlock.
  rewrite (dispatch_is_generate_all _ Hcmd).
  unfold dispatch_generate_all, bind at 1, get_state at 1. rewrite Hbusy.
  unfold bind at 1, try_begin_run, bind at 1, get_state at 1. rewrite Hlock.
  unfold bind at 1, modify_state at 1, ret at 1. cbn [negb].
  unfold bind at 1, lift at 1, getitem. rewrite Hdir. cbn [res_bind].
  eexists. split; [reflexivity|]. cbn [state stdout uuid_count jobs calls].
  repeat split. exact Hbusy.
Qed.
End BatchLifecycle.

Section SingleJob.
Context `{PyBuiltins} `{Collaborators}.

(** [_handle_generate] on an initialised session whose settings
    normalise, for a job whose id cannot be encoded: neither the [result]
    nor the [error] of the job can be written, and the exception of the
    second leaves the handler. *)
Lemma handle_generate_unencodable cmd p gen settings f :
  generator (state p) = Some gen ->
  _normalize_settings (dict_get cmd "settings" PNone) = Ok settings ->
  py_float (default (PFloat F64.one) (settings !! "remove_background_strength"))
    = Ok f ->
  encodable (dict_get cmd "job_id" (PStr (uuid4 (uuid_count p)))) = false ->
  exists p',
    _handle_generate cmd p = (Raise UnicodeEncodeError, p') /\
    stdout p' = stdout p /\
    forget_sessions (state p')
      = forget_sessions (single_job_progress cmd (state p)) /\
    jobs p' = jobs p ++ [cmd].
Proof.
  intros Hgen Hnorm Hstrength Hid.
  unfold _handle_generate, bind at 1, note_job at 1. cbn [fst snd].
  unfold bind at 1, get_state at 1. cbn [state]. rewrite Hgen.
  unfold bind at 1, draw_uuid at 1. cbn [uuid_count state stdout jobs calls].
  set (job_id := dict_get cmd "job_id" (PStr (uuid4 (uuid_count p)))) in *.
  unfold bind at 1.
  set (p1 := {| state := single_job_progress cmd (state p); stdout := stdout p;
                uuid_count := S (uuid_count p); jobs := jobs p ++ [cmd];
                calls := calls p |}).
  match goal with
  | |- context [match ?m ?q with _ => _ end] =>
      assert (Hp1 : m q = (Ok tt, p1))
  end.
  { unfold p1, single_job_progress.
    destruct (py_bool (dict_get cmd "preserve_progress_state" (PBool false)));
      reflexivity. }
  rewrite Hp1. unfold bind at 1, lift at 1. rewrite Hnorm.
  unfold dict_pop. cbn [fst snd].
  rewrite !lookup_delete_ne by done. rewrite Hstrength.
  unfold bind at 1, lift at 1, try_except.
  match goal with
  | |- context [generate_job ?g ?c ?j ?s ?o ?r ?st ?m ?d p1] =>
      pose proof (generate_job_result_or_raise g c j s o r st m d p1) as Hjob;
      destruct (generate_job g c j s o r st m d p1) as [[[]|ex] p2]
  end.
  - destruct Hjob as (q & emoji & path & _ & Hemit).
    rewrite emit_unencodable in Hemit; [done|].
    cbn [event_encodable]. by rewrite Hid.
  - destruct Hjob as (Hst & Hout & Huuid & Hjobs).
    rewrite emit_unencodable by (cbn [event_encodable]; by rewrite Hid).
    eexists. split; [reflexivity|]. by rewrite Hout, Hst, Hjobs.
Qed.


End SingleJob.

Section BatchEdges.
Context `{PyBuiltins} `{Collaborators}.

(** The first item of a pass when the command has no prompt. *)
Lemma batch_items_without_prompt cancels cmd settings output_dir total base_seed
    batch_size same_seed batch_index item rest o p :
  encodable_str (char item) = true ->
  cmd !! "prompt" = None ->
  cancels o = false ->
  cancel_requested (state p) = false ->
  batch_items cancels cmd settings output_dir total base_seed batch_size
              same_seed batch_index (item :: rest) o p
  = (Raise (KeyError "prompt"),
     {| state := set_current_emoji (char item)
                   (set_current_index (o + 1) (state p));
        stdout := stdout p
                  ++ [EvProgress (uuid4 (uuid_count p)) (o + 1) total (char item)];
        uuid_count := S (uuid_count p); jobs := jobs p; calls := calls p |}).
Proof.
  intros Hitem Hprompt Hco Hflag.
  cbn [batch_items]. unfold bind at 1, dispatcher_interleaves. rewrite Hco.
  unfold ret at 1, bind at 1, get_state at 1. rewrite Hflag.
  unfold bind at 1, modify_state at 1.
  unfold bind at 1, modify_state at 1. cbn [state stdout uuid_count jobs calls].
  unfold bind at 1, draw_uuid at 1. cbn [state stdout uuid_count jobs calls].
  unfold bind at 1.
  rewrite emit_encodable
    by (cbn [event_encodable]; by rewrite uuid4_encodable, Hitem).
  cbn [state stdout uuid_count jobs calls].
  unfold bind at 1, lift at 1, getitem. by rewrite Hprompt.
Qed.

(** X4. A batch whose command lacks [prompt] notices it only inside the
    loop: over a catalog that is not empty the worker announces the first
    item with a [progress] event, then fails on the missing field and
    writes an [error] event with an empty job id. No job is started and no
    collaborator called, the run lock is freed, but the progress fields
    keep the values of the first item: they are not reset. *)
Theorem batch_without_prompt_stops_at_first_item cancels cmd p gen
    base_settings settings b base_seed output_dir item rest :
  generator (state p) = Some gen ->
  dict_get cmd "settings" (PDict ∅) = PDict base_settings ->
  py_int (default (PInt 1) (base_settings !! "batch_size")) = Ok b ->
  py_int (default (PInt 42) (base_settings !! "seed")) = Ok base_seed ->
  _normalize_settings (PDict base_settings) = Ok settings ->
  cmd !! "output_dir" = Some (PStr output_dir) ->
  cmd !! "prompt" = None ->
  get_all_emojis = item :: rest ->
  cancels 0 = false ->
  exists p',
    _run_generate_all_worker cancels cmd p = (Ok tt, p') /\
    stdout p'
    = stdout p
      ++ [EvProgress (uuid4 (uuid_count p)) 1 (batch_total b) (char item);
          EvError (Some (PStr [])) (str_of_exn (KeyError "prompt"))] /\
    jobs p' = jobs p /\
    calls p' = calls p /\
    current_index (state p') = 1 /\
    total_items (state p') = batch_total b /\
    current_emoji (state p') = char item /\
    _run_lock (state p') = false.
Proof.
  intros Hgen Hset Hb Hseed Hnorm Hdir Hprompt Hcat Hc0.
  assert (Hitem : encodable_str (char item) = true).
  { pose proof catalog_encodable as Hall. rewrite Hcat in Hall.
    cbn [forallb] in Hall. unfold item_encodable in Hall.
    by apply andb_true_iff in Hall
      as [[[[-> _]%andb_true_iff _]%andb_true_iff _]%andb_true_iff _]. }
  assert (Hrun : exists q,
             _handle_generate_all cancels cmd p = (Raise (KeyError "prompt"), q) /\
             stdout q
             = stdout p ++ [EvProgress (uuid4 (uuid_count p)) 1 (batch_total b)
                                       (char item)] /\
             jobs q = jobs p /\ calls q = calls p /\
             current_index (state q) = 1 /\
             total_items (state q) = batch_total b /\
             current_emoji (state q) = char item).
  { unfold _handle_generate_all, bind at 1, get_state at 1. rewrite Hgen.
    unfold bind at 1, modify_state at 1. rewrite Hset.
    unfold bind at 1, lift at 1, value_get. cbn [res_bind]. rewrite Hb.
    unfold bind at 1, modify_state at 1. cbn [state stdout uuid_count jobs calls].
    unfold bind at 1, lift at 1. cbn [res_bind]. rewrite Hseed.
    unfold bind at 1, lift at 1. cbn [res_bind].
    unfold bind at 1, lift at 1. rewrite Hnorm.
    unfold bind at 1, lift at 1, getitem. rewrite Hdir. cbn [res_bind as_path].
    rewrite (seqZ_cons 1 (Z.max 1 b)) by lia.
    cbn [batch_passes]. unfold bind at 1, bind at 1. rewrite Hcat.
    rewrite batch_items_without_prompt by done.
    eexists. split; [reflexivity|].
    unfold batch_total, catalog_size. rewrite Hcat. by cbn. }
  destruct Hrun as (q & Hrun & Hout & Hjobs & Hcalls & Hi & Ht & He).
  unfold _run_generate_all_worker, try_finally, try_except. rewrite Hrun.
  rewrite emit_encodable by apply str_of_exn_encodable.
  unfold end_run, bind, get_state. cbn [fst snd state].
  destruct (_run_lock (state q)) eqn:Hlock; eexists; (split; [reflexivity|]);
    cbn; rewrite Hout, <- ?app_assoc; by repeat split.
Qed.
End BatchEdges.

(** ** Settings normalisation, key by key *)

Section NormalizeKeys.
Context `{PyBuiltins}.

Lemma convert_in_place_at k conv d d' :
  convert_in_place k conv d = Ok d' ->
  converted_at conv k d d' /\ (forall k', k' <> k -> d' !! k' = d !! k').
Proof.
  unfold convert_in_place, converted_at. intros Hc.
  destruct (d !! k) as [v|] eqn:Hk.
  - destruct (conv v) as [v'|e] eqn:Hv; [|done]. injection Hc as <-.
    split; [exists v'; by rewrite lookup_insert_eq|].
    intros k' Hne. by rewrite lookup_insert_ne.
  - injection Hc as <-. by split.
Qed.

Lemma convert_in_place_runs k conv d :
  convertible_at conv k d ->
  exists d', convert_in_place k conv d = Ok d'.
Proof.
  unfold convert_in_place, convertible_at. intros Hc.
  destruct (d !! k) as [v|]; [|by eexists].
  destruct (Hc v eq_refl) as [v' ->]. by eexists.
Qed.

Lemma resolve_cfg_scale_at d d' :
  resolve_cfg_scale d = Ok d' ->
  d' !! "cfg_scale" = None /\
  match d !! "cfg_scale" with
  | Some v => exists f, py_float v = Ok f /\
                        d' !! "guidance_scale" = Some (PFloat f)
  | None => d' !! "guidance_scale" = d !! "guidance_scale"
  end /\
  (forall k', k' <> "cfg_scale" -> k' <> "guidance_scale" -> d' !! k' = d !! k').
Proof.
  unfold resolve_cfg_scale. intros Hr.
  destruct (d !! "cfg_scale") as [v|] eqn:Hk.
  - destruct (py_float v) as [f|e]; [|done]. injection Hr as <-.
    split; [by rewrite lookup_insert_ne, lookup_delete_eq|].
    split; [exists f; by rewrite lookup_insert_eq|].
    intros k' H1 H2. by rewrite lookup_insert_ne, lookup_delete_ne.
  - injection Hr as <-. by repeat split.
Qed.

Lemma resolve_cfg_scale_runs d :
  convertible_at as_float "cfg_scale" d ->
  exists d', resolve_cfg_scale d = Ok d'.
Proof.
  unfold resolve_cfg_scale, convertible_at, as_float. intros Hc.
  destruct (d !! "cfg_scale") as [v|]; [|by eexists].
  destruct (Hc v eq_refl) as [v' Hv].
  destruct (py_float v); [by eexists | done].
Qed.

(** The ten steps of [normalize_dict], one after the other. *)
Lemma normalize_dict_steps d out :
  normalize_dict d = Ok out ->
  exists d1 d2 d3 d4 d5 d6 d7 d8 d9 d10,
    convert_in_place "output_size_px" as_int d = Ok d1 /\
    convert_in_place "num_inference_steps" as_int d1 = Ok d2 /\
    convert_in_place "seed" as_int d2 = Ok d3 /\
    convert_in_place "batch_size" as_int d3 = Ok d4 /\
    convert_in_place "strength" as_float d4 = Ok d5 /\
    convert_in_place "guidance_scale" as_float d5 = Ok d6 /\
    resolve_cfg_scale d6 = Ok d7 /\
    convert_in_place "remove_background" as_bool d7 = Ok d8 /\
    convert_in_place "remove_background_strength" as_float d8 = Ok d9 /\
    convert_in_place "rembg_model" as_str d9 = Ok d10 /\
    out = delete "max_blend_cap" (delete "same_seed" d10).
Proof.
  unfold normalize_dict. intros Hn.
  repeat match type of Hn with
         | res_bind _ _ = Ok _ =>
             let d' := fresh "d" in
             let Hd := fresh "Hd" in
             apply res_bind_ok in Hn as (d' & Hd & Hn)
         end.
  injection Hn as <-. by eexists _, _, _, _, _, _, _, _, _, _.
Qed.

Lemma converted_at_transport conv k d d' out out' :
  d' !! k = d !! k -> out' !! k = out !! k ->
  converted_at conv k d out -> converted_at conv k d' out'.
Proof. unfold converted_at. by intros -> ->. Qed.

(** Looks a key up through the steps that leave it alone. *)
Ltac chase :=
  repeat first
    [ rewrite lookup_delete_ne by done
    | match goal with
      | F : forall k', k' <> _ -> ?d' !! k' = _ |- context [?d' !! ?k] =>
          rewrite (F k) by done
      | F : forall k', k' <> _ -> k' <> _ -> ?d' !! k' = _
        |- context [?d' !! ?k] =>
          rewrite (F k) by done
      end ].

Ltac open_steps Hn :=
  apply normalize_dict_steps in Hn
    as (d1 & d2 & d3 & d4 & d5 & d6 & d7 & d8 & d9 & d10
        & H1 & H2 & H3 & H4 & H5 & H6 & H7 & H8 & H9 & H10 & ->);
  apply convert_in_place_at in H1 as [C1 F1];
  apply convert_in_place_at in H2 as [C2 F2];
  apply convert_in_place_at in H3 as [C3 F3];
  apply convert_in_place_at in H4 as [C4 F4];
  apply convert_in_place_at in H5 as [C5 F5];
  apply convert_in_place_at in H6 as [C6 F6];
  apply resolve_cfg_scale_at in H7 as (G7 & C7 & F7);
  apply convert_in_place_at in H8 as [C8 F8];
  apply convert_in_place_at in H9 as [C9 F9];
  apply convert_in_place_at in H10 as [C10 F10].

(** X12. What [_normalize_settings] returns, for each of the twelve keys
    that it looks at and for the others: the four integer options,
    [strength], [remove_background_strength], the flag and the model name
    hold the converted value of the input where the input has one and are
    absent otherwise; [guidance_scale] holds the float value of the
    input's [cfg_scale] when there is one, and otherwise is converted like
    the other float options; [same_seed], [max_blend_cap] and [cfg_scale]
    are never in the result; a key that is none of these twelve is passed
    on as it is. *)
Theorem normalize_settings_by_key d out :
  _normalize_settings (PDict d) = Ok out ->
  converted_at as_int "output_size_px" d out /\
  converted_at as_int "num_inference_steps" d out /\
  converted_at as_int "seed" d out /\
  converted_at as_int "batch_size" d out /\
  converted_at as_float "strength" d out /\
  match d !! "cfg_scale" with
  | Some v => exists f, py_float v = Ok f /\
                        out !! "guidance_scale" = Some (PFloat f)
  | None => converted_at as_float "guidance_scale" d out
  end /\
  converted_at as_bool "remove_background" d out /\
  converted_at as_float "remove_background_strength" d out /\
  converted_at as_str "rembg_model" d out /\
  out !! "same_seed" = None /\
  out !! "max_blend_cap" = None /\
  out !! "cfg_scale" = None /\
  (forall k, k ∉ recognized_settings -> out !! k = d !! k).
Proof.
  cbn [_normalize_settings py_dict res_bind]. intros Hn. open_steps Hn.
  match goal with
  | |- _ /\ _ /\ _ /\ _ /\ _ /\ ?guidance /\ _ => assert (Hguidance : guidance)
  end.
  { assert (E : d6 !! "cfg_scale" = d !! "cfg_scale") by by chase.
    rewrite E in C7. destruct (d !! "cfg_scale") as [v|].
    - destruct C7 as (f & Hf & Hg). exists f. split; [done|]. by chase.
    - eapply converted_at_transport; [| |exact C6]; chase; [done|].
      by rewrite C7. }
  split; [eapply converted_at_transport; [| |eassumption]; by chase|].
  split; [eapply converted_at_transport; [| |eassumption]; by chase|].
  split; [eapply converted_at_transport; [| |eassumption]; by chase|].
  split; [eapply converted_at_transport; [| |eassumption]; by chase|].
  split; [eapply converted_at_transport; [| |eassumption]; by chase|].
  split; [exact Hguidance|].
  split; [eapply converted_at_transport; [| |eassumption]; by chase|].
  split; [eapply converted_at_transport; [| |eassumption]; by chase|].
  split; [eapply converted_at_transport; [| |eassumption]; by chase|].
  split; [by rewrite lookup_delete_ne, lookup_delete_eq|].
  split; [by rewrite lookup_delete_eq|].
  split; [by chase|].
  intros k Hk. unfold recognized_settings in Hk.
  rewrite !not_elem_of_cons in Hk.
  destruct Hk as (? & ? & ? & ? & ? & ? & ? & ? & ? & ? & ? & ? & _).
  by chase.
Qed.

(** X13. [cfg_scale] is an alias that wins: when the input has it, the
    [guidance_scale] of the result is its float value, whatever the input
    had under [guidance_scale]; when it has not, [guidance_scale] is
    converted like any float option. *)
Theorem cfg_scale_overrides_guidance_scale d out :
  _normalize_settings (PDict d) = Ok out ->
  match d !! "cfg_scale" with
  | Some v => exists f, py_float v = Ok f /\
                        out !! "guidance_scale" = Some (PFloat f)
  | None => converted_at as_float "guidance_scale" d out
  end.
Proof.
  cbn [_normalize_settings py_dict res_bind]. intros Hn. open_steps Hn.
  assert (E : d6 !! "cfg_scale" = d !! "cfg_scale") by by chase.
  rewrite E in C7. destruct (d !! "cfg_scale") as [v|].
  - destruct C7 as (f & Hf & Hg). exists f. split; [done|]. by chase.
  - eapply converted_at_transport; [| |exact C6]; chase; [done|].
    by rewrite C7.
Qed.

(** X14. [_normalize_settings] succeeds on a dictionary exactly when
    every integer option that is present converts with [int] and every
    float option that is present, [guidance_scale] and [cfg_scale] both
    included, converts with [float]; the other keys never make it fail. *)
Theorem normalize_settings_succeeds_iff d :
  (exists out, _normalize_settings (PDict d) = Ok out) <->
  (forall k, k ∈ ["output_size_px"; "num_inference_steps"; "seed"; "batch_size"] ->
             convertible_at as_int k d) /\
  (forall k, k ∈ ["strength"; "guidance_scale"; "cfg_scale";
                  "remove_background_strength"] ->
             convertible_at as_float k d).
Proof.
  cbn [_normalize_settings py_dict res_bind]. split.
  - intros [out Hn]. open_steps Hn.
    assert (Hconv : forall conv k d' d'',
               converted_at conv k d' d'' -> d' !! k = d !! k ->
               convertible_at conv k d).
    { unfold converted_at, convertible_at. intros conv k d' d'' Hc <- v Hv.
      rewrite Hv in Hc. destruct Hc as (v' & ? & _). by exists v'. }
    split; intros k Hk; rewrite !elem_of_cons, elem_of_nil in Hk;
      destruct Hk as [->|[->|[->|[->|[]]]]];
      try (eapply Hconv; [eassumption|]; by chase).
    intros v Hv.
    assert (E : d6 !! "cfg_scale" = d !! "cfg_scale") by by chase.
    rewrite E, Hv in C7. destruct C7 as (f & Hf & _).
    exists (PFloat f). unfold as_float. by rewrite Hf.
  - intros [Hint Hfloat]. unfold normalize_dict.
    assert (Hi : forall k, k ∈ ["output_size_px"; "num_inference_steps"; "seed";
                                "batch_size"] ->
                 forall d', d' !! k = d !! k -> convertible_at as_int k d').
    { intros k Hk d' E v Hv. apply (Hint k Hk v). by rewrite <- E. }
    assert (Hf : forall k, k ∈ ["strength"; "guidance_scale"; "cfg_scale";
                                "remove_background_strength"] ->
                 forall d', d' !! k = d !! k -> convertible_at as_float k d').
    { intros k Hk d' E v Hv. apply (Hfloat k Hk v). by rewrite <- E. }
    destruct (convert_in_place_runs "output_size_px" as_int d) as [d1 H1];
      [apply Hi; [set_solver|done]|].
    rewrite H1. cbn [res_bind]. apply convert_in_place_at in H1 as [_ F1].
    destruct (convert_in_place_runs "num_inference_steps" as_int d1) as [d2 H2];
      [apply Hi; [set_solver|by chase]|].
    rewrite H2. cbn [res_bind]. apply convert_in_place_at in H2 as [_ F2].
    destruct (convert_in_place_runs "seed" as_int d2) as [d3 H3];
      [apply Hi; [set_solver|by chase]|].
    rewrite H3. cbn [res_bind]. apply convert_in_place_at in H3 as [_ F3].
    destruct (convert_in_place_runs "batch_size" as_int d3) as [d4 H4];
      [apply Hi; [set_solver|by chase]|].
    rewrite H4. cbn [res_bind]. apply convert_in_place_at in H4 as [_ F4].
    destruct (convert_in_place_runs "strength" as_float d4) as [d5 H5];
      [apply Hf; [set_solver|by chase]|].
    rewrite H5. cbn [res_bind]. apply convert_in_place_at in H5 as [_ F5].
    destruct (convert_in_place_runs "guidance_scale" as_float d5) as [d6 H6];
      [apply Hf; [set_solver|by chase]|].
    rewrite H6. cbn [res_bind]. apply convert_in_place_at in H6 as [_ F6].
    destruct (resolve_cfg_scale_runs d6) as [d7 H7];
      [apply Hf; [set_solver|by chase]|].
    rewrite H7. cbn [res_bind]. apply resolve_cfg_scale_at in H7 as (_ & _ & F7).
    destruct (convert_in_place_runs "remove_background" as_bool d7) as [d8 H8];
      [intros v _; by eexists|].
    rewrite H8. cbn [res_bind]. apply convert_in_place_at in H8 as [_ F8].
    destruct (convert_in_place_runs "remove_background_strength" as_float d8)
      as [d9 H9]; [apply Hf; [set_solver|by chase]|].
    rewrite H9. cbn [res_bind]. apply convert_in_place_at in H9 as [_ F9].
    destruct (convert_in_place_runs "rembg_model" as_str d9) as [d10 H10];
      [intros v _; by eexists|].
    rewrite H10. cbn [res_bind]. by eexists.
Qed.
End NormalizeKeys.

Lemma SFltb_finite_asym m e m' e' :
  SFltb (S754_finite false m e) (S754_finite false m' e') = true ->
  SFltb (S754_finite false m' e') (S754_finite false m e) = false.
Proof.
  unfold SFltb, SFcompare.
  rewrite (Z.compare_antisym e e').
  change (PosDef.Pos.compare_cont Eq m' m) with (m' ?= m)%positive.
  rewrite (Pos.compare_antisym m m').
  change (PosDef.Pos.compare_cont Eq m m') with (m ?= m')%positive.
  destruct (e ?= e'); cbn [CompOpp]; try discriminate; try (intros; reflexivity).
  destruct (m ?= m')%positive; cbn [CompOpp]; intros; try discriminate; reflexivity.
Qed.

Lemma F64_one_value : F64.one = S754_finite false 4503599627370496 (-52).
Proof. reflexivity. Qed.

(** X15. The matting strength of line 108 is always within [0, 1]: the
    clamped value is never NaN, never below 0.0 and never above 1.0. A
    strength that is not below 1.0, NaN included, becomes 1.0; one that is
    below 1.0 but not above 0.0 becomes 0.0; one strictly between is kept
    as it is. *)
Theorem clamp_strength_range s :
  clamp_strength s <> S754_nan /\
  F64.ltb (clamp_strength s) F64.zero = false /\
  F64.ltb F64.one (clamp_strength s) = false /\
  (F64.ltb s F64.one = false -> clamp_strength s = F64.one) /\
  (F64.ltb s F64.one = true -> F64.ltb F64.zero s = false ->
   clamp_strength s = F64.zero) /\
  (F64.ltb s F64.one = true -> F64.ltb F64.zero s = true -> clamp_strength s = s).
Proof.
  unfold clamp_strength, F64.py_max, F64.py_min.
  rewrite F64_one_value. unfold F64.ltb, F64.zero.
  set (c := 4503599627370496%positive).
  destruct (SFltb s (S754_finite false c (-52))) eqn:H1.
  - destruct (SFltb (S754_zero false) s) eqn:H0.
    + split; [intros ->; discriminate|].
      split; [destruct s as [[]|[]| |[] m e]; discriminate || reflexivity|].
      split.
      { destruct s as [[]|[]| |[] m e]; try discriminate; try reflexivity.
        by apply SFltb_finite_asym. }
      repeat split; intros; discriminate || reflexivity.
    + split; [discriminate|].
      repeat split; intros; discriminate || reflexivity.
  - split; [discriminate|].
    split; [reflexivity|]. split; [|repeat split; intros; discriminate || reflexivity].
    unfold SFltb, SFcompare. by rewrite Z.compare_refl, Pos.compare_cont_refl.
Qed.

Lemma truncated_blend_bounds k a :
  0 <= k <= 16 -> 0 <= a <= 255 -> a <= truncated_blend k a <= 255.
Proof.
  intros Hk Ha. unfold truncated_blend. split.
  - apply Z.div_le_lower_bound; nia.
  - apply Z.div_le_upper_bound; nia.
Qed.

(** X16. Softening the matte never makes a pixel more transparent: at
    every strength [k/16] the toned-down image has as many pixels as the
    matte, each with its colour unchanged and an alpha between the alpha of
    the matte and 255. *)
Theorem tone_down_softens k (img : Image) :
  0 <= k <= 16 ->
  Forall byte_alpha img ->
  exists img',
    tone_down (clamp_strength (dyadic_strength k)) img = Ok img' /\
    Forall2 softened img img'.
Proof.
  intros Hk Himg. destruct (Z.eq_dec k 16) as [->|Hne].
  - exists img. split; [apply tone_down_full_strength|].
    induction Himg as [|p img Hp _ IH]; constructor; [|exact IH].
    unfold softened, byte_alpha in *. repeat split; lia.
  - exists (List.map (with_alpha (truncated_blend k)) img).
    split; [apply tone_down_dyadic; [lia|done]|].
    induction Himg as [|p img Hp _ IH]; constructor; [|exact IH].
    unfold softened, byte_alpha in *. cbn [with_alpha red green blue alpha].
    repeat split; apply truncated_blend_bounds; lia.
Qed.

(** ** The jobs of a batch, item by item *)

Section BatchJobs.
Context `{PyBuiltins} `{Collaborators}.

Section Loop.
Variable cancels : Z -> bool.
Variable cmd : dict.
Variable settings : dict.
Variable output_dir : pystr.
Variables total base_seed batch_size : Z.
Variable same_seed : bool.
Variable prompt : pyval.
Hypothesis prompt_given : cmd !! "prompt" = Some prompt.

Local Abbreviation job_of :=
  (batch_job settings output_dir base_seed batch_size same_seed prompt).

Lemma batch_items_canceled batch_index item rest o p :
  cancels o = true \/ cancel_requested (state p) = true ->
  exists q,
    batch_items cancels cmd settings output_dir total base_seed batch_size
                same_seed batch_index (item :: rest) o p = (Ok Returned, q) /\
    jobs q = jobs p.
Proof.
  intros Hc. cbn [batch_items]. unfold bind at 1, dispatcher_interleaves.
  destruct (cancels o).
  - unfold modify_state at 1, bind at 1, get_state at 1.
    cbn [state set_cancel_requested cancel_requested].
    unfold bind at 1. rewrite emit_encodable by apply u_encodable.
    by eexists.
  - destruct Hc as [Hc|Hc]; [done|].
    unfold ret at 1, bind at 1, get_state at 1. rewrite Hc.
    unfold bind at 1. rewrite emit_encodable by apply u_encodable.
    by eexists.
Qed.

Lemma batch_items_jobs batch_index items : forall o p,
  forallb item_encodable items = true ->
  exists js,
    jobs (batch_items cancels cmd settings output_dir total base_seed
            batch_size same_seed batch_index items o p).2 = jobs p ++ js /\
    (forall (i : nat) job,
        js !! i = Some job ->
        exists item job_id,
          items !! i = Some item /\
          job = job_of job_id item (o + Z.of_nat i + 1) batch_index) /\
    (forall o',
        (batch_items cancels cmd settings output_dir total base_seed
           batch_size same_seed batch_index items o p).1 = Ok (Continue o') ->
        o' = o + Z.of_nat (List.length items) /\
        List.length js = List.length items).
Proof.
  induction items as [|item rest IH]; intros o p Hitems.
  - exists []. cbn. rewrite app_nil_r. split; [done|]. split; [done|].
    intros o' [= <-]. split; [lia|done].
  - cbn [forallb] in Hitems. apply andb_true_iff in Hitems as [Hitem Hrest].
    destruct (cancels o) eqn:Hco.
    { destruct (batch_items_canceled batch_index item rest o p)
        as (q & -> & Hq); [by left|].
      exists []. cbn [fst snd]. rewrite Hq, app_nil_r. by repeat split. }
    destruct (cancel_requested (state p)) eqn:Hflag.
    { destruct (batch_items_canceled batch_index item rest o p)
        as (q & -> & Hq); [by right|].
      exists []. cbn [fst snd]. rewrite Hq, app_nil_r. by repeat split. }
    set (job_id := uuid4 (uuid_count p)).
    set (ic := job_of job_id item (o + 1) batch_index).
    set (p1 := {| state := set_current_emoji (char item)
                             (set_current_index (o + 1) (state p));
                  stdout := stdout p
                            ++ [EvProgress job_id (o + 1) total (char item)];
                  uuid_count := S (uuid_count p); jobs := jobs p;
                  calls := calls p |}).
    assert (E : batch_items cancels cmd settings output_dir total base_seed
                  batch_size same_seed batch_index (item :: rest) o p
                = match _handle_generate ic p1 with
                  | (Ok _, p2) =>
                      batch_items cancels cmd settings output_dir total
                        base_seed batch_size same_seed batch_index rest
                        (o + 1) p2
                  | (Raise ex, p2) => (Raise ex, p2)
                  end).
    { cbn [batch_items]. unfold bind at 1, dispatcher_interleaves. rewrite Hco.
      unfold ret at 1.
      unfold bind at 1, get_state at 1. rewrite Hflag.
      unfold bind at 1, modify_state at 1.
      unfold bind at 1, modify_state at 1.
      cbn [state stdout uuid_count jobs calls].
      unfold bind at 1, draw_uuid at 1. cbn [state stdout uuid_count jobs calls].
      unfold bind at 1. rewrite emit_encodable.
      2:{ cbn [event_encodable]. rewrite uuid4_encodable.
          unfold item_encodable in Hitem.
          by apply andb_true_iff in Hitem
            as [[[-> _]%andb_true_iff _]%andb_true_iff _]. }
      cbn [state stdout uuid_count jobs calls].
      unfold bind at 1, lift at 1, getitem. rewrite prompt_given.
      unfold bind at 1. reflexivity. }
    rewrite E. clear E.
    pose proof (handle_generate_frame ic p1) as [Hjobs _].
    destruct (_handle_generate ic p1) as [[[]|ex] p2]; cbn [snd] in Hjobs.
    + destruct (IH (o + 1) p2 Hrest) as (js & Hjs & Hitems & Hctl).
      exists (ic :: js). rewrite Hjs, Hjobs. cbn [jobs p1].
      split; [by rewrite <- app_assoc|]. split.
      * intros [|i] job Hi.
        -- injection Hi as <-. exists item, job_id. split; [done|].
           by replace (o + Z.of_nat 0 + 1) with (o + 1) by lia.
        -- destruct (Hitems i job Hi) as (item' & jid & Hl & ->).
           exists item', jid. split; [done|].
           by replace (o + Z.of_nat (S i) + 1) with (o + 1 + Z.of_nat i + 1)
             by lia.
      * intros o' Ho'. destruct (Hctl o' Ho') as [-> Hlen].
        cbn [List.length]. split; [lia|]. by rewrite Hlen.
    + exists [ic]. cbn [fst snd]. rewrite Hjobs. split; [done|]. split; [|done].
      intros [|i] job Hi; [|by rewrite lookup_cons, lookup_nil in Hi].
      injection Hi as <-. exists item, job_id. split; [done|].
      by replace (o + Z.of_nat 0 + 1) with (o + 1) by lia.
Qed.

Lemma batch_passes_jobs batch_indices : forall o p,
  exists js,
    jobs (batch_passes cancels cmd settings output_dir total base_seed
            batch_size same_seed batch_indices o p).2 = jobs p ++ js /\
    (forall (i : nat) job,
        js !! i = Some job ->
        exists item job_id batch_index,
          get_all_emojis !! (i mod List.length get_all_emojis)%nat = Some item /\
          batch_indices !! (i / List.length get_all_emojis)%nat
          = Some batch_index /\
          job = job_of job_id item (o + Z.of_nat i + 1) batch_index).
Proof.
  induction batch_indices as [|batch_index rest IH]; intros o p.
  - exists []. cbn. by rewrite app_nil_r.
  - cbn [batch_passes]. unfold bind.
    destruct (batch_items_jobs batch_index get_all_emojis o p catalog_encodable)
      as (js1 & Hj1 & Hi1 & Hc1).
    assert (Hfirst : forall (i : nat) job,
               js1 !! i = Some job ->
               exists item job_id batch_index',
                 get_all_emojis !! (i mod List.length get_all_emojis)%nat
                 = Some item /\
                 (batch_index :: rest) !! (i / List.length get_all_emojis)%nat
                 = Some batch_index' /\
                 job = job_of job_id item (o + Z.of_nat i + 1) batch_index').
    { intros i job Hi. destruct (Hi1 i job Hi) as (item & jid & Hl & ->).
      pose proof (lookup_lt_Some _ _ _ Hl) as Hlt.
      exists item, jid, batch_index.
      rewrite Nat.mod_small, Nat.div_small by exact Hlt. by repeat split. }
    destruct (batch_items cancels cmd settings output_dir total base_seed
                batch_size same_seed batch_index get_all_emojis o p)
      as [[[o'|]|ex] p1]; cbn [fst snd] in *;
      [|by exists js1..].
    destruct (Hc1 o' eq_refl) as [-> Hlen].
    destruct (IH (o + Z.of_nat (List.length get_all_emojis)) p1)
      as (js2 & Hj2 & Hi2).
    exists (js1 ++ js2). rewrite Hj2, Hj1. split; [by rewrite <- app_assoc|].
    intros i job Hi. apply lookup_app_Some in Hi as [Hi|[Hge Hi]].
    { by apply Hfirst. }
    destruct (Hi2 _ _ Hi) as (item & jid & bi & Hitem & Hbi & ->).
    rewrite Hlen in *.
    set (N := List.length get_all_emojis) in *.
    assert (HN : N <> 0%nat).
    { intros HN0. apply lookup_lt_Some in Hitem. fold N in Hitem. lia. }
    exists item, jid, bi.
    replace i with ((i - N) + 1 * N)%nat at 1 2 by lia.
    rewrite Nat.Div0.mod_add, Nat.div_add by exact HN.
    replace ((i - N) / N + 1)%nat with (S ((i - N) / N)) by lia.
    split; [exact Hitem|]. split; [exact Hbi|].
    by replace (o + Z.of_nat N + Z.of_nat (i - N) + 1)
      with (o + Z.of_nat i + 1) by lia.
Qed.
End Loop.

(** X17. Which emoji and which file each job of a batch gets: on an
    initialised session and a well-formed command, the [n]-th command
    handed to [_handle_generate] (counting from 1) is a [generate] for the
    catalog entry at position [(n-1) mod N], [N] being the size of the
    catalog, with the prompt of the batch, progress preservation switched
    on, and the output path that [_safe_output_path] builds from the output
    directory, the emoji, the seed of ordinal [n] and the pass number
    [(n-1) / N + 1]. *)
Theorem batch_jobs_follow_the_catalog cancels cmd b base_seed same_seed p gen :
  generator (state p) = Some gen ->
  batch_request cmd b base_seed same_seed ->
  exists p' js,
    _handle_generate_all cancels cmd p = (Ok tt, p') /\
    jobs p' = jobs p ++ js /\
    forall n job,
      1 <= n ->
      js !! Z.to_nat (n - 1) = Some job ->
      exists item output_dir,
        get_all_emojis !! Z.to_nat ((n - 1) mod catalog_size) = Some item /\
        cmd !! "output_dir" = Some (PStr output_dir) /\
        job !! "cmd" = Some (PStr (u "generate")) /\
        job !! "emoji" = Some (PStr (char item)) /\
        job !! "prompt" = cmd !! "prompt" /\
        job !! "output_path"
        = Some (PStr (_safe_output_path (path_str output_dir) (char item)
                        (if same_seed then base_seed else base_seed + (n - 1))
                        ((n - 1) / catalog_size + 1) (Z.max 1 b))) /\
        job !! "preserve_progress_state" = Some (PBool true).
Proof.
  intros Hgen Hreq.
  destruct (handle_generate_all_progress cancels cmd b base_seed same_seed p gen
              Hgen Hreq) as (ctl & p' & Hrun & _ & _).
  destruct Hreq as (base_settings & settings & output_dir & prompt & Hset & Hb
                    & Hseed & Hsame & Hnorm & Hdir & Hprompt).
  assert (Hjobs : exists js,
             jobs (_handle_generate_all cancels cmd p).2 = jobs p ++ js /\
             forall (i : nat) job,
               js !! i = Some job ->
               exists item job_id batch_index,
                 get_all_emojis !! (i mod List.length get_all_emojis)%nat
                 = Some item /\
                 seqZ 1 (Z.max 1 b) !! (i / List.length get_all_emojis)%nat
                 = Some batch_index /\
                 job = batch_job settings output_dir base_seed (Z.max 1 b)
                         same_seed prompt job_id item (0 + Z.of_nat i + 1)
                         batch_index).
  { unfold _handle_generate_all, bind at 1, get_state at 1. rewrite Hgen.
    unfold bind at 1, modify_state at 1. rewrite Hset.
    unfold bind at 1, lift at 1, value_get. cbn [res_bind]. rewrite Hb.
    unfold bind at 1, modify_state at 1. cbn [state stdout uuid_count jobs calls].
    unfold bind at 1, lift at 1. cbn [res_bind]. rewrite Hseed.
    unfold bind at 1, lift at 1. cbn [res_bind]. rewrite Hsame.
    unfold bind at 1, lift at 1. rewrite Hnorm.
    unfold bind at 1, lift at 1, getitem. rewrite Hdir. cbn [res_bind as_path].
    set (p1 := {| state := _; stdout := _; uuid_count := _; jobs := _;
                  calls := _ |}).
    destruct (batch_passes_jobs cancels cmd settings output_dir
                (Z.of_nat (List.length get_all_emojis) * Z.max 1 b) base_seed
                (Z.max 1 b) same_seed prompt Hprompt (seqZ 1 (Z.max 1 b)) 0 p1)
      as (js & Hjs & Hitems).
    exists js. split; [|exact Hitems].
    unfold bind at 1.
    destruct (batch_passes _ _ _ _ _ _ _ _ _ _ p1) as [[[o'|]|ex] p2];
      cbn [fst snd] in *; exact Hjs. }
  rewrite Hrun in Hjobs. cbn [snd] in Hjobs.
  destruct Hjobs as (js & Hjs & Hitems).
  exists p', js. split; [done|]. split; [done|].
  intros n job Hn Hjob.
  destruct (Hitems _ _ Hjob) as (item & jid & bi & Hitem & Hbi & ->).
  apply lookup_seqZ in Hbi as [-> _].
  rewrite Z2Nat.id in * by lia.
  exists item, output_dir.
  assert (HN : List.length get_all_emojis <> 0%nat).
  { intros HN0. apply lookup_lt_Some in Hitem. lia. }
  unfold catalog_size.
  replace (Z.to_nat ((n - 1) mod Z.of_nat (List.length get_all_emojis)))
    with (Z.to_nat (n - 1) mod List.length get_all_emojis)%nat.
  2:{ rewrite <- (Z2Nat.id (n - 1)) at 2 by lia.
      by rewrite <- Nat2Z.inj_mod, Nat2Z.id. }
  replace ((n - 1) / Z.of_nat (List.length get_all_emojis) + 1)
    with (1 + Z.of_nat (Z.to_nat (n - 1) / List.length get_all_emojis)).
  2:{ rewrite Nat2Z.inj_div, Z2Nat.id by lia. lia. }
  split; [exact Hitem|]. split; [exact Hdir|].
  unfold batch_job, item_command, per_seed_of. rewrite Hprompt.
  replace (0 + (n - 1) + 1 - 1) with (n - 1) by lia.
  repeat split; by simplify_map_eq.
Qed.
End BatchJobs.

Section Init.
Context `{PyBuiltins} `{Collaborators}.

End Init.

(** ** The diffusion engine *)

Section EngineFacts.
Import Generator.
Context `{PyBuiltins} `{Torch}.

Lemma bind_done {A B} (m : T A) (k : A -> T B) log a log' :
  m log = (Done a, log') -> (m ≫= k) log = k a log'.
Proof. unfold mbind, T_bind. by intros ->. Qed.

Lemma bind_raised {A B} (m : T A) (k : A -> T B) log e log' :
  m log = (Raised e, log') -> (m ≫= k) log = (Raised e, log').
Proof. unfold mbind, T_bind. by intros ->. Qed.

Lemma fails_in_libraries_ret {A} (a : A) : fails_in_libraries (mret a : T A).
Proof. intros log. exists []. by rewrite app_nil_r. Qed.

Lemma fails_in_libraries_bind {A B} (m : T A) (k : A -> T B) :
  fails_in_libraries m -> (forall a, fails_in_libraries (k a)) ->
  fails_in_libraries (m ≫= k).
Proof.
  intros Hm Hk log. specialize (Hm log). unfold mbind, T_bind.
  destruct (m log) as [[a|e] log1].
  - destruct Hm as [calls ->]. specialize (Hk a (log ++ calls)).
    destruct (k a (log ++ calls)) as [[b|e] log2].
    + destruct Hk as [calls' ->]. exists (calls ++ calls').
      by rewrite app_assoc.
    + destruct Hk as (before & c & -> & Hf & Hlen).
      exists before, c. repeat split; [done|].
      rewrite length_app in Hlen. lia.
  - exact Hm.
Qed.

Lemma fails_in_libraries_lift {A} (r : Res A) :
  (exists a, r = Ok a) -> fails_in_libraries (lift r).
Proof. intros [a ->] log. exists []. by rewrite app_nil_r. Qed.

Lemma fallback_reason_given (errors : list pystr) :
  u "Unable to initialize diffusion pipeline with true image-to-image conditioning."
  ++ newline ++ str_join newline errors ++ newline
  ++ u "Check diffusers version compatibility and model path/repo." <> [].
Proof. discriminate. Qed.

Lemma bind_inv {A B} (m : T A) (k : A -> T B) log b log' :
  (m ≫= k) log = (Done b, log') ->
  exists a log1, m log = (Done a, log1) /\ k a log1 = (Done b, log').
Proof.
  unfold mbind, T_bind. destruct (m log) as [[a|e] log1]; [|done].
  intros Hk. by exists a, log1.
Qed.

Lemma appends_ret {A} (a : A) : appends (mret a : T A).
Proof. intros log. exists []. by rewrite app_nil_r. Qed.

Lemma appends_throw {A} e : appends (throw e : T A).
Proof. intros log. exists []. by rewrite app_nil_r. Qed.

Lemma appends_lift {A} (r : Res A) : appends (lift r).
Proof. intros log. exists []. rewrite app_nil_r. by destruct r. Qed.

Lemma appends_ask {A} c (answer : nat -> outcome A) : appends (ask c answer).
Proof. intros log. by exists [c]. Qed.

Lemma appends_bind {A B} (m : T A) (k : A -> T B) :
  appends m -> (forall a, appends (k a)) -> appends (m ≫= k).
Proof.
  intros Hm Hk log. destruct (Hm log) as [calls Hc]. unfold mbind, T_bind.
  destruct (m log) as [[a|e] log1]; cbn [snd] in Hc; subst log1.
  - destruct (Hk a (log ++ calls)) as [calls' Hc']. exists (calls ++ calls').
    by rewrite Hc', app_assoc.
  - by exists calls.
Qed.

Lemma appends_try_except {A} (body : T A) handler :
  appends body -> (forall e, appends (handler e)) ->
  appends (try_except body handler).
Proof.
  intros Hm Hk log. destruct (Hm log) as [calls Hc]. unfold try_except.
  destruct (body log) as [[a|e] log1]; cbn [snd] in Hc; subst log1.
  - by exists calls.
  - destruct (Hk e (log ++ calls)) as [calls' Hc']. exists (calls ++ calls').
    by rewrite Hc', app_assoc.
Qed.

Lemma appends_if {A} (b : bool) (m m' : T A) :
  appends m -> appends m' -> appends (if b then m else m').
Proof. by destruct b. Qed.

Lemma load_candidate_appends class_name model_path device_name
      (cuda is_local enable_cpu_offload : bool) :
  appends (load_candidate class_name model_path device_name cuda is_local
             enable_cpu_offload).
Proof.
  unfold load_candidate.
  repeat first [ apply appends_bind; [|intros ?] | apply appends_if
               | apply appends_ask | apply appends_ret | apply appends_throw ].
Qed.

Lemma load_candidate_done class_name model_path device_name
      (cuda is_local enable_cpu_offload : bool) log the_pipe supported log' :
  load_candidate class_name model_path device_name cuda is_local
    enable_cpu_offload log = (Done (the_pipe, supported), log') ->
  "image" ∈ supported /\
  exists before,
    log' = before ++ [Signature the_pipe] /\
    signature_parameters (List.length before) the_pipe = Done supported.
Proof.
  unfold load_candidate. intros Hl.
  apply bind_inv in Hl as (pipe0 & log1 & _ & Hl).
  apply bind_inv in Hl as (pipe1 & log2 & _ & Hl).
  apply bind_inv in Hl as (supported' & log3 & Hs & Hl).
  unfold ask in Hs. injection Hs as Hs <-.
  case_bool_decide as Hin; [|done].
  injection Hl as <- <- <-. split; [done|]. by exists log2.
Qed.

Lemma try_candidates_outcome model_path device_name
      (cuda is_local enable_cpu_offload : bool) log :
  exists calls,
    (exists the_pipe supported before,
        try_candidates candidates model_path device_name cuda is_local
          enable_cpu_offload [] log
        = (Done (Some (u "flux2klein", the_pipe, supported), []), log ++ calls) /\
        "image" ∈ supported /\
        log ++ calls = before ++ [Signature the_pipe] /\
        signature_parameters (List.length before) the_pipe = Done supported) \/
    (exists errors,
        try_candidates candidates model_path device_name cuda is_local
          enable_cpu_offload [] log
        = (Done (None, errors), log ++ calls)).
Proof.
  unfold candidates. cbn [try_candidates]. unfold try_except.
  pose proof (load_candidate_appends (u "Flux2KleinPipeline") model_path
                device_name cuda is_local enable_cpu_offload log)
    as [calls Hc].
  pose proof (load_candidate_done (u "Flux2KleinPipeline") model_path
                device_name cuda is_local enable_cpu_offload log) as Hd.
  exists calls.
  destruct (load_candidate _ _ _ _ _ _ log)
    as [[[the_pipe supported]|e] log'] eqn:Hl; cbn [snd] in Hc; subst log'.
  - left. destruct (Hd _ _ _ eq_refl) as (Hin & before & Hb & Hs).
    exists the_pipe, supported, before.
    by rewrite (bind_done _ _ _ _ _ Hl).
  - right. eexists. by rewrite (bind_raised _ _ _ _ _ Hl).
Qed.



(** X21. An engine in fallback, or one without pipeline, refuses every
    job: [generate] raises the [RuntimeError] that quotes the reason of
    the fallback, whatever the image, the prompt and the keyword
    arguments are, and calls no library. *)
Theorem fallback_engine_refuses self base_image prompt kwargs log :
  _fallback self = true \/ pipe self = None ->
  generate self base_image prompt kwargs log
  = (Raised (RuntimeError (u "Diffusion pipeline unavailable: "
                           ++ fallback_reason self)), log).
Proof.
  intros Hf. unfold generate, dict_pop.
  destruct (pipe self) as [the_pipe|]; [|done].
  destruct Hf as [->|?]; done.
Qed.

Lemma settings_of_popped kwargs :
  settings_of (delete "diagnostic_stats" (delete "debug_conditioning_path" kwargs))
  = settings_of kwargs.
Proof.
  unfold settings_of, dict_get. by rewrite !lookup_delete_ne by done.
Qed.

(** What [generate] does on an engine that works, after the seed was
    read. *)
Lemma generate_live self base_image prompt kwargs the_pipe log :
  pipe self = Some the_pipe -> _fallback self = false ->
  generate self base_image prompt kwargs log
  = (seed ← lift (py_int (seed (settings_of kwargs)));
     let seed := seed mod max_seed in
     ask (ManualSeed (device self) seed)
         (fun t => manual_seed t (device self) seed);;
     (if py_bool (dict_get kwargs "debug_conditioning_path" PNone) then
        path ← lift (as_path (dict_get kwargs "debug_conditioning_path" PNone));
        ask (MkdirParent path) (fun t => mkdir_parent t path);;
        ask (Save (conditioning_image base_image) path)
            (fun t => save t (conditioning_image base_image) path)
      else mret tt : T unit);;
     (if py_bool (dict_get (delete "debug_conditioning_path" kwargs)
                    "diagnostic_stats" (PBool false))
         || py_bool (dict_get kwargs "debug_conditioning_path" PNone)
         || _trace self then
        ask (Diagnose (conditioning_image base_image))
            (fun t => diagnose t (conditioning_image base_image))
      else mret tt : T unit);;
     lift (format_fixed (strength (settings_of kwargs)));;
     lift (format_fixed (guidance_scale (settings_of kwargs)));;
     ask (PipeCall the_pipe
            (pipe_kwargs self (settings_of kwargs) prompt
               (conditioning_image base_image) seed))
         (fun t => pipe_call t the_pipe
                     (pipe_kwargs self (settings_of kwargs) prompt
                        (conditioning_image base_image) seed))) log.
Proof.
  intros Hp Hf. unfold generate, dict_pop. rewrite Hp, Hf.
  by rewrite settings_of_popped.
Qed.

(** X22. The seed that torch gets: on an engine that works, [generate]
    first converts the [seed] argument (42 when there is none) with
    [int]; if that raises, so does [generate], before any call; otherwise
    its first call seeds a torch generator on the device of the engine
    with the seed reduced modulo [2^63 - 1], a number from 0 to
    [2^63 - 2] that is the seed itself when the seed is in that range. *)
Theorem torch_seed_is_reduced self base_image prompt kwargs the_pipe log :
  pipe self = Some the_pipe -> _fallback self = false ->
  match py_int (dict_get kwargs "seed" (PInt 42)) with
  | Ok s =>
      0 <= s mod max_seed <= 2 ^ 63 - 2 /\
      (0 <= s <= 2 ^ 63 - 2 -> s mod max_seed = s) /\
      exists calls,
        (generate self base_image prompt kwargs log).2
        = log ++ ManualSeed (device self) (s mod max_seed) :: calls
  | Raise e =>
      generate self base_image prompt kwargs log = (Raised (Other e), log)
  end.
Proof.
  intros Hp Hf. rewrite (generate_live _ _ _ _ _ _ Hp Hf).
  cbn [seed settings_of].
  destruct (py_int (dict_get kwargs "seed" (PInt 42))) as [s|e]; [|done].
  assert (Hmax : max_seed = 2 ^ 63 - 1) by reflexivity.
  split; [rewrite Hmax; pose proof (Z.mod_pos_bound s (2 ^ 63 - 1)); lia|].
  split; [intros Hs; apply Z.mod_small; rewrite Hmax; lia|].
  unfold mbind at 1, T_bind at 1, lift at 1.
  match goal with
  | |- context [(ask ?c ?a ≫= ?k) log] => set (rest := k)
  end.
  assert (Hk : appends (rest tt)).
  { subst rest. cbn beta.
    repeat first [ apply appends_bind; [|intros ?] | apply appends_if
                 | apply appends_ask | apply appends_ret | apply appends_lift ]. }
  clearbody rest.
  unfold mbind, T_bind, ask.
  destruct (manual_seed _ _ _) as [[]|e]; [|by exists []].
  destruct (Hk (log ++ [ManualSeed (device self) (s mod max_seed)]))
    as [calls ->].
  exists calls. by rewrite <- app_assoc.
Qed.

Lemma pipe_kwargs_lookup self settings prompt image seed k v :
  pipe_kwargs self settings prompt image seed !! k = Some v <->
  k ∈ _supported_call_params self /\
  (k = "prompt" /\ v = Value prompt \/
   k = "image" /\
     v = (if bool_decide (mode self = u "flux2klein")
          then Reference [image] else Conditioning image) \/
   k = "num_inference_steps" /\ v = Value (num_inference_steps settings) \/
   k = "guidance_scale" /\ v = Value (guidance_scale settings) \/
   k = "generator" /\ v = TorchGenerator (device self) seed \/
   k = "strength" /\ v = Value (strength settings)).
Proof.
  unfold pipe_kwargs. rewrite map_lookup_filter_Some. cbn [fst].
  set (image_value := if bool_decide (mode self = u "flux2klein")
                      then Reference [image] else Conditioning image).
  split.
  - intros [Hl Hin]. split; [done|].
    destruct (bool_decide ("strength" ∈ _supported_call_params self));
      repeat (apply lookup_insert_Some in Hl as [[<- <-]|[? Hl]]; [tauto|]);
      by rewrite lookup_empty in Hl.
  - intros [Hin Hk]. split; [|done].
    destruct (bool_decide ("strength" ∈ _supported_call_params self)) eqn:Hs;
      destruct Hk as [[-> ->]|[[-> ->]|[[-> ->]|[[-> ->]|[[-> ->]|[-> ->]]]]]];
      try (by apply bool_decide_eq_false in Hs);
      repeat (rewrite lookup_insert_ne by done); by rewrite lookup_insert_eq.
Qed.

Lemma lift_done {A} (r : Res A) log a log' :
  lift r log = (Done a, log') -> r = Ok a /\ log' = log.
Proof. unfold lift. destruct r; by intros [= <- <-]. Qed.

(** X23. What the pipeline is called with: when [generate] returns an
    image, it is the answer of the pipeline of the engine to the last
    call made, and the keyword arguments of that call are exactly the
    supported ones among [prompt], [image], [num_inference_steps],
    [guidance_scale], [generator] and [strength]: the prompt, the
    conditioning image (as a list of one image in mode [flux2klein]), the
    steps, guidance and strength of the keyword arguments of [generate]
    or else 30, 30.0 and 0.1, and the torch generator with the reduced
    seed. Nothing that the pipeline does not accept is passed. *)
Theorem pipeline_gets_what_it_supports self base_image prompt kwargs log
    img log' :
  generate self base_image prompt kwargs log = (Done img, log') ->
  exists the_pipe s before arguments,
    pipe self = Some the_pipe /\
    _fallback self = false /\
    py_int (dict_get kwargs "seed" (PInt 42)) = Ok s /\
    log' = before ++ [PipeCall the_pipe arguments] /\
    pipe_call (List.length before) the_pipe arguments = Done img /\
    (forall k, is_Some (arguments !! k) ->
               k ∈ pipeline_arguments /\ k ∈ _supported_call_params self) /\
    (forall k v,
        arguments !! k = Some v <->
        k ∈ _supported_call_params self /\
        (k = "prompt" /\ v = Value prompt \/
         k = "image" /\
           v = (if bool_decide (mode self = u "flux2klein")
                then Reference [conditioning_image base_image]
                else Conditioning (conditioning_image base_image)) \/
         k = "num_inference_steps" /\
           v = Value (dict_get kwargs "num_inference_steps" (PInt 30)) \/
         k = "guidance_scale" /\
           v = Value (dict_get kwargs "guidance_scale" (PFloat (F64.of_Z 30))) \/
         k = "generator" /\ v = TorchGenerator (device self) (s mod max_seed) \/
         k = "strength" /\
           v = Value (dict_get kwargs "strength" (PFloat one_tenth)))).
Proof.
  intros Hg.
  destruct (pipe self) as [the_pipe|] eqn:Hp;
    [|by rewrite fallback_engine_refuses in Hg by (by right)].
  destruct (_fallback self) eqn:Hf;
    [by rewrite fallback_engine_refuses in Hg by (by left)|].
  rewrite (generate_live _ _ _ _ _ _ Hp Hf) in Hg.
  apply bind_inv in Hg as (s & log1 & Hs & Hg).
  apply lift_done in Hs as [Hs ->].
  apply bind_inv in Hg as ([] & log2 & _ & Hg).
  apply bind_inv in Hg as ([] & log3 & _ & Hg).
  apply bind_inv in Hg as ([] & log4 & _ & Hg).
  apply bind_inv in Hg as ([] & log5 & _ & Hg).
  apply bind_inv in Hg as ([] & log6 & _ & Hg).
  unfold ask in Hg. injection Hg as Hcall <-.
  eexists the_pipe, s, log6, _. split; [done|]. split; [done|].
  split; [exact Hs|]. split; [reflexivity|]. split; [exact Hcall|].
  split.
  - intros k [v Hv]. apply pipe_kwargs_lookup in Hv as [Hin Hk].
    split; [|done]. unfold pipeline_arguments.
    destruct Hk as [[-> _]|[[-> _]|[[-> _]|[[-> _]|[[-> _]|[-> _]]]]]];
      set_solver.
  - intros k v. apply pipe_kwargs_lookup.
Qed.

Lemma fails_in_libraries_ask {A} c (answer : nat -> outcome A) :
  (forall t e, answer t = Raised e -> failure t c = Some e) ->
  fails_in_libraries (ask c answer).
Proof.
  intros Hc log. unfold ask.
  destruct (answer (List.length log)) as [a|e] eqn:Ha; [by exists [c]|].
  exists log, c. split; [done|]. split; [by apply Hc|lia].
Qed.

Lemma fails_in_libraries_if {A} (b : bool) (m m' : T A) :
  (b = true -> fails_in_libraries m) -> (b = false -> fails_in_libraries m') ->
  fails_in_libraries (if b then m else m').
Proof. destruct b; auto. Qed.

Lemma job_kwargs_lookup settings debug_conditioning_path kwargs k :
  job_kwargs settings debug_conditioning_path = Ok kwargs ->
  k ∈ ["seed"; "strength"; "guidance_scale"] ->
  kwargs !! k = settings !! k.
Proof.
  unfold job_kwargs, dict_pop. cbn [snd]. case_bool_decide; [done|].
  intros [= <-] Hk. rewrite !elem_of_cons, elem_of_nil in Hk.
  destruct Hk as [->|[->|[->|[]]]];
    by rewrite lookup_insert_ne, !lookup_delete_ne by done.
Qed.

Lemma job_kwargs_debug_path settings debug_conditioning_path kwargs :
  job_kwargs settings debug_conditioning_path = Ok kwargs ->
  dict_get kwargs "debug_conditioning_path" PNone
  = match debug_conditioning_path with
    | Some path => PStr path
    | None => PNone
    end.
Proof.
  unfold job_kwargs, dict_pop, dict_get. cbn [snd]. case_bool_decide; [done|].
  intros [= <-]. by rewrite lookup_insert_eq.
Qed.

End EngineFacts.

(** ** The catalog *)

Section CatalogFacts.
Import EmojiCatalog.

Lemma str_lt_irrefl a : str_lt a a = false.
Proof.
  induction a as [|x a IH]; [done|]. cbn. by rewrite N.ltb_irrefl.
Qed.

Lemma str_lt_asym a : forall b, str_lt a b = true -> str_lt b a = false.
Proof.
  induction a as [|x a IH]; intros [|y b]; cbn; try done.
  destruct (N.ltb_spec x y), (N.ltb_spec y x); try done; try lia.
  apply IH.
Qed.

(** The order "not greater" is transitive. *)
Lemma str_le_trans a : forall b c,
  str_lt b a = false -> str_lt c b = false -> str_lt c a = false.
Proof.
  induction a as [|x a IH]; intros [|y b] [|z c]; cbn; try done.
  destruct (N.ltb_spec y x), (N.ltb_spec x y), (N.ltb_spec z y),
    (N.ltb_spec y z), (N.ltb_spec z x), (N.ltb_spec x z);
    try done; try lia.
  apply IH.
Qed.

Lemma insert_by_name_perm x l : insert_by_name x l ≡ₚ x :: l.
Proof.
  induction l as [|y l IH]; [done|]. cbn.
  destruct (str_lt (name y) (name x)); [|done].
  by rewrite IH, Permutation_swap.
Qed.

Lemma sorted_by_name_perm l : sorted_by_name l ≡ₚ l.
Proof.
  induction l as [|x l IH]; [done|]. cbn.
  by rewrite insert_by_name_perm, IH.
Qed.

Lemma in_name_order_cons a l :
  in_name_order (a :: l) <->
  Forall (fun b => str_lt (name b) (name a) = false) l /\ in_name_order l.
Proof.
  unfold in_name_order. split.
  - intros Ho. split.
    + apply Forall_lookup. intros j b Hb.
      apply (Ho 0%nat (S j) a b); [lia|done|done].
    + intros i j b c Hij Hb Hc. apply (Ho (S i) (S j) b c); [lia|done|done].
  - intros [Hall Ho] [|i] [|j] b c Hij Hb Hc; try lia.
    + injection Hb as <-. cbn in Hc.
      by apply (proj1 (Forall_lookup _ _) Hall j c).
    + cbn in Hb, Hc. apply (Ho i j b c); [lia|done|done].
Qed.

Lemma insert_by_name_order x l :
  in_name_order l -> in_name_order (insert_by_name x l).
Proof.
  induction l as [|y l IH]; intros Ho.
  - cbn. apply in_name_order_cons. split; [done|]. by intros ? ? ? ? ? [].
  - apply in_name_order_cons in Ho as [Hall Ho]. cbn.
    destruct (str_lt (name y) (name x)) eqn:Hlt.
    + apply in_name_order_cons. split; [|by apply IH].
      rewrite insert_by_name_perm. constructor; [|done].
      by apply str_lt_asym.
    + apply in_name_order_cons. split.
      * constructor; [done|].
        eapply Forall_impl; [exact Hall|]. cbn. intros b Hb.
        by eapply str_le_trans.
      * by apply in_name_order_cons.
Qed.

Lemma sorted_by_name_order l : in_name_order (sorted_by_name l).
Proof.
  induction l as [|x l IH]; [by intros ? ? ? ? ? []|].
  cbn. by apply insert_by_name_order.
Qed.

Lemma named_insert_by_name n x l :
  named n (insert_by_name x l) = named n (x :: l).
Proof.
  induction l as [|y l IH]; [done|]. cbn [insert_by_name].
  destruct (str_lt (name y) (name x)) eqn:Hlt; [|done].
  unfold named in *. cbn [List.filter] in *. rewrite IH.
  destruct (bool_decide (name x = n)) eqn:Hx; [|done].
  destruct (bool_decide (name y = n)) eqn:Hy; [|done].
  apply bool_decide_eq_true in Hx, Hy.
  by rewrite Hx, Hy, str_lt_irrefl in Hlt.
Qed.

Lemma named_sorted_by_name n l : named n (sorted_by_name l) = named n l.
Proof.
  induction l as [|x l IH]; [done|].
  change (sorted_by_name (x :: l)) with (insert_by_name x (sorted_by_name l)).
  rewrite named_insert_by_name. unfold named in *. cbn [List.filter].
  by rewrite IH.
Qed.

Section Catalog.
Variable title : pystr -> pystr.

Lemma entry_of_fields item e :
  entry_of title item = Ok e ->
  char e = item.1 /\
  codepoints e = str_join (u "_") (List.map format_04X (char e)) /\
  category e = dict_get item.2 "status" (PStr []) /\
  exists en,
    dict_get item.2 "en" (PStr (u "Unknown")) = PStr en /\
    name e = title (replace 95 32 (strip 58 en)).
Proof.
  destruct item as [c data]. unfold entry_of. cbn [fst snd].
  destruct (dict_get data "en" (PStr (u "Unknown"))) as [| | | |en| |];
    try done.
  intros [= <-]. cbn [char codepoints category name]. repeat split.
  by exists en.
Qed.

Lemma res_map_entries data result :
  res_map (entry_of title) data = Ok result ->
  Forall2 (fun item e => entry_of title item = Ok e) data result.
Proof.
  revert result. induction data as [|item data IH]; intros result.
  - intros [= <-]. constructor.
  - cbn [res_map]. intros Hr.
    apply res_bind_ok in Hr as (e & He & Hr).
    apply res_bind_ok in Hr as (es & Hes & [= <-]).
    constructor; [done|]. by apply IH.
Qed.

(** X25. The catalog is ordered by name: when [get_all_emojis]
    returns, it returns the entries of the emoji data, one for each
    emoji and no other, each named by the title-cased English name
    without its colons and with spaces for underscores, in an order
    where no entry comes after one with a greater name; entries of the
    same name stay in the order of the emoji data. *)
Theorem catalog_is_in_name_order data emojis :
  get_all_emojis title data = Ok emojis ->
  exists result,
    Forall2 (fun item e =>
               char e = item.1 /\
               category e = dict_get item.2 "status" (PStr []) /\
               exists en,
                 dict_get item.2 "en" (PStr (u "Unknown")) = PStr en /\
                 name e = title (replace 95 32 (strip 58 en)))
            data result /\
    emojis ≡ₚ result /\
    in_name_order emojis /\
    forall n, named n emojis = named n result.
Proof.
  unfold get_all_emojis. intros Hg.
  apply res_bind_ok in Hg as (result & Hr & [= <-]).
  exists result. split.
  - eapply Forall2_impl; [by apply res_map_entries|].
    intros item e He. apply entry_of_fields in He.
    destruct He as (? & _ & ? & ?). by repeat split.
  - split; [apply sorted_by_name_perm|].
    split; [apply sorted_by_name_order|].
    intros n. apply named_sorted_by_name.
Qed.

(** X26. The catalog and the file names agree on the code points:
    for every entry that [get_all_emojis] returns, the emoji is one of
    the emoji data and the file name that [_safe_output_path] gives to
    a job for it is [emoji_], the [codepoints] field of the entry,
    [_s], the seed, the batch suffix if any, and [.png]. *)
Theorem catalog_codepoints_name_the_files data emojis item
    (seed batch_index batch_size : Z) :
  get_all_emojis title data = Ok emojis ->
  item ∈ emojis ->
  char item ∈ List.map fst data /\
  output_file_name (char item) seed batch_index batch_size
  = u "emoji_" ++ codepoints item ++ u "_s" ++ format_int seed
    ++ (if 1 <? batch_size then u "_b" ++ format_int batch_index else [])
    ++ u ".png".
Proof.
  unfold get_all_emojis. intros Hg Hin.
  apply res_bind_ok in Hg as (result & Hr & [= <-]).
  rewrite sorted_by_name_perm in Hin.
  apply res_map_entries in Hr.
  destruct (proj1 (list_elem_of_lookup _ _) Hin) as [i Hi].
  destruct (Forall2_lookup_r _ _ _ _ _ Hr Hi) as (source & Hs & He).
  apply entry_of_fields in He as (Hc & Hcp & _).
  split.
  - rewrite Hc. apply list_elem_of_fmap. exists source. split; [done|].
    by eapply list_elem_of_lookup_2.
  - unfold output_file_name. by rewrite Hcp.
Qed.

(** X27. [get_all_emojis] fails only on emoji data whose English name
    is not a string, and then with [AttributeError]; otherwise it
    returns as many entries as there are emojis. *)
Theorem catalog_needs_string_names data :
  match get_all_emojis title data with
  | Ok emojis =>
      List.length emojis = List.length data /\
      Forall (fun item =>
                exists en, dict_get item.2 "en" (PStr (u "Unknown")) = PStr en)
             data
  | Raise e =>
      e = AttributeError /\
      Exists (fun item =>
                forall en, dict_get item.2 "en" (PStr (u "Unknown")) <> PStr en)
             data
  end.
Proof.
  unfold get_all_emojis.
  assert (Hr : match res_map (entry_of title) data with
               | Ok result =>
                   List.length result = List.length data /\
                   Forall (fun item =>
                             exists en, dict_get item.2 "en" (PStr (u "Unknown"))
                                        = PStr en) data
               | Raise e =>
                   e = AttributeError /\
                   Exists (fun item =>
                             forall en, dict_get item.2 "en" (PStr (u "Unknown"))
                                        <> PStr en) data
               end).
  { induction data as [|[c d] data IH]; [done|].
    cbn [res_map]. unfold entry_of at 1. cbn [snd] in *.
    destruct (dict_get d "en" (PStr (u "Unknown"))) as [| | | |en| |] eqn:Hen;
      cbn [res_bind];
      try (split; [done|]; apply Exists_cons_hd; cbn [snd]; by rewrite Hen).
    destruct (res_map (entry_of title) data) as [result|e]; cbn [res_bind].
    - destruct IH as [Hlen Hall]. split; [cbn [List.length]; by rewrite Hlen|].
      constructor; [|done]. cbn [snd]. by eexists.
    - destruct IH as [-> Hex]. split; [done|]. by apply Exists_cons_tl. }
  destruct (res_map (entry_of title) data) as [result|e]; cbn [res_bind];
    [|done].
  destruct Hr as [<- Hall]. split; [|done].
  by rewrite sorted_by_name_perm.
Qed.
End Catalog.
End CatalogFacts.

(** ** Witnesses of the further properties *)


Lemma unknown_command_is_ignored_witness :
  @dispatch sample_builtins sample_collaborators
    (<["cmd" := PStr (u "ping")]> ∅) Proc_init
  = (Ok Next, Proc_init).
Proof.
  apply (@unknown_command_is_ignored sample_builtins sample_collaborators).
  intros name Hin. cbn in Hin.
  destruct Hin as [<-|[<-|[<-|[<-|[<-|[<-|[]]]]]]]; vm_compute; discriminate.
Defined.

Lemma cancel_and_quit_only_raise_the_flag_witness :
  exists p',
    @dispatch sample_builtins sample_collaborators
      (<["cmd" := PStr (u "cancel")]> ∅) (ready Proc_init) = (Ok Next, p') /\
    @dispatch sample_builtins sample_collaborators
      (<["cmd" := PStr (u "quit")]> ∅) (ready Proc_init) = (Ok Break, p') /\
    @dispatch sample_builtins sample_collaborators
      (<["cmd" := PStr (u "cancel")]> ∅) p' = (Ok Next, p') /\
    state p' = set_cancel_requested true (state (ready Proc_init)) /\
    stdout p' = stdout (ready Proc_init) /\
    calls p' = calls (ready Proc_init) /\
    jobs p' = jobs (ready Proc_init).
Proof.
  apply (@cancel_and_quit_only_raise_the_flag sample_builtins sample_collaborators);
    reflexivity.
Defined.

Lemma batch_lifecycle_witness :
  exists p1 p2 p3,
    @dispatch sample_builtins sample_collaborators sample_batch (ready Proc_init)
    = (Ok (WorkerStarted sample_batch), p1) /\
    state p1
    = set_worker_thread (Some true) (set_run_lock true (state (ready Proc_init))) /\
    stdout p1 = stdout (ready Proc_init) /\
    calls p1 = calls (ready Proc_init) ++ [CallMkdir (u "out")] /\
    batch_in_flight (state p1) /\
    @_run_generate_all_worker sample_builtins sample_collaborators (fun _ => false)
      sample_batch p1 = (Ok tt, p2) /\
    worker_exits p2 = (Ok tt, p3) /\
    is_busy (state p3) = false /\
    _run_lock (state p3) = false.
Proof.
  apply (@batch_lifecycle sample_builtins sample_collaborators (fun _ => false)
           sample_batch (ready Proc_init) (u "out")); reflexivity.
Defined.

Lemma batch_without_output_dir_keeps_the_lock_witness :
  exists p',
    @dispatch sample_builtins sample_collaborators
      (delete "output_dir" sample_batch) (ready Proc_init)
    = (Raise (KeyError "output_dir"), p') /\
    state p' = set_run_lock true (state (ready Proc_init)) /\
    stdout p' = stdout (ready Proc_init) /\
    calls p' = calls (ready Proc_init) /\
    is_busy (state p') = false /\
    _run_lock (state p') = true.
Proof.
  apply (@batch_without_output_dir_keeps_the_lock sample_builtins
           sample_collaborators); reflexivity.
Defined.



Lemma batch_without_prompt_stops_at_first_item_witness :
  exists p',
    @_run_generate_all_worker sample_builtins sample_collaborators (fun _ => false)
      (delete "prompt" sample_batch) (ready Proc_init) = (Ok tt, p') /\
    stdout p'
    = stdout (ready Proc_init)
      ++ [EvProgress (@uuid4 sample_builtins (uuid_count (ready Proc_init))) 1
            (@batch_total sample_collaborators 2) (char (sample_item grinning_face));
          EvError (Some (PStr [])) (@str_of_exn sample_builtins (KeyError "prompt"))] /\
    jobs p' = jobs (ready Proc_init) /\
    calls p' = calls (ready Proc_init) /\
    current_index (state p') = 1 /\
    total_items (state p') = @batch_total sample_collaborators 2 /\
    current_emoji (state p') = char (sample_item grinning_face) /\
    _run_lock (state p') = false.
Proof.
  apply (@batch_without_prompt_stops_at_first_item sample_builtins
           sample_collaborators (fun _ => false) (delete "prompt" sample_batch)
           (ready Proc_init) sample_engine sample_batch_settings
           sample_batch_settings 2 42 (u "out") (sample_item grinning_face)
           [sample_item beaming_face; sample_item tears_of_joy]);
    vm_compute; reflexivity.
Defined.

Lemma normalize_settings_by_key_witness :
  converted_at (@as_int sample_builtins) "output_size_px"
    (<["cfg_scale" := PInt 7]> (<["seed" := PBool true]>
      (<["same_seed" := PBool true]> ∅)))
    (<["guidance_scale" := PFloat (F64.of_Z 7)]> (<["seed" := PInt 1]> ∅)) /\
  converted_at (@as_int sample_builtins) "num_inference_steps"
    (<["cfg_scale" := PInt 7]> (<["seed" := PBool true]>
      (<["same_seed" := PBool true]> ∅)))
    (<["guidance_scale" := PFloat (F64.of_Z 7)]> (<["seed" := PInt 1]> ∅)) /\
  converted_at (@as_int sample_builtins) "seed"
    (<["cfg_scale" := PInt 7]> (<["seed" := PBool true]>
      (<["same_seed" := PBool true]> ∅)))
    (<["guidance_scale" := PFloat (F64.of_Z 7)]> (<["seed" := PInt 1]> ∅)) /\
  converted_at (@as_int sample_builtins) "batch_size"
    (<["cfg_scale" := PInt 7]> (<["seed" := PBool true]>
      (<["same_seed" := PBool true]> ∅)))
    (<["guidance_scale" := PFloat (F64.of_Z 7)]> (<["seed" := PInt 1]> ∅)) /\
  converted_at (@as_float sample_builtins) "strength"
    (<["cfg_scale" := PInt 7]> (<["seed" := PBool true]>
      (<["same_seed" := PBool true]> ∅)))
    (<["guidance_scale" := PFloat (F64.of_Z 7)]> (<["seed" := PInt 1]> ∅)) /\
  (exists f, @py_float sample_builtins (PInt 7) = Ok f /\
             (<["guidance_scale" := PFloat (F64.of_Z 7)]> (<["seed" := PInt 1]> ∅)
                : dict) !! "guidance_scale" = Some (PFloat f)) /\
  converted_at as_bool "remove_background"
    (<["cfg_scale" := PInt 7]> (<["seed" := PBool true]>
      (<["same_seed" := PBool true]> ∅)))
    (<["guidance_scale" := PFloat (F64.of_Z 7)]> (<["seed" := PInt 1]> ∅)) /\
  converted_at (@as_float sample_builtins) "remove_background_strength"
    (<["cfg_scale" := PInt 7]> (<["seed" := PBool true]>
      (<["same_seed" := PBool true]> ∅)))
    (<["guidance_scale" := PFloat (F64.of_Z 7)]> (<["seed" := PInt 1]> ∅)) /\
  converted_at (@as_str sample_builtins) "rembg_model"
    (<["cfg_scale" := PInt 7]> (<["seed" := PBool true]>
      (<["same_seed" := PBool true]> ∅)))
    (<["guidance_scale" := PFloat (F64.of_Z 7)]> (<["seed" := PInt 1]> ∅)) /\
  (<["guidance_scale" := PFloat (F64.of_Z 7)]> (<["seed" := PInt 1]> ∅) : dict)
    !! "same_seed" = None /\
  (<["guidance_scale" := PFloat (F64.of_Z 7)]> (<["seed" := PInt 1]> ∅) : dict)
    !! "max_blend_cap" = None /\
  (<["guidance_scale" := PFloat (F64.of_Z 7)]> (<["seed" := PInt 1]> ∅) : dict)
    !! "cfg_scale" = None /\
  (forall k, k ∉ recognized_settings ->
     (<["guidance_scale" := PFloat (F64.of_Z 7)]> (<["seed" := PInt 1]> ∅) : dict)
       !! k
     = (<["cfg_scale" := PInt 7]> (<["seed" := PBool true]>
         (<["same_seed" := PBool true]> ∅)) : dict) !! k).
Proof.
  apply (@normalize_settings_by_key sample_builtins). vm_compute. reflexivity.
Defined.

Lemma cfg_scale_overrides_guidance_scale_witness :
  match (<["cfg_scale" := PInt 7]> (<["guidance_scale" := PInt 3]> ∅) : dict)
          !! "cfg_scale" with
  | Some v =>
      exists f, @py_float sample_builtins v = Ok f /\
                (<["guidance_scale" := PFloat (F64.of_Z 7)]> ∅ : dict)
                  !! "guidance_scale" = Some (PFloat f)
  | None =>
      converted_at (@as_float sample_builtins) "guidance_scale"
        (<["cfg_scale" := PInt 7]> (<["guidance_scale" := PInt 3]> ∅))
        (<["guidance_scale" := PFloat (F64.of_Z 7)]> ∅)
  end.
Proof.
  apply (@cfg_scale_overrides_guidance_scale sample_builtins). vm_compute.
  reflexivity.
Defined.

Lemma tone_down_softens_witness :
  exists img',
    tone_down (clamp_strength (dyadic_strength 8))
      [sample_pixel 0; sample_pixel 200] = Ok img' /\
    Forall2 softened [sample_pixel 0; sample_pixel 200] img'.
Proof.
  apply (tone_down_softens 8); [lia|].
  repeat constructor; unfold byte_alpha; cbn; lia.
Defined.

Lemma batch_jobs_follow_the_catalog_witness :
  exists p' js,
    @_handle_generate_all sample_builtins sample_collaborators (fun _ => false)
      sample_batch (ready Proc_init) = (Ok tt, p') /\
    jobs p' = jobs (ready Proc_init) ++ js /\
    forall n job,
      1 <= n ->
      js !! Z.to_nat (n - 1) = Some job ->
      exists item output_dir,
        @get_all_emojis sample_collaborators
          !! Z.to_nat ((n - 1) mod @catalog_size sample_collaborators) = Some item /\
        sample_batch !! "output_dir" = Some (PStr output_dir) /\
        job !! "cmd" = Some (PStr (u "generate")) /\
        job !! "emoji" = Some (PStr (char item)) /\
        job !! "prompt" = sample_batch !! "prompt" /\
        job !! "output_path"
        = Some (PStr (@_safe_output_path sample_builtins
                        (@path_str sample_builtins output_dir) (char item)
                        (if false then 42 else 42 + (n - 1))
                        ((n - 1) / @catalog_size sample_collaborators + 1)
                        (Z.max 1 2))) /\
        job !! "preserve_progress_state" = Some (PBool true).
Proof.
  apply (@batch_jobs_follow_the_catalog sample_builtins sample_collaborators
           (fun _ => false) sample_batch 2 42 false (ready Proc_init)
           sample_engine).
  - reflexivity.
  - exact sample_batch_request.
Defined.


(** ** Witnesses of the properties of the engine and of the catalog *)

Section EngineWitnesses.
Import Generator.

Lemma fallback_engine_refuses_witness :
  @generate sample_builtins sample_torch sample_fallback [] (PStr (u "a cat"))
    ∅ []
  = (Raised (RuntimeError (u "Diffusion pipeline unavailable: "
                           ++ fallback_reason sample_fallback)), []).
Proof.
  apply (@fallback_engine_refuses sample_builtins sample_torch). by left.
Defined.

Lemma torch_seed_is_reduced_witness :
  match @py_int sample_builtins
          (dict_get (<["seed" := PInt (-1)]> ∅) "seed" (PInt 42)) with
  | Ok s =>
      0 <= s mod max_seed <= 2 ^ 63 - 2 /\
      (0 <= s <= 2 ^ 63 - 2 -> s mod max_seed = s) /\
      exists calls,
        (@generate sample_builtins sample_torch sample_live []
           (PStr (u "a cat")) (<["seed" := PInt (-1)]> ∅) []).2
        = [] ++ ManualSeed (device sample_live) (s mod max_seed) :: calls
  | Raise e =>
      @generate sample_builtins sample_torch sample_live []
        (PStr (u "a cat")) (<["seed" := PInt (-1)]> ∅) []
      = (Raised (Other e), [])
  end.
Proof.
  apply (@torch_seed_is_reduced sample_builtins sample_torch sample_live []
           (PStr (u "a cat")) (<["seed" := PInt (-1)]> ∅) 0%nat []);
    reflexivity.
Defined.

Lemma pipeline_gets_what_it_supports_witness :
  exists the_pipe s before arguments,
    pipe sample_live = Some the_pipe /\
    _fallback sample_live = false /\
    @py_int sample_builtins (dict_get (<["seed" := PInt 7]> ∅) "seed" (PInt 42))
    = Ok s /\
    [ManualSeed (u "cpu") 7;
     PipeCall 0%nat
       (@pipe_kwargs sample_live (settings_of (<["seed" := PInt 7]> ∅))
          (PStr (u "a cat")) [] 7)]
    = before ++ [PipeCall the_pipe arguments] /\
    @pipe_call sample_torch (List.length before) the_pipe arguments = Done [] /\
    (forall k, is_Some (arguments !! k) ->
               k ∈ pipeline_arguments /\ k ∈ _supported_call_params sample_live) /\
    (forall k v,
        arguments !! k = Some v <->
        k ∈ _supported_call_params sample_live /\
        (k = "prompt" /\ v = Value (PStr (u "a cat")) \/
         k = "image" /\
           v = (if bool_decide (mode sample_live = u "flux2klein")
                then Reference [@conditioning_image sample_torch []]
                else Conditioning (@conditioning_image sample_torch [])) \/
         k = "num_inference_steps" /\
           v = Value (dict_get (<["seed" := PInt 7]> ∅)
                        "num_inference_steps" (PInt 30)) \/
         k = "guidance_scale" /\
           v = Value (dict_get (<["seed" := PInt 7]> ∅)
                        "guidance_scale" (PFloat (F64.of_Z 30))) \/
         k = "generator" /\
           v = TorchGenerator (device sample_live) (s mod max_seed) \/
         k = "strength" /\
           v = Value (dict_get (<["seed" := PInt 7]> ∅)
                        "strength" (PFloat one_tenth)))).
Proof.
  apply (@pipeline_gets_what_it_supports sample_builtins sample_torch
           sample_live [] (PStr (u "a cat")) (<["seed" := PInt 7]> ∅) []).
  reflexivity.
Defined.

End EngineWitnesses.

Section CatalogWitnesses.
Import EmojiCatalog.

Lemma catalog_is_in_name_order_witness :
  exists result,
    Forall2 (fun item e =>
               char e = item.1 /\
               category e = dict_get item.2 "status" (PStr []) /\
               exists en,
                 dict_get item.2 "en" (PStr (u "Unknown")) = PStr en /\
                 name e = replace 95 32 (strip 58 en))
            sample_data result /\
    sample_catalog ≡ₚ result /\
    in_name_order sample_catalog /\
    forall n, named n sample_catalog = named n result.
Proof.
  apply (catalog_is_in_name_order (fun s => s) sample_data sample_catalog).
  reflexivity.
Defined.

Lemma catalog_codepoints_name_the_files_witness :
  [0x2764%N; 0xFE0F%N] ∈ List.map fst sample_data /\
  output_file_name [0x2764%N; 0xFE0F%N] 42 2 3
  = u "emoji_" ++ u "2764_FE0F" ++ u "_s" ++ format_int 42
    ++ (if 1 <? 3 then u "_b" ++ format_int 2 else []) ++ u ".png".
Proof.
  apply (catalog_codepoints_name_the_files (fun s => s) sample_data
           sample_catalog
           {| char := [0x2764%N; 0xFE0F%N]; name := u "red heart";
              category := PStr []; codepoints := u "2764_FE0F" |} 42 2 3).
  - reflexivity.
  - vm_compute. do 3 right. left.
Defined.
End CatalogWitnesses.
